(** * digitize_board: retry, fallback and pipeline orchestration

    A shallow embedding of [digitize_board.py].  The class [BoardDigitizer]
    becomes a record, its methods become functions in a small state and
    exception monad over a [World]: the file system and the ordered history
    of observable effects (HTTP exchanges, sleeps, file writes, lines
    printed and records logged).  The remote service, the [requests]
    library, the clock and the formatter of the log are the environment
    ([Env]).

    The module configures logging when it is loaded (lines 32-39): level
    [INFO], one handler appending to the file [digitize_board.log] and one
    writing to [sys.stdout].  Every call [logger.info], [logger.warning]
    and [logger.error] is an event of the history and appends its line to
    that file; [logger.debug] (line 164) is below the level and does
    nothing. *)

From Stdlib Require Import ZArith Ascii String List Bool Lia.
From stdpp Require Import base gmap strings list.

Local Open Scope Z_scope.

(** ** Strings *)

Module Str.

(** One line feed, and one double quote character. *)
Definition nl : string := String (ascii_of_nat 10) EmptyString.
Definition dq : string := String (ascii_of_nat 34) EmptyString.

(** [str.lower()] on the ASCII range.  Python lowers by code point; on the
    UTF-8 bytes of a string the two agree for every ASCII letter, and no
    other code point lowers to a letter of the words tested below
    ([vision], and the four supported suffixes). *)
Definition lower_ascii (c : ascii) : ascii :=
  let n := nat_of_ascii c in
  if ((65 <=? n)%nat && (n <=? 90)%nat)%bool then ascii_of_nat (n + 32) else c.

Fixpoint lower (s : string) : string :=
  match s with
  | EmptyString => EmptyString
  | String c s' => String (lower_ascii c) (lower s')
  end.

(** [str.upper()], used by the batch glob. *)
Definition upper_ascii (c : ascii) : ascii :=
  let n := nat_of_ascii c in
  if ((97 <=? n)%nat && (n <=? 122)%nat)%bool then ascii_of_nat (n - 32) else c.

Fixpoint upper (s : string) : string :=
  match s with
  | EmptyString => EmptyString
  | String c s' => String (upper_ascii c) (upper s')
  end.

(** [needle in hay]. *)
Fixpoint contains (needle hay : string) : bool :=
  if String.prefix needle hay then true
  else match hay with
       | EmptyString => false
       | String _ hay' => contains needle hay'
       end.

(** The same as a proposition: [hay] is [pre + needle + post]. *)
Definition infix_of (needle hay : string) : Prop :=
  exists pre post, hay = pre +:+ needle +:+ post.

(** Truthiness of a [str]: only the empty string is falsy. *)
Definition truthy (s : string) : bool :=
  match s with EmptyString => false | String _ _ => true end.

(** [sep.join(l)]. *)
Fixpoint join (sep : string) (l : list string) : string :=
  match l with
  | [] => ""
  | [x] => x
  | x :: rest => x +:+ sep +:+ join sep rest
  end.

End Str.

(** ** [base64.b64encode] *)

Module Base64.

Definition alphabet : string :=
  "ABCDEFGHIJKLMNOPQRSTUVWXYZabcdefghijklmnopqrstuvwxyz0123456789+/".

Definition digit (n : Z) : ascii :=
  match String.get (Z.to_nat (Z.land n 63)) alphabet with
  | Some c => c
  | None => "="%char
  end.

Definition byte (c : ascii) : Z := Z.of_nat (nat_of_ascii c).

Fixpoint b64encode (s : string) : string :=
  match s with
  | EmptyString => EmptyString
  | String a EmptyString =>
      let n := Z.shiftl (byte a) 16 in
      String (digit (Z.shiftr n 18)) (String (digit (Z.shiftr n 12)) "==")
  | String a (String b EmptyString) =>
      let n := Z.lor (Z.shiftl (byte a) 16) (Z.shiftl (byte b) 8) in
      String (digit (Z.shiftr n 18)) (String (digit (Z.shiftr n 12))
        (String (digit (Z.shiftr n 6)) "="))
  | String a (String b (String c rest)) =>
      let n := Z.lor (Z.lor (Z.shiftl (byte a) 16) (Z.shiftl (byte b) 8)) (byte c) in
      String (digit (Z.shiftr n 18)) (String (digit (Z.shiftr n 12))
        (String (digit (Z.shiftr n 6)) (String (digit n) (b64encode rest))))
  end.

End Base64.

(** ** Values read from the JSON of an answer *)

(** The program does not check what the JSON holds under [content]: it is
    a [str], or any other value ([None] for [null], a list, a number, a
    dict).  Of a value that is no [str] the program only ever uses the text
    an f-string makes of it, [shown]. *)
Inductive PyValue : Type :=
  | PyStr (s : string)
  | PyOther (shown : string).

(** [f"{v}"]. *)
Definition fmt (v : PyValue) : string :=
  match v with
  | PyStr s => s
  | PyOther shown => shown
  end.

(** ** The remote service as [requests] shows it *)

(** What reading the answer out of a response does:
    [response.json()["choices"][0]["message"]["content"]]. *)
Inductive BodyResult : Type :=
  | Content (content : PyValue)
      (** well-formed JSON with the expected keys; the value under
          [content] is returned as it is *)
  | InvalidJSON
      (** [response.json()] raises [requests.exceptions.JSONDecodeError],
          a [RequestException] *)
  | BadShape.
      (** the indexing raises [KeyError], [IndexError] or [TypeError] *)

(** [requests.Response], as far as the program reads it. *)
Record Response : Type := mkResponse {
  status_code : Z;
  text : string;
  body : BodyResult
}.

(** Exceptions raised inside the [try] block of [_call_api], by the class
    the [except] clauses tell apart.  [Timeout] and [HTTPError] are
    subclasses of [RequestException]; [RequestException] here stands for
    the remaining ones (connection errors, invalid JSON, ...), and
    [OtherException] for everything that is not a [RequestException]. *)
Inductive PyExc : Type :=
  | Timeout
  | HTTPError (response : option Response)
  | RequestException
  | OtherException.

(** What one call of [requests.post] does. *)
Inductive PostResult : Type :=
  | PostRaises (e : PyExc)
  | PostReturns (r : Response).

(** [Response.raise_for_status()]: raises [HTTPError(response=self)] for a
    status from 400 to 599. *)
Definition raise_for_status (r : Response) : option PyExc :=
  if ((400 <=? status_code r) && (status_code r <? 600))%bool
  then Some (HTTPError (Some r)) else None.

(** [Response.ok]: whether [raise_for_status] stays silent. *)
Definition ok (r : Response) : bool :=
  match raise_for_status r with
  | Some _ => false
  | None => true
  end.

(** [Response.__bool__] returns [self.ok]: a response with an error status
    is falsy.  [None] is falsy as well. *)
Definition response_truthy (o : option Response) : bool :=
  match o with
  | Some r => ok r
  | None => false
  end.

(** [status_code] in the [except HTTPError] clauses is the integer of the
    response or the string ["?"]. *)
Inductive StatusCode : Type :=
  | Code (n : Z)
  | Unknown.

(** [e.response.status_code if e.response else "?"]. *)
Definition status_of (e_response : option Response) : StatusCode :=
  match e_response with
  | Some r => if response_truthy e_response then Code (status_code r) else Unknown
  | None => Unknown
  end.

(** [e.response.text if e.response else ""]. *)
Definition error_body_of (e_response : option Response) : string :=
  match e_response with
  | Some r => if response_truthy e_response then text r else ""
  | None => ""
  end.

(** [status_code == n]; the string ["?"] equals no integer. *)
Definition status_is (s : StatusCode) (n : Z) : bool :=
  match s with
  | Code m => m =? n
  | Unknown => false
  end.

(** ** Chat messages and the request *)

Inductive ContentPart : Type :=
  | ImageUrl (url : string)
  | TextPart (text : string).

Inductive MessageContent : Type :=
  | Plain (text : string)
  | Parts (parts : list ContentPart).

Record Message : Type := mkMessage {
  role : string;
  content : MessageContent
}.

(** The arguments of [requests.post]: the bearer token of the headers and
    the JSON payload. *)
Record Request : Type := mkRequest {
  req_bearer : string;
  req_model : string;
  req_messages : list Message;
  req_max_tokens : Z
}.

(** ** Exceptions leaving the methods *)

(** The messages of the [RuntimeError]s of [_call_api]. *)
Inductive Failure : Type :=
  | InvalidApiKey
  | InsufficientCredit
  | NoVisionSupport (used_model : string)
  | AllAttemptsFailed (last_exception : option PyExc).

Inductive Exn : Type :=
  | RuntimeError (why : Failure)
  | Escaped (e : PyExc)
      (** an exception of the [try] block no [except] clause takes *)
  | RecursionError
      (** the interpreter's stack is used up *)
  | FileNotFoundError (path : string)
  | ValueError (suffix : string)
  | IsADirectoryError (path : string)
      (** [open] of a path that is a directory *)
  | TypeError.
      (** [str + value] for a value that is no [str] *)

Inductive Outcome (A : Type) : Type :=
  | Return (a : A)
  | Raise (e : Exn).
Arguments Return {A} a.
Arguments Raise {A} e.

(** ** What is logged and printed *)

Inductive Level : Type := INFO | WARNING | ERROR.

(** The four stages, by the method that runs them. *)
Inductive Stage : Type :=
  | AnalyzeStructure
  | TranscribeRaw
  | CleanAndEnrich
  | SynthesizeSummary.

(** The records handed to [logger], one constructor for each call in the
    source, with the values its f-string shows. *)
Inductive Logged : Type :=
  | ApiCallStarted (attempt : nat) (used_model : string)
      (** line 203 *)
  | ApiCallSucceeded (answer : PostResult)
      (** line 228; the message shows the [usage] entry of the JSON of the
          answer *)
  | TimeoutWarning (attempt : nat) (announced_delay : Z)
      (** line 233 *)
  | RateLimitWarning (status_code : StatusCode)
      (** line 258 *)
  | HttpErrorLogged (status_code : StatusCode) (error_body : string)
      (** line 262; the message shows [error_body[:500]] *)
  | ConnectionWarning (attempt : nat) (e : PyExc)
      (** line 268 *)
  | FallbackWarning (used_model fallback_model : string)
      (** lines 274-277 *)
  | StageStarted (stage : Stage)
      (** lines 320, 357, 395, 428 *)
  | StageFinished (stage : Stage)
      (** lines 342, 381, 414, 454 *)
  | Rule
      (** lines 484 and 487: sixty [=] *)
  | BoardStarted (image_name : string)
      (** line 485 *)
  | BoardSettings (template model : string)
      (** line 486 *)
  | RawSaved (raw_path : string)
      (** line 510 *)
  | SummarySaved (summary_path : string)
      (** line 527 *)
  | BoardFinished (board_name : string)
      (** line 529 *)
  | BoardFailed (image_name : string) (e : Exn)
      (** line 707 *)
  | ConnectionTestStarted (model : string).
      (** line 607 *)

(** What [main] prints: one line block per image and the closing tally;
    and what [run_connection_test] prints: the success lines with the
    answer and the model, the API error line with the status and the text
    shown after it (the body of the response, or the exception when
    [e.response] is falsy), or the connection error line with the
    exception. *)
Inductive Printed : Type :=
  | Succeeded (image_name raw_path summary_path : string)
  | Failed (image_name : string) (e : Exn)
  | Tally (success_count error_count : nat) (output_dir : string)
  | ConnectionOk (answer : PyValue) (model : string)
  | ApiFailure (status : StatusCode) (shown : string + PyExc)
  | ConnectionFailure (e : PyExc).

(** ** The world *)

Inductive Event : Type :=
  | Post (rq : Request) (res : PostResult)
  | Sleep (seconds : Z)
  | WriteText (path : string) (data : string)
  | Print (what : Printed)
  | Log (level : Level) (what : Logged).

(** What a path holds: a regular file with its bytes, or a directory. *)
Inductive Entry : Type :=
  | File (data : string)
  | Directory.

Global Instance Entry_eq_dec : EqDecision Entry.
Proof. solve_decision. Defined.

(** The file system maps the spelling [str(path)] of a path to what is
    there; two spellings of one file (through [..] or a symbolic link) are
    outside the model. *)
Record World : Type := mkWorld {
  files : gmap string Entry;
  trace : list Event
}.

(** [log_line] is the line the handlers' formatter (line 34) makes of a
    record: time stamp, level name, message and line feed.  [resolve] is
    [Path.resolve()], which depends on the working directory. *)
Record Env : Type := mkEnv {
  endpoint : list Event -> Request -> PostResult;
  strftime : list Event -> string;
  log_line : list Event -> Level -> Logged -> string;
  resolve : string -> string
}.

(** ** The monad of the methods: state passing with exceptions *)

Definition M (A : Type) : Type := World -> Outcome A * World.

Definition ret {A} (a : A) : M A := fun w => (Return a, w).

Definition raise {A} (e : Exn) : M A := fun w => (Raise e, w).

Definition bind {A B} (m : M A) (k : A -> M B) : M B :=
  fun w =>
    match m w with
    | (Return a, w') => k a w'
    | (Raise e, w') => (Raise e, w')
    end.

Declare Scope py_scope.
Delimit Scope py_scope with py.
Notation "x <- m ;; k" := (bind m (fun x => k))
  (at level 100, m at next level, right associativity) : py_scope.
Notation "m ;;; k" := (bind m (fun _ => k))
  (at level 100, right associativity) : py_scope.
Local Open Scope py_scope.

(** [try: m except Exception as e: h e]. *)
Definition try_except {A} (m : M A) (h : Exn -> M A) : M A :=
  fun w =>
    match m w with
    | (Return a, w') => (Return a, w')
    | (Raise e, w') => h e w'
    end.

Definition emit (ev : Event) : M unit :=
  fun w => (Return tt, mkWorld (files w) (trace w ++ [ev])).

(** [requests.post(...)]: the environment answers, the exchange is
    recorded. *)
Definition post (E : Env) (rq : Request) : M PostResult :=
  fun w =>
    let res := endpoint E (trace w) rq in
    (Return res, mkWorld (files w) (trace w ++ [Post rq res])).

(** [time.sleep(seconds)]. *)
Definition sleep (seconds : Z) : M unit := emit (Sleep seconds).

(** [print(...)]. *)
Definition print (what : Printed) : M unit := emit (Print what).

(** [time.strftime('%Y-%m-%d %H:%M')]. *)
Definition now (E : Env) : M string :=
  fun w => (Return (strftime E (trace w)), w).

(** The file of the [FileHandler] of line 36. *)
Definition LOG_FILE : string := "digitize_board.log".

(** The file after one more line.  The handler has held the file open
    since the module was loaded; where the path holds no regular file the
    line starts one. *)
Definition appended (old : option Entry) (line : string) : Entry :=
  match old with
  | Some (File data) => File (data +:+ line)
  | _ => File line
  end.

(** [logger.info(...)], [logger.warning(...)], [logger.error(...)]: the
    record goes to both handlers. *)
Definition log (E : Env) (level : Level) (what : Logged) : M unit :=
  fun w =>
    (Return tt,
     mkWorld (<[LOG_FILE := appended (files w !! LOG_FILE)
                              (log_line E (trace w) level what)]> (files w))
             (trace w ++ [Log level what])).

(** [path.write_text(data)].  Opening a directory for writing raises;
    otherwise the write is taken to succeed (the output directory exists
    since [__init__] made it). *)
Definition write_text (path data : string) : M unit :=
  fun w =>
    match files w !! path with
    | Some Directory => (Raise (IsADirectoryError path), w)
    | _ => (Return tt, mkWorld (<[path := File data]> (files w))
                               (trace w ++ [WriteText path data]))
    end.

(** [path.exists()]. *)
Definition exists_ (path : string) : M bool :=
  fun w => (Return (bool_decide (is_Some (files w !! path))), w).

(** [open(path, "rb")] and [f.read()]. *)
Definition read_bytes (path : string) : M string :=
  fun w =>
    match files w !! path with
    | Some (File data) => (Return data, w)
    | Some Directory => (Raise (IsADirectoryError path), w)
    | None => (Raise (FileNotFoundError path), w)
    end.

(** [text + v] for a [str] on the left: concatenation when [v] is a
    [str], [TypeError] otherwise. *)
Definition str_add (text : string) (v : PyValue) : M string :=
  match v with
  | PyStr s => ret (text +:+ s)
  | PyOther _ => raise TypeError
  end.

(** ** Constants of the module *)

Definition retrospektive_text : string :=
  "Dies ist ein Retrospektiven-Board. Typische Kategorien: "
  +:+ "'Was lief gut', 'Was lief schlecht', 'Maßnahmen/Action Items'. "
  +:+ "Achte auf Voting-Punkte zur Priorisierung von Maßnahmen.".

Definition ideensammlung_text : string :=
  "Dies ist ein Ideensammlungs-Board (Brainstorming). "
  +:+ "Zettel sind in thematische Cluster gruppiert. "
  +:+ "Klebepunkte/Votes zeigen Priorisierung der Ideen.".

Definition metaplan_text : string :=
  "Dies ist ein Metaplan-Board. Fragen stehen oben, "
  +:+ "Antworten als Karten darunter. Spalten strukturieren die Themen.".

Definition audit_5s_text : string :=
  "Dies ist ein 5S-Audit-Board. Die 5 Kategorien: "
  +:+ "Sortieren / Setzen / Säubern / Standardisieren / Selbstdisziplin. "
  +:+ "Bewertungen oder Maßnahmen sind den Kategorien zugeordnet.".

Definition BOARD_TEMPLATES : gmap string string :=
  list_to_map [
    ("retrospektive", retrospektive_text);
    ("ideensammlung", ideensammlung_text);
    ("metaplan", metaplan_text);
    ("5s_audit", audit_5s_text);
    ("custom", "")
  ].

(** [BOARD_TEMPLATES.get(key, "")]. *)
Definition BOARD_TEMPLATES_get (key : string) : string :=
  default "" (BOARD_TEMPLATES !! key).

(** [SYSTEM_PROMPT_TEMPLATE.format(context_section=..., confidence_section=...)]. *)
Definition SYSTEM_PROMPT_TEMPLATE (context_section confidence_section : string) : string :=
  let nl := Str.nl in
  let dq := Str.dq in
  "Du bist ein Experte für die Digitalisierung von Workshop-Boards und Metaplan-Wänden." +:+ nl
  +:+ nl
  +:+ context_section +:+ nl
  +:+ nl
  +:+ "Analysiere das Bild nach folgendem strikten Ablauf:" +:+ nl
  +:+ nl
  +:+ "### SCHRITT 1 – STRUKTURANALYSE" +:+ nl
  +:+ "1. Beschreibe zuerst die Struktur: Spalten, Cluster, Matrix, Freiform oder Mindmap?" +:+ nl
  +:+ "2. Haben die Farben der Zettel eine erkennbare Bedeutung? (z.B. Gelb=Fakten, Grün=Ideen, Rot=Kritik)" +:+ nl
  +:+ "   Falls unklar: schreibe " +:+ dq +:+ "generisch" +:+ dq +:+ "." +:+ nl
  +:+ "3. Gibt es Voting-Punkte/Klebepunkte? Wenn ja, zähle sie exakt nach Farbe und Position." +:+ nl
  +:+ "4. Dokumentiere Verbindungen: Pfeile oder Linien zwischen Zetteln." +:+ nl
  +:+ nl
  +:+ "### SCHRITT 2 – TRANSKRIPTION" +:+ nl
  +:+ "Erstelle ein Markdown das die erkannte Struktur abbildet:" +:+ nl
  +:+ "- Spalten → ## Überschriften" +:+ nl
  +:+ "- Cluster → ## Cluster-Titel + verschachtelte Listen" +:+ nl
  +:+ "- Zettel → * Listenpunkte (Text 1:1, inkl. Abkürzungen & Tippfehler)" +:+ nl
  +:+ "- Unleserliches → [unleserlich] oder [?]" +:+ nl
  +:+ "- Votes/Punkte → in Klammern: (3 rote Punkte, 1 grüner Punkt)" +:+ nl
  +:+ "- Farben wenn relevant → (Farbe: Rot) als Annotation" +:+ confidence_section +:+ nl
  +:+ nl
  +:+ "### SCHRITT 5 – QUALITÄTSEINSCHÄTZUNG" +:+ nl
  +:+ "Gib am Ende eine Gesamteinschätzung deiner Erkennungsqualität ab (0-100%) und begründe sie kurz.".

Definition CONFIDENCE_SECTION : string :=
  Str.nl
  +:+ "- Unsichere Erkennungen → mit [?] markieren und Konfidenz in Prozent angeben: [?] (Konfidenz: 65%)".

(** ** class BoardDigitizer *)

(** The object after [__init__]; [output_dir] is [str(self.output_dir)],
    the spelling [pathlib] gives the directory. *)
Record BoardDigitizer : Type := mkBoardDigitizer {
  api_key : string;
  model : string;
  fallback_model : string;
  output_dir : string;
  max_tokens : Z;
  template : string;
  context : string;
  confidence : bool
}.

Definition SUPPORTED_FORMATS : gset string :=
  {[ ".jpg"; ".jpeg"; ".png"; ".webp" ]}.

Definition MAX_RETRIES : nat := 3.

Definition RETRY_BASE_DELAY : Z := 2.

(** A [pathlib.Path] of a file: the spelling [str(path.parent)] of the
    directory it is in ([.] when the path names none) and the two halves
    [stem] and [suffix] of its name, as [pathlib] splits it. *)
Record Path : Type := mkPath {
  parent : string;
  stem : string;
  suffix : string
}.

Definition name (p : Path) : string := stem p +:+ suffix p.

Fixpoint ends_with_slash (s : string) : bool :=
  match s with
  | EmptyString => false
  | String c EmptyString => Ascii.eqb c "/"
  | String _ s' => ends_with_slash s'
  end.

(** What [str(dir / file)] puts before [file]: nothing for the current
    directory, the directory itself when it is a root, and the directory
    with a slash otherwise. *)
Definition dir_prefix (dir : string) : string :=
  if (String.eqb dir "" || String.eqb dir ".")%bool then ""
  else if ends_with_slash dir then dir
  else dir +:+ "/".

(** [str(dir / file)], the key of the file in the file system. *)
Definition joinpath (dir file : string) : string := dir_prefix dir +:+ file.

Definition path_str (p : Path) : string := joinpath (parent p) (name p).

(** *** _encode_image *)

Definition mime_map : gmap string string :=
  list_to_map [
    (".jpg", "image/jpeg");
    (".jpeg", "image/jpeg");
    (".png", "image/png");
    (".webp", "image/webp")
  ].

(** [mime_map.get(suffix, "image/jpeg")]. *)
Definition mime_of (suffix : string) : string :=
  default "image/jpeg" (mime_map !! suffix).

Definition _encode_image (self : BoardDigitizer) (image_path : Path) : M (string * string) :=
  let suffix := Str.lower (suffix image_path) in
  let mime_type := mime_of suffix in
  data <- read_bytes (path_str image_path);;
  ret (Base64.b64encode data, mime_type).

(** *** _build_context_section *)

Definition _build_context_section (self : BoardDigitizer) : string :=
  let template_text := BOARD_TEMPLATES_get (template self) in
  let template_text :=
    if (bool_decide (template self = "custom") && Str.truthy (context self))%bool then
      "Board-Kontext: " +:+ context self
    else if Str.truthy (context self) then
      template_text +:+ Str.nl +:+ Str.nl +:+ "Zusätzlicher Kontext: " +:+ context self
    else template_text in
  if Str.truthy template_text then
    "Board-Kontext:" +:+ Str.nl +:+ template_text +:+ Str.nl
  else "".

(** *** _call_api *)

(** The body of the [try] up to the content: post, [raise_for_status],
    read the content. *)
Definition try_body (res : PostResult) : PyExc + PyValue :=
  match res with
  | PostRaises e => inl e
  | PostReturns r =>
      match raise_for_status r with
      | Some e => inl e
      | None =>
          match body r with
          | Content c => inr c
          | InvalidJSON => inl RequestException
          | BadShape => inl OtherException
          end
      end
  end.

Definition request_of (self : BoardDigitizer) (used_model : string)
    (messages : list Message) : Request :=
  {| req_bearer := api_key self;
     req_model := used_model;
     req_messages := messages;
     req_max_tokens := max_tokens self |}.

(** [if attempt < self.MAX_RETRIES: time.sleep(delay)]. *)
Definition sleep_unless_last (attempt : nat) (delay : Z) : M unit :=
  if (attempt <? MAX_RETRIES)%nat then sleep delay else ret tt.

(** How the [for] loop over the attempts ends without an exception:
    by the [return] inside it, or by running out of attempts. *)
Inductive LoopExit : Type :=
  | Returned (content : PyValue)
  | Exhausted (last_exception : option PyExc).

(** [for attempt in range(attempt, attempt + todo)] with its body. *)
Fixpoint attempt_loop (E : Env) (self : BoardDigitizer) (messages : list Message)
    (used_model : string) (todo attempt : nat) (last_exception : option PyExc)
    : M LoopExit :=
  match todo with
  | O => ret (Exhausted last_exception)
  | S todo' =>
      log E INFO (ApiCallStarted attempt used_model);;;
      res <- post E (request_of self used_model messages);;
      match try_body res with
      | inr content =>
          log E INFO (ApiCallSucceeded res);;;
          ret (Returned content)
      | inl Timeout =>
          log E WARNING (TimeoutWarning attempt (RETRY_BASE_DELAY ^ Z.of_nat attempt));;;
          sleep_unless_last attempt (RETRY_BASE_DELAY ^ Z.of_nat attempt);;;
          attempt_loop E self messages used_model todo' (S attempt) (Some Timeout)
      | inl (HTTPError e_response) =>
          let status_code := status_of e_response in
          let error_body := error_body_of e_response in
          if status_is status_code 401 then
            raise (RuntimeError InvalidApiKey)
          else if status_is status_code 402 then
            raise (RuntimeError InsufficientCredit)
          else if (status_is status_code 400
                   && Str.contains "vision" (Str.lower error_body))%bool then
            raise (RuntimeError (NoVisionSupport used_model))
          else if (status_is status_code 429 || status_is status_code 503)%bool then
            log E WARNING (RateLimitWarning status_code);;;
            sleep_unless_last attempt (RETRY_BASE_DELAY ^ Z.of_nat attempt);;;
            attempt_loop E self messages used_model todo' (S attempt)
              (Some (HTTPError e_response))
          else
            log E ERROR (HttpErrorLogged status_code error_body);;;
            sleep_unless_last attempt RETRY_BASE_DELAY;;;
            attempt_loop E self messages used_model todo' (S attempt)
              (Some (HTTPError e_response))
      | inl RequestException =>
          log E WARNING (ConnectionWarning attempt RequestException);;;
          sleep_unless_last attempt (RETRY_BASE_DELAY ^ Z.of_nat attempt);;;
          attempt_loop E self messages used_model todo' (S attempt)
            (Some RequestException)
      | inl OtherException => raise (Escaped OtherException)
      end
  end.

(** [model or self.model]: [None] and the empty string are falsy. *)
Definition model_or (model : option string) (self_model : string) : string :=
  match model with
  | Some m => if Str.truthy m then m else self_model
  | None => self_model
  end.

(** [depth] is the number of nested activations of [_call_api] the
    interpreter's stack still has room for. *)
Fixpoint _call_api (E : Env) (depth : nat) (self : BoardDigitizer)
    (messages : list Message) (model_arg : option string) : M PyValue :=
  match depth with
  | O => raise RecursionError
  | S depth' =>
      let used_model := model_or model_arg (model self) in
      r <- attempt_loop E self messages used_model MAX_RETRIES 1 None;;
      match r with
      | Returned content => ret content
      | Exhausted last_exception =>
          if bool_decide (used_model <> fallback_model self) then
            log E WARNING (FallbackWarning used_model (fallback_model self));;;
            _call_api E depth' self messages (Some (fallback_model self))
          else
            raise (RuntimeError (AllAttemptsFailed last_exception))
      end
  end.

(** *** _build_vision_message *)

Definition _build_vision_message (image_b64 mime_type prompt : string) : list Message :=
  [ {| role := "user";
       content := Parts [
         ImageUrl ("data:" +:+ mime_type +:+ ";base64," +:+ image_b64);
         TextPart prompt ] |} ].

Definition system_prompt (self : BoardDigitizer) : string :=
  let context_section := _build_context_section self in
  let confidence_section := if confidence self then CONFIDENCE_SECTION else "" in
  SYSTEM_PROMPT_TEMPLATE context_section confidence_section.

(** *** analyze_structure *)

Definition analyze_structure_messages (self : BoardDigitizer)
    (image_b64 mime_type : string) : list Message :=
  let prompt :=
    "Führe NUR Schritt 1 (STRUKTURANALYSE) durch. "
    +:+ "Beschreibe Layout-Typ, Farb-Semantik, Voting-Punkte und Verbindungen. "
    +:+ "Sei präzise und strukturiert." in
  {| role := "system"; content := Plain (system_prompt self) |}
    :: _build_vision_message image_b64 mime_type prompt.

Definition analyze_structure (E : Env) (depth : nat) (self : BoardDigitizer)
    (image_b64 mime_type : string) : M PyValue :=
  log E INFO (StageStarted AnalyzeStructure);;;
  result <- _call_api E depth self (analyze_structure_messages self image_b64 mime_type) None;;
  log E INFO (StageFinished AnalyzeStructure);;;
  ret result.

(** *** transcribe_raw *)

Definition transcribe_raw_prompt (structure_analysis : PyValue) : string :=
  "Die Strukturanalyse hat folgendes ergeben:" +:+ Str.nl +:+ Str.nl
  +:+ fmt structure_analysis +:+ Str.nl +:+ Str.nl
  +:+ "Führe nun Schritt 2 (TRANSKRIPTION) durch. "
  +:+ "Transkribiere ALLE Zettel/Karten 1:1, inklusive Tippfehler und Abkürzungen. "
  +:+ "Nutze die erkannte Struktur als Gliederung (## für Spalten/Cluster, * für Zettel). "
  +:+ "Annotiere Voting-Punkte und relevante Farben.".

Definition transcribe_raw_messages (self : BoardDigitizer)
    (image_b64 mime_type : string) (structure_analysis : PyValue) : list Message :=
  {| role := "system"; content := Plain (system_prompt self) |}
    :: _build_vision_message image_b64 mime_type (transcribe_raw_prompt structure_analysis).

Definition transcribe_raw (E : Env) (depth : nat) (self : BoardDigitizer)
    (image_b64 mime_type : string) (structure_analysis : PyValue) : M PyValue :=
  log E INFO (StageStarted TranscribeRaw);;;
  result <- _call_api E depth self
    (transcribe_raw_messages self image_b64 mime_type structure_analysis) None;;
  log E INFO (StageFinished TranscribeRaw);;;
  ret result.

(** *** clean_and_enrich *)

Definition clean_and_enrich_prompt (self : BoardDigitizer)
    (raw_content structure_analysis : PyValue) : string :=
  let nl := Str.nl in
  _build_context_section self +:+ nl
  +:+ "Du erhältst eine Rohdaten-Transkription eines Workshop-Boards. "
  +:+ "Führe folgende Bereinigungen durch:" +:+ nl +:+ nl
  +:+ "1. Löse Abkürzungen auf (NUR wenn Kontext eindeutig, sonst belassen)" +:+ nl
  +:+ "2. Sortiere Einträge absteigend nach Votes/Stimmen (falls vorhanden)" +:+ nl
  +:+ "3. Entferne Farb-Annotationen wenn inhaltlich irrelevant (Noise Reduction)" +:+ nl
  +:+ "4. Reduziere Klebepunkte auf Zahlenwerte: '(3 rote Punkte, 1 grün)' → '(4 Stimmen)'" +:+ nl
  +:+ "5. Behalte die Markdown-Struktur (##, *) bei" +:+ nl +:+ nl
  +:+ "Strukturkontext:" +:+ nl +:+ fmt structure_analysis +:+ nl +:+ nl
  +:+ "Rohdaten:" +:+ nl +:+ nl +:+ fmt raw_content.

Definition clean_and_enrich_messages (self : BoardDigitizer)
    (raw_content structure_analysis : PyValue) : list Message :=
  [ {| role := "user";
       content := Plain (clean_and_enrich_prompt self raw_content structure_analysis) |} ].

Definition clean_and_enrich (E : Env) (depth : nat) (self : BoardDigitizer)
    (raw_content structure_analysis : PyValue) : M PyValue :=
  log E INFO (StageStarted CleanAndEnrich);;;
  result <- _call_api E depth self
    (clean_and_enrich_messages self raw_content structure_analysis) None;;
  log E INFO (StageFinished CleanAndEnrich);;;
  ret result.

(** *** synthesize_summary *)

Definition synthesize_summary_prompt (self : BoardDigitizer)
    (cleaned_content structure_analysis : PyValue) : string :=
  let nl := Str.nl in
  let template_hint := BOARD_TEMPLATES_get (template self) in
  _build_context_section self +:+ nl
  +:+ "Board-Template: " +:+ template self +:+ nl
  +:+ (if Str.truthy template_hint then "Template-Kontext: " +:+ template_hint else "")
  +:+ nl +:+ nl
  +:+ "Erstelle eine strukturierte _Summary.md aus den bereinigten Board-Daten." +:+ nl +:+ nl
  +:+ "## Pflicht-Struktur der Summary:" +:+ nl +:+ nl
  +:+ "### Executive Summary (max. 10 Zeilen)" +:+ nl
  +:+ "- Kernaussage 'in a nutshell'" +:+ nl
  +:+ "- Top 1-2 Themen oder Beschlüsse" +:+ nl
  +:+ "- Größte Hürde oder Kontroverse (falls erkennbar)" +:+ nl +:+ nl
  +:+ "### Detaillierter Bericht" +:+ nl
  +:+ "- Stichpunkte → ausformulierte, vollständige Sätze" +:+ nl
  +:+ "- Strukturiert nach Themenbereichen aus der Analyse" +:+ nl
  +:+ "- Pfeile/Verbindungen verbalisieren: 'Thema A führt zu Thema B'" +:+ nl
  +:+ "- Absteigende Sortierung nach Relevanz/Votes" +:+ nl +:+ nl
  +:+ "Strukturanalyse:" +:+ nl +:+ fmt structure_analysis +:+ nl +:+ nl
  +:+ "Bereinigte Daten:" +:+ nl +:+ nl +:+ fmt cleaned_content.

Definition synthesize_summary_messages (self : BoardDigitizer)
    (cleaned_content structure_analysis : PyValue) : list Message :=
  [ {| role := "user";
       content := Plain (synthesize_summary_prompt self cleaned_content structure_analysis) |} ].

Definition synthesize_summary (E : Env) (depth : nat) (self : BoardDigitizer)
    (cleaned_content structure_analysis : PyValue) : M PyValue :=
  log E INFO (StageStarted SynthesizeSummary);;;
  result <- _call_api E depth self
    (synthesize_summary_messages self cleaned_content structure_analysis) None;;
  log E INFO (StageFinished SynthesizeSummary);;;
  ret result.

(** *** process_board *)

Definition raw_path_of (self : BoardDigitizer) (image_path : Path) : string :=
  joinpath (output_dir self) (stem image_path +:+ "_Raw.md").

Definition summary_path_of (self : BoardDigitizer) (image_path : Path) : string :=
  joinpath (output_dir self) (stem image_path +:+ "_Summary.md").

Definition raw_header (self : BoardDigitizer) (board_name created : string)
    (structure_analysis : PyValue) : string :=
  let nl := Str.nl in
  "# Rohdaten-Transkription: " +:+ board_name +:+ nl +:+ nl
  +:+ "**Erstellt:** " +:+ created +:+ nl
  +:+ "**Modell:** " +:+ model self +:+ nl
  +:+ "**Template:** " +:+ template self +:+ nl +:+ nl
  +:+ "---" +:+ nl +:+ nl
  +:+ "## Strukturanalyse" +:+ nl +:+ nl +:+ fmt structure_analysis +:+ nl +:+ nl
  +:+ "---" +:+ nl +:+ nl
  +:+ "## Transkription" +:+ nl +:+ nl.

Definition summary_header (self : BoardDigitizer) (board_name created : string) : string :=
  let nl := Str.nl in
  "# Executive Summary: " +:+ board_name +:+ nl +:+ nl
  +:+ "**Erstellt:** " +:+ created +:+ nl
  +:+ "**Modell:** " +:+ model self +:+ nl
  +:+ "**Template:** " +:+ template self +:+ nl +:+ nl
  +:+ "---" +:+ nl +:+ nl.

Definition process_board (E : Env) (depth : nat) (self : BoardDigitizer)
    (image_path : Path) : M (string * string) :=
  found <- exists_ (path_str image_path);;
  if negb found then raise (FileNotFoundError (path_str image_path)) else
  if negb (bool_decide (Str.lower (suffix image_path) ∈ SUPPORTED_FORMATS)) then
    raise (ValueError (suffix image_path))
  else
    let board_name := stem image_path in
    let raw_path := raw_path_of self image_path in
    let summary_path := summary_path_of self image_path in
    log E INFO Rule;;;
    log E INFO (BoardStarted (name image_path));;;
    log E INFO (BoardSettings (template self) (model self));;;
    log E INFO Rule;;;
    encoded <- _encode_image self image_path;;
    let image_b64 := encoded.1 in
    let mime_type := encoded.2 in
    structure_analysis <- analyze_structure E depth self image_b64 mime_type;;
    raw_content <- transcribe_raw E depth self image_b64 mime_type structure_analysis;;
    created <- now E;;
    raw_text <- str_add (raw_header self board_name created structure_analysis) raw_content;;
    write_text raw_path raw_text;;;
    log E INFO (RawSaved raw_path);;;
    cleaned_content <- clean_and_enrich E depth self raw_content structure_analysis;;
    summary_content <- synthesize_summary E depth self cleaned_content structure_analysis;;
    created' <- now E;;
    summary_text <- str_add (summary_header self board_name created') summary_content;;
    write_text summary_path summary_text;;;
    log E INFO (SummarySaved summary_path);;;
    log E INFO (BoardFinished board_name);;;
    ret (raw_path, summary_path).

(** ** main: the loop over the images and the closing tally *)

Fixpoint process_images (E : Env) (depth : nat) (digitizer : BoardDigitizer)
    (images : list Path) (success_count error_count : nat) : M (nat * nat) :=
  match images with
  | [] => ret (success_count, error_count)
  | image_path :: rest =>
      counts <- try_except
        (paths <- process_board E depth digitizer image_path;;
         print (Succeeded (name image_path) paths.1 paths.2);;;
         ret (S success_count, error_count))
        (fun e =>
           log E ERROR (BoardFailed (name image_path) e);;;
           print (Failed (name image_path) e);;;
           ret (success_count, S error_count));;
      process_images E depth digitizer rest counts.1 counts.2
  end.

(** Lines 696-715 of [main]. *)
Definition main_processing (E : Env) (depth : nat) (digitizer : BoardDigitizer)
    (images : list Path) : M (nat * nat) :=
  counts <- process_images E depth digitizer images 0%nat 0%nat;;
  (if (1 <? length images)%nat
   then print (Tally counts.1 counts.2 (resolve E (output_dir digitizer)))
   else ret tt);;;
  ret counts.

(** ** run_connection_test *)

Definition connection_test_request (api_key model : string) : Request :=
  {| req_bearer := api_key;
     req_model := model;
     req_messages := [ {| role := "user"; content := Plain "Antworte mit: OK" |} ];
     req_max_tokens := 10 |}.

(** Both [except] clauses end the function normally. *)
Definition run_connection_test (E : Env) (api_key model : string) : M unit :=
  log E INFO (ConnectionTestStarted model);;;
  res <- post E (connection_test_request api_key model);;
  match try_body res with
  | inr answer => print (ConnectionOk answer model)
  | inl (HTTPError e_response) =>
      let status := status_of e_response in
      print (ApiFailure status
               (match e_response with
                | Some r => if response_truthy e_response then inl (text r)
                            else inr (HTTPError e_response)
                | None => inr (HTTPError e_response)
                end))
  | inl e => print (ConnectionFailure e)
  end.

(** ** Reading a history *)

(** The HTTP exchanges of a history, in order. *)
Definition posts (evs : list Event) : list (Request * PostResult) :=
  omap (fun ev => match ev with Post rq res => Some (rq, res) | _ => None end) evs.

(** The number of request attempts. *)
Definition attempts (evs : list Event) : nat := length (posts evs).

(** The models the attempts went to. *)
Definition posted_models (evs : list Event) : list string :=
  (fun p => req_model p.1) <$> posts evs.

(** The delays slept, in order. *)
Definition sleeps (evs : list Event) : list Z :=
  omap (fun ev => match ev with Sleep s => Some s | _ => None end) evs.

(** The files written by [write_text], in order. *)
Definition writes (evs : list Event) : list (string * string) :=
  omap (fun ev => match ev with WriteText p d => Some (p, d) | _ => None end) evs.

(** The records logged, in order. *)
Definition logged (evs : list Event) : list (Level * Logged) :=
  omap (fun ev => match ev with Log level what => Some (level, what) | _ => None end) evs.

(** The world after one more event: a write puts the file in place, a
    logged record appends its line to the log file. *)
Definition record (E : Env) (w : World) (ev : Event) : World :=
  {| files :=
       match ev with
       | WriteText path data => <[path := File data]> (files w)
       | Log level what =>
           <[LOG_FILE := appended (files w !! LOG_FILE)
                           (log_line E (trace w) level what)]> (files w)
       | _ => files w
       end;
     trace := trace w ++ [ev] |}.

(** A world with more history. *)
Definition extend (E : Env) (w : World) (evs : list Event) : World :=
  foldl (record E) w evs.

(** The file system after the writes of a history. *)
Definition apply_writes (fs : gmap string Entry) (ws : list (string * string))
    : gmap string Entry :=
  foldl (fun m w => <[w.1 := File w.2]> m) fs ws.

(** ** The decision table of the [except] clauses *)

(** What the [except] clauses do with an exception at a given attempt:
    the record to log and the delay to sleep before the next attempt, or
    the exception to raise. *)
Definition verdict (used_model : string) (attempt : nat) (e : PyExc)
    : (Level * Logged * Z) + Exn :=
  match e with
  | Timeout =>
      inl (WARNING, TimeoutWarning attempt (RETRY_BASE_DELAY ^ Z.of_nat attempt),
           RETRY_BASE_DELAY ^ Z.of_nat attempt)
  | RequestException =>
      inl (WARNING, ConnectionWarning attempt RequestException,
           RETRY_BASE_DELAY ^ Z.of_nat attempt)
  | HTTPError e_response =>
      let status_code := status_of e_response in
      if status_is status_code 401 then inr (RuntimeError InvalidApiKey)
      else if status_is status_code 402 then inr (RuntimeError InsufficientCredit)
      else if (status_is status_code 400
               && Str.contains "vision" (Str.lower (error_body_of e_response)))%bool
      then inr (RuntimeError (NoVisionSupport used_model))
      else if (status_is status_code 429 || status_is status_code 503)%bool
      then inl (WARNING, RateLimitWarning status_code, RETRY_BASE_DELAY ^ Z.of_nat attempt)
      else inl (ERROR, HttpErrorLogged status_code (error_body_of e_response),
                RETRY_BASE_DELAY)
  | OtherException => inr (Escaped OtherException)
  end.

(** The events of one exhausted retry budget against one model, when every
    attempt is answered by [res], the failure of attempt [k] is logged as
    [failure k] and followed by a sleep of [delay k] seconds. *)
Definition budget_events (self : BoardDigitizer) (messages : list Message)
    (res : PostResult) (failure : nat -> Level * Logged) (delay : nat -> Z)
    (used : string) : list Event :=
  let rq := request_of self used messages in
  [ Log INFO (ApiCallStarted 1 used); Post rq res;
    Log (failure 1%nat).1 (failure 1%nat).2; Sleep (delay 1%nat);
    Log INFO (ApiCallStarted 2 used); Post rq res;
    Log (failure 2%nat).1 (failure 2%nat).2; Sleep (delay 2%nat);
    Log INFO (ApiCallStarted 3 used); Post rq res;
    Log (failure 3%nat).1 (failure 3%nat).2 ].

(** The records and the delays of the attempts that time out, and of those
    that are answered with an HTTP error. *)
Definition timeout_failure (attempt : nat) : Level * Logged :=
  (WARNING, TimeoutWarning attempt (RETRY_BASE_DELAY ^ Z.of_nat attempt)).

Definition growing_delay (attempt : nat) : Z := RETRY_BASE_DELAY ^ Z.of_nat attempt.

Definition http_failure (attempt : nat) : Level * Logged :=
  (ERROR, HttpErrorLogged Unknown "").

Definition flat_delay (attempt : nat) : Z := RETRY_BASE_DELAY.

(** ** Sample configurations, endpoints and worlds *)

Definition sample_digitizer : BoardDigitizer :=
  {| api_key := "sk-or-test";
     model := "google/gemini-2.0-flash";
     fallback_model := "anthropic/claude-sonnet-4-5";
     output_dir := "output";
     max_tokens := 4000;
     template := "custom";
     context := "";
     confidence := false |}.

(** The fallback model is the primary model. *)
Definition single_model_digitizer : BoardDigitizer :=
  {| api_key := "sk-or-test";
     model := "google/gemini-2.0-flash";
     fallback_model := "google/gemini-2.0-flash";
     output_dir := "output";
     max_tokens := 4000;
     template := "custom";
     context := "";
     confidence := false |}.

(** [FALLBACK_MODEL=] in the environment: the fallback model is the empty
    string. *)
Definition empty_fallback_digitizer : BoardDigitizer :=
  {| api_key := "sk-or-test";
     model := "google/gemini-2.0-flash";
     fallback_model := "";
     output_dir := "output";
     max_tokens := 4000;
     template := "custom";
     context := "";
     confidence := false |}.

Definition levelname (level : Level) : string :=
  match level with
  | INFO => "INFO"
  | WARNING => "WARNING"
  | ERROR => "ERROR"
  end.

(** A clock that stands still, a formatter that shows the level only, and
    [/srv/boards] as working directory. *)
Definition sample_strftime : list Event -> string := fun _ => "2026-02-26 10:00".

Definition sample_log_line : list Event -> Level -> Logged -> string :=
  fun _ level _ => "2026-02-26 10:00:00,000 [" +:+ levelname level +:+ "]" +:+ Str.nl.

Definition sample_resolve : string -> string := fun dir => "/srv/boards/" +:+ dir.

(** An endpoint with the same answer to every request. *)
Definition constant_env (res : PostResult) : Env :=
  {| endpoint := fun _ _ => res;
     strftime := sample_strftime;
     log_line := sample_log_line;
     resolve := sample_resolve |}.

Definition error_response (status : Z) (text : string) : Response :=
  {| status_code := status; text := text; body := InvalidJSON |}.

(** A 200 response with the text [c] as content. *)
Definition answer (c : string) : Response :=
  {| status_code := 200; text := c; body := Content (PyStr c) |}.

(** A 200 response whose content is JSON [null]. *)
Definition null_answer : Response :=
  {| status_code := 200; text := "null"; body := Content (PyOther "None") |}.

Definition empty_world : World := {| files := ∅; trace := [] |}.

Definition hello : list Message := [ {| role := "user"; content := Plain "Antworte mit: OK" |} ].

(** ** What the Request Executor leaves in a history *)

(** An exception the [except] clauses answer with another attempt. *)
Definition retryable (e : PyExc) : bool :=
  match verdict "" 1 e with
  | inl _ => true
  | inr _ => false
  end.

(** The records [_call_api] logs. *)
Definition executor_record (what : Logged) : Prop :=
  match what with
  | ApiCallStarted _ _ | ApiCallSucceeded _ | TimeoutWarning _ _ | RateLimitWarning _
  | HttpErrorLogged _ _ | ConnectionWarning _ _ | FallbackWarning _ _ => True
  | _ => False
  end.

(** An event of a call [_call_api(messages, ...)]: a sleep, a record of
    the executor, or an exchange that carries [messages] to some model and
    is answered by the endpoint. *)
Definition executor_event (E : Env) (self : BoardDigitizer) (messages : list Message)
    (ev : Event) : Prop :=
  match ev with
  | Post rq res =>
      (exists m, rq = request_of self m messages) /\ (exists tr, res = endpoint E tr rq)
  | Sleep _ => True
  | Log _ what => executor_record what
  | WriteText _ _ => False
  | Print _ => False
  end.

(** An event of a stage: an event of its call of the executor, or one of
    the two records of the stage. *)
Definition stage_event (E : Env) (self : BoardDigitizer) (messages : list Message)
    (ev : Event) : Prop :=
  match ev with
  | Log _ (StageStarted _) | Log _ (StageFinished _) => True
  | _ => executor_event E self messages ev
  end.

(** The last exchange of the history delivered [c]: nothing but records
    follows it. *)
Definition delivered (evs : list Event) (c : PyValue) : Prop :=
  exists evs0 rq res records,
    evs = evs0 ++ Post rq res :: records /\ posts records = [] /\ try_body res = inr c.

(** Digitizers that differ from the sample one in template and context. *)
Definition with_context (template context : string) : BoardDigitizer :=
  {| api_key := api_key sample_digitizer;
     model := model sample_digitizer;
     fallback_model := fallback_model sample_digitizer;
     output_dir := output_dir sample_digitizer;
     max_tokens := max_tokens sample_digitizer;
     template := template;
     context := context;
     confidence := false |}.

(** ** The runs of [process_board] *)

(** The records that open a run (lines 484-487). *)
Definition board_opening (self : BoardDigitizer) (image_path : Path) : list Event :=
  [ Log INFO Rule;
    Log INFO (BoardStarted (name image_path));
    Log INFO (BoardSettings (template self) (model self));
    Log INFO Rule ].

(** The two documents, with the time stamp the clock gives in [w]. *)
Definition raw_document (E : Env) (self : BoardDigitizer) (image_path : Path)
    (structure_analysis : PyValue) (raw_content : string) (w : World) : string :=
  raw_header self (stem image_path) (strftime E (trace w)) structure_analysis
  +:+ raw_content.

Definition summary_document (E : Env) (self : BoardDigitizer) (image_path : Path)
    (summary_content : string) (w : World) : string :=
  summary_header self (stem image_path) (strftime E (trace w)) +:+ summary_content.

(** The events of saving them (lines 509-510 and 526-529). *)
Definition raw_saved (E : Env) (self : BoardDigitizer) (image_path : Path)
    (structure_analysis : PyValue) (raw_content : string) (w : World) : list Event :=
  [ WriteText (raw_path_of self image_path)
      (raw_document E self image_path structure_analysis raw_content w);
    Log INFO (RawSaved (raw_path_of self image_path)) ].

Definition summary_saved (E : Env) (self : BoardDigitizer) (image_path : Path)
    (summary_content : string) (w : World) : list Event :=
  [ WriteText (summary_path_of self image_path)
      (summary_document E self image_path summary_content w);
    Log INFO (SummarySaved (summary_path_of self image_path));
    Log INFO (BoardFinished (stem image_path)) ].

(** The image as the stages get it. *)
Definition image_b64_of (data : string) : string := Base64.b64encode data.
Definition mime_type_of (image_path : Path) : string := mime_of (Str.lower (suffix image_path)).

(** The twelve ways a run of [process_board] from [w] can end, with the
    outcome and the world it ends in. *)
Inductive board_run (E : Env) (depth : nat) (self : BoardDigitizer) (image_path : Path)
    (w : World) : Outcome (string * string) -> World -> Prop :=
  | run_not_found :
      files w !! path_str image_path = None ->
      board_run E depth self image_path w
        (Raise (FileNotFoundError (path_str image_path))) w
  | run_unsupported entry :
      files w !! path_str image_path = Some entry ->
      Str.lower (suffix image_path) ∉ SUPPORTED_FORMATS ->
      board_run E depth self image_path w (Raise (ValueError (suffix image_path))) w
  | run_directory :
      files w !! path_str image_path = Some Directory ->
      Str.lower (suffix image_path) ∈ SUPPORTED_FORMATS ->
      board_run E depth self image_path w
        (Raise (IsADirectoryError (path_str image_path)))
        (extend E w (board_opening self image_path))
  | run_stage1_failed data exn w1 :
      files w !! path_str image_path = Some (File data) ->
      Str.lower (suffix image_path) ∈ SUPPORTED_FORMATS ->
      analyze_structure E depth self (image_b64_of data) (mime_type_of image_path)
        (extend E w (board_opening self image_path)) = (Raise exn, w1) ->
      board_run E depth self image_path w (Raise exn) w1
  | run_stage2_failed data s1 w1 exn w2 :
      files w !! path_str image_path = Some (File data) ->
      Str.lower (suffix image_path) ∈ SUPPORTED_FORMATS ->
      analyze_structure E depth self (image_b64_of data) (mime_type_of image_path)
        (extend E w (board_opening self image_path)) = (Return s1, w1) ->
      transcribe_raw E depth self (image_b64_of data) (mime_type_of image_path) s1 w1
        = (Raise exn, w2) ->
      board_run E depth self image_path w (Raise exn) w2
  | run_raw_not_text data s1 w1 shown w2 :
      files w !! path_str image_path = Some (File data) ->
      Str.lower (suffix image_path) ∈ SUPPORTED_FORMATS ->
      analyze_structure E depth self (image_b64_of data) (mime_type_of image_path)
        (extend E w (board_opening self image_path)) = (Return s1, w1) ->
      transcribe_raw E depth self (image_b64_of data) (mime_type_of image_path) s1 w1
        = (Return (PyOther shown), w2) ->
      board_run E depth self image_path w (Raise TypeError) w2
  | run_raw_path_directory data s1 w1 s2 w2 :
      files w !! path_str image_path = Some (File data) ->
      Str.lower (suffix image_path) ∈ SUPPORTED_FORMATS ->
      analyze_structure E depth self (image_b64_of data) (mime_type_of image_path)
        (extend E w (board_opening self image_path)) = (Return s1, w1) ->
      transcribe_raw E depth self (image_b64_of data) (mime_type_of image_path) s1 w1
        = (Return (PyStr s2), w2) ->
      files w2 !! raw_path_of self image_path = Some Directory ->
      board_run E depth self image_path w
        (Raise (IsADirectoryError (raw_path_of self image_path))) w2
  | run_stage3_failed data s1 w1 s2 w2 exn w3 :
      files w !! path_str image_path = Some (File data) ->
      Str.lower (suffix image_path) ∈ SUPPORTED_FORMATS ->
      analyze_structure E depth self (image_b64_of data) (mime_type_of image_path)
        (extend E w (board_opening self image_path)) = (Return s1, w1) ->
      transcribe_raw E depth self (image_b64_of data) (mime_type_of image_path) s1 w1
        = (Return (PyStr s2), w2) ->
      files w2 !! raw_path_of self image_path <> Some Directory ->
      clean_and_enrich E depth self (PyStr s2) s1
        (extend E w2 (raw_saved E self image_path s1 s2 w2)) = (Raise exn, w3) ->
      board_run E depth self image_path w (Raise exn) w3
  | run_stage4_failed data s1 w1 s2 w2 s3 w3 exn w4 :
      files w !! path_str image_path = Some (File data) ->
      Str.lower (suffix image_path) ∈ SUPPORTED_FORMATS ->
      analyze_structure E depth self (image_b64_of data) (mime_type_of image_path)
        (extend E w (board_opening self image_path)) = (Return s1, w1) ->
      transcribe_raw E depth self (image_b64_of data) (mime_type_of image_path) s1 w1
        = (Return (PyStr s2), w2) ->
      files w2 !! raw_path_of self image_path <> Some Directory ->
      clean_and_enrich E depth self (PyStr s2) s1
        (extend E w2 (raw_saved E self image_path s1 s2 w2)) = (Return s3, w3) ->
      synthesize_summary E depth self s3 s1 w3 = (Raise exn, w4) ->
      board_run E depth self image_path w (Raise exn) w4
  | run_summary_not_text data s1 w1 s2 w2 s3 w3 shown w4 :
      files w !! path_str image_path = Some (File data) ->
      Str.lower (suffix image_path) ∈ SUPPORTED_FORMATS ->
      analyze_structure E depth self (image_b64_of data) (mime_type_of image_path)
        (extend E w (board_opening self image_path)) = (Return s1, w1) ->
      transcribe_raw E depth self (image_b64_of data) (mime_type_of image_path) s1 w1
        = (Return (PyStr s2), w2) ->
      files w2 !! raw_path_of self image_path <> Some Directory ->
      clean_and_enrich E depth self (PyStr s2) s1
        (extend E w2 (raw_saved E self image_path s1 s2 w2)) = (Return s3, w3) ->
      synthesize_summary E depth self s3 s1 w3 = (Return (PyOther shown), w4) ->
      board_run E depth self image_path w (Raise TypeError) w4
  | run_summary_path_directory data s1 w1 s2 w2 s3 w3 s4 w4 :
      files w !! path_str image_path = Some (File data) ->
      Str.lower (suffix image_path) ∈ SUPPORTED_FORMATS ->
      analyze_structure E depth self (image_b64_of data) (mime_type_of image_path)
        (extend E w (board_opening self image_path)) = (Return s1, w1) ->
      transcribe_raw E depth self (image_b64_of data) (mime_type_of image_path) s1 w1
        = (Return (PyStr s2), w2) ->
      files w2 !! raw_path_of self image_path <> Some Directory ->
      clean_and_enrich E depth self (PyStr s2) s1
        (extend E w2 (raw_saved E self image_path s1 s2 w2)) = (Return s3, w3) ->
      synthesize_summary E depth self s3 s1 w3 = (Return (PyStr s4), w4) ->
      files w4 !! summary_path_of self image_path = Some Directory ->
      board_run E depth self image_path w
        (Raise (IsADirectoryError (summary_path_of self image_path))) w4
  | run_done data s1 w1 s2 w2 s3 w3 s4 w4 :
      files w !! path_str image_path = Some (File data) ->
      Str.lower (suffix image_path) ∈ SUPPORTED_FORMATS ->
      analyze_structure E depth self (image_b64_of data) (mime_type_of image_path)
        (extend E w (board_opening self image_path)) = (Return s1, w1) ->
      transcribe_raw E depth self (image_b64_of data) (mime_type_of image_path) s1 w1
        = (Return (PyStr s2), w2) ->
      files w2 !! raw_path_of self image_path <> Some Directory ->
      clean_and_enrich E depth self (PyStr s2) s1
        (extend E w2 (raw_saved E self image_path s1 s2 w2)) = (Return s3, w3) ->
      synthesize_summary E depth self s3 s1 w3 = (Return (PyStr s4), w4) ->
      files w4 !! summary_path_of self image_path <> Some Directory ->
      board_run E depth self image_path w
        (Return (raw_path_of self image_path, summary_path_of self image_path))
        (extend E w4 (summary_saved E self image_path s4 w4)).

(** ** Sample images *)

Definition sample_png : Path := {| parent := "fotos"; stem := "board1"; suffix := ".PNG" |}.
Definition sample_gif : Path := {| parent := "fotos"; stem := "board1"; suffix := ".gif" |}.

(** A world whose only file is [image_path]. *)
Definition world_with (image_path : Path) (data : string) : World :=
  {| files := {[ path_str image_path := File data ]}; trace := [] |}.

(** An endpoint that answers the n-th request of a history with the n-th
    reply of a script, and times out once the script is used up. *)
Definition scripted_env (replies : list string) : Env :=
  {| endpoint := fun tr _ =>
       match replies !! attempts tr with
       | Some c => PostReturns (answer c)
       | None => PostRaises Timeout
       end;
     strftime := sample_strftime;
     log_line := sample_log_line;
     resolve := sample_resolve |}.

(** ** What a request payload contains *)

(** A text block of the payload has [t] as a substring. *)
Definition part_mentions (t : string) (p : ContentPart) : Prop :=
  match p with
  | TextPart s => Str.infix_of t s
  | ImageUrl _ => False
  end.

Definition message_mentions (t : string) (m : Message) : Prop :=
  match content m with
  | Plain s => Str.infix_of t s
  | Parts ps => Exists (part_mentions t) ps
  end.

Definition payload_mentions (messages : list Message) (t : string) : Prop :=
  Exists (message_mentions t) messages.

(** Some exchange of [evs] carried [messages] and delivered the value [c]. *)
Definition stage_output (evs : list Event) (messages : list Message) (c : PyValue) : Prop :=
  exists rq res, Post rq res ∈ evs /\ req_messages rq = messages /\ try_body res = inr c.

(** [messages] is the payload of one of the four stages for the image, built
    from values that exchanges of [before] delivered for the stages before
    it, and it contains their texts. *)
Inductive threaded (self : BoardDigitizer) (image_b64 mime_type : string)
    (before : list Event) (messages : list Message) : Prop :=
  | threaded_stage1 :
      messages = analyze_structure_messages self image_b64 mime_type ->
      threaded self image_b64 mime_type before messages
  | threaded_stage2 s1 :
      stage_output before (analyze_structure_messages self image_b64 mime_type) s1 ->
      messages = transcribe_raw_messages self image_b64 mime_type s1 ->
      payload_mentions messages (fmt s1) ->
      threaded self image_b64 mime_type before messages
  | threaded_stage3 s1 s2 :
      stage_output before (analyze_structure_messages self image_b64 mime_type) s1 ->
      stage_output before (transcribe_raw_messages self image_b64 mime_type s1) s2 ->
      messages = clean_and_enrich_messages self s2 s1 ->
      payload_mentions messages (fmt s1) ->
      payload_mentions messages (fmt s2) ->
      threaded self image_b64 mime_type before messages
  | threaded_stage4 s1 s2 s3 :
      stage_output before (analyze_structure_messages self image_b64 mime_type) s1 ->
      stage_output before (transcribe_raw_messages self image_b64 mime_type s1) s2 ->
      stage_output before (clean_and_enrich_messages self s2 s1) s3 ->
      messages = synthesize_summary_messages self s3 s1 ->
      payload_mentions messages (fmt s1) ->
      payload_mentions messages (fmt s3) ->
      threaded self image_b64 mime_type before messages.

(** Every request of [evs] is threaded by what came before it in [evs]. *)
Definition all_threaded (self : BoardDigitizer) (image_b64 mime_type : string)
    (evs : list Event) : Prop :=
  forall before rq res after,
    evs = before ++ Post rq res :: after ->
    threaded self image_b64 mime_type before (req_messages rq).

(** ** A sample batch *)

Global Instance ContentPart_eq_dec : EqDecision ContentPart.
Proof. solve_decision. Defined.

Global Instance MessageContent_eq_dec : EqDecision MessageContent.
Proof. solve_decision. Defined.

Global Instance Message_eq_dec : EqDecision Message.
Proof. solve_decision. Defined.

(** An endpoint that times out on the requests carrying [bad] and answers
    every other request with [reply]. *)
Definition picky_env (bad : list Message) (reply : string) : Env :=
  {| endpoint := fun _ rq =>
       if decide (req_messages rq = bad) then PostRaises Timeout
       else PostReturns (answer reply);
     strftime := sample_strftime;
     log_line := sample_log_line;
     resolve := sample_resolve |}.

Definition board1 : Path := {| parent := "fotos"; stem := "board1"; suffix := ".PNG" |}.
Definition board2 : Path := {| parent := "fotos"; stem := "board2"; suffix := ".jpg" |}.
Definition board3 : Path := {| parent := "fotos"; stem := "board3"; suffix := ".webp" |}.

Definition batch_world : World :=
  {| files := {[ path_str board1 := File "PNG-1"; path_str board2 := File "JPG-2";
                 path_str board3 := File "WEBP-3" ]};
     trace := [] |}.

Definition board2_stage1 : list Message :=
  analyze_structure_messages sample_digitizer (image_b64_of "JPG-2") (mime_type_of board2).

(** The image of a request payload: the URL of the image part that leads
    the second message, as [_build_vision_message] lays it out; the empty
    string for a payload without one. *)
Definition image_url_of (messages : list Message) : string :=
  match messages with
  | _ :: {| content := Parts (ImageUrl url :: _) |} :: _ => url
  | _ => ""
  end.

(** ** The shape of the history of one call of the executor *)

(** An event before the last exchange of a call: an exchange that failed,
    a sleep of [RETRY_BASE_DELAY ^ 1] or [RETRY_BASE_DELAY ^ 2] seconds, or
    a record of the executor. *)
Definition failed_or_slept (ev : Event) : Prop :=
  match ev with
  | Post _ res => exists e, try_body res = inl e
  | Sleep seconds => seconds = 2 \/ seconds = 4
  | Log _ what => executor_record what
  | WriteText _ _ => False
  | Print _ => False
  end.

(** How the outcome of a call goes with the answer [res] of its last
    exchange. *)
Definition closes (r : Outcome PyValue) (res : PostResult) : Prop :=
  match r with
  | Return c => try_body res = inr c
  | Raise (RuntimeError (AllAttemptsFailed last)) =>
      exists e, try_body res = inl e /\ last = Some e
  | Raise (Escaped e) => e = OtherException /\ try_body res = inl OtherException
  | Raise RecursionError => exists e, try_body res = inl e
  | Raise _ => False
  end.

(** An endpoint that times out for one model and answers every other model
    with [reply]. *)
Definition model_down_env (down : string) (reply : string) : Env :=
  {| endpoint := fun _ rq =>
       if bool_decide (req_model rq = down) then PostRaises Timeout
       else PostReturns (answer reply);
     strftime := sample_strftime;
     log_line := sample_log_line;
     resolve := sample_resolve |}.

(** A 2xx response whose JSON does not have the expected keys. *)
Definition shapeless_response : Response :=
  {| status_code := 200; text := "{}"; body := BadShape |}.

(** ** Reading the reports of a history *)

(** The names of the images [main] reported on, in order. *)
Definition reported (evs : list Event) : list string :=
  omap (fun ev => match ev with
                  | Print (Succeeded image_name _ _) => Some image_name
                  | Print (Failed image_name _) => Some image_name
                  | _ => None
                  end) evs.

(** The numbers of successes and of failures reported. *)
Definition reported_successes (evs : list Event) : nat :=
  length (omap (fun ev => match ev with
                          | Print (Succeeded image_name _ _) => Some image_name
                          | _ => None
                          end) evs).

Definition reported_failures (evs : list Event) : nat :=
  length (omap (fun ev => match ev with
                          | Print (Failed image_name _) => Some image_name
                          | _ => None
                          end) evs).

(** An event of a run of [process_board]: anything but a [print]. *)
Definition silent (ev : Event) : Prop :=
  match ev with
  | Print _ => False
  | _ => True
  end.

(** Two images that are turned down: one of a format that is not
    supported, one that does not exist. *)
Definition two_rejected : list Path :=
  [ {| parent := "fotos"; stem := "a"; suffix := ".gif" |};
    {| parent := "fotos"; stem := "b"; suffix := ".png" |} ].

(** A world whose only file is the first of them. *)
Definition rejected_world : World :=
  {| files := {[ "fotos/a.gif" := File "GIF89a" ]}; trace := [] |}.

(** A world where a directory has the name of an image. *)
Definition directory_world : World :=
  {| files := {[ path_str sample_png := Directory ]}; trace := [] |}.

(** ** Proof tools *)

(** The case analysis of a run of [process_board], with the names the
    proofs use for the stages' outcomes and worlds. *)
Ltac board_run_cases Hrun :=
  inversion Hrun as [ Hf | entry Hf Hs | Hf Hs | d e0 wa Hf Hs Ha | d t1 wa e0 wb Hf Hs Ha Hb
                    | d t1 wa sh wb Hf Hs Ha Hb | d t1 wa t2 wb Hf Hs Ha Hb Hdir
                    | d t1 wa t2 wb e0 wc Hf Hs Ha Hb Hdir Hc
                    | d t1 wa t2 wb t3 wc e0 wd Hf Hs Ha Hb Hdir Hc Hd
                    | d t1 wa t2 wb t3 wc sh wd Hf Hs Ha Hb Hdir Hc Hd
                    | d t1 wa t2 wb t3 wc t4 wd Hf Hs Ha Hb Hdir Hc Hd Hdir'
                    | d t1 wa t2 wb t3 wc t4 wd Hf Hs Ha Hb Hdir Hc Hd Hdir' ];
  subst.

(** Membership in a list that is written out. *)
Ltac in_list := rewrite ?elem_of_cons; auto 10.
Ltac not_in_list :=
  rewrite ?not_elem_of_cons; repeat split; try apply not_elem_of_nil; auto.
(** * Properties *)

(** ** Strings *)

Lemma append_assoc (a b c : string) : (a +:+ b) +:+ c = a +:+ (b +:+ c).
Proof.
  induction a as [|x a IH]; [reflexivity|].
  change (String x ((a +:+ b) +:+ c) = String x (a +:+ (b +:+ c))).
  now rewrite IH.
Qed.

Lemma infix_of_here (pre needle post : string) :
  Str.infix_of needle (pre +:+ needle +:+ post).
Proof. now exists pre, post. Qed.

Lemma infix_of_end (pre needle : string) :
  Str.infix_of needle (pre +:+ needle).
Proof.
  exists pre, "". f_equal.
  induction needle as [|x n IH]; [reflexivity|].
  change (String x n = String x (n +:+ "")). now rewrite <- IH.
Qed.

Lemma infix_of_later (pre needle hay : string) :
  Str.infix_of needle hay -> Str.infix_of needle (pre +:+ hay).
Proof.
  intros (a & b & ->). exists (pre +:+ a), b. now rewrite append_assoc.
Qed.

(** ** The monad and the history *)

Lemma extend_nil E w : extend E w [] = w.
Proof. reflexivity. Qed.

Lemma extend_extend E w evs evs' :
  extend E (extend E w evs) evs' = extend E w (evs ++ evs').
Proof. unfold extend. now rewrite foldl_app. Qed.

Lemma trace_record E w ev : trace (record E w ev) = trace w ++ [ev].
Proof. reflexivity. Qed.

Lemma trace_extend E w evs : trace (extend E w evs) = trace w ++ evs.
Proof.
  revert w. induction evs as [|ev evs IH]; intros w.
  - cbn. now rewrite app_nil_r.
  - change (extend E w (ev :: evs)) with (extend E (record E w ev) evs).
    rewrite IH, trace_record, <- app_assoc. reflexivity.
Qed.

Lemma apply_writes_lookup (m m' : gmap string Entry) ws p :
  m !! p = m' !! p -> apply_writes m ws !! p = apply_writes m' ws !! p.
Proof.
  revert m m'. induction ws as [|[q d] ws IH]; intros m m' H; [exact H|].
  cbn [apply_writes foldl fst snd]. apply IH.
  destruct (decide (q = p)) as [->|Hne].
  - now rewrite !lookup_insert_eq.
  - now rewrite !lookup_insert_ne.
Qed.

Lemma writes_app evs evs' : writes (evs ++ evs') = writes evs ++ writes evs'.
Proof. unfold writes. apply omap_app. Qed.

Lemma apply_writes_app m ws ws' :
  apply_writes m (ws ++ ws') = apply_writes (apply_writes m ws) ws'.
Proof. unfold apply_writes. apply foldl_app. Qed.

(** Away from the log file, the files of a history are what its writes
    make of the files it started with. *)
Lemma files_extend E w evs p :
  p <> LOG_FILE ->
  files (extend E w evs) !! p = apply_writes (files w) (writes evs) !! p.
Proof.
  intros Hp. revert w. induction evs as [|ev evs IH]; intros w; [reflexivity|].
  change (extend E w (ev :: evs)) with (extend E (record E w ev) evs).
  rewrite IH. destruct ev as [rq res|s|q d|what|level what]; try reflexivity.
  cbn [writes omap record files]. apply apply_writes_lookup.
  now rewrite lookup_insert_ne by congruence.
Qed.

Lemma files_extend_no_writes E w evs p :
  p <> LOG_FILE -> writes evs = [] -> files (extend E w evs) !! p = files w !! p.
Proof. intros Hp Hw. now rewrite files_extend, Hw. Qed.

Lemma post_run E rq w :
  post E rq w = (Return (endpoint E (trace w) rq),
                 extend E w [Post rq (endpoint E (trace w) rq)]).
Proof. reflexivity. Qed.

Lemma log_run E level what w :
  log E level what w = (Return tt, extend E w [Log level what]).
Proof. reflexivity. Qed.

Lemma print_run E what w : print what w = (Return tt, extend E w [Print what]).
Proof. reflexivity. Qed.

Lemma write_text_run E path data w :
  files w !! path <> Some Directory ->
  write_text path data w = (Return tt, extend E w [WriteText path data]).
Proof.
  intros H. unfold write_text.
  destruct (files w !! path) as [[d|]|]; try reflexivity. congruence.
Qed.

Lemma sleep_unless_last_run E attempt delay w :
  sleep_unless_last attempt delay w =
    (Return tt, extend E w (if (attempt <? MAX_RETRIES)%nat then [Sleep delay] else [])).
Proof.
  unfold sleep_unless_last. now destruct (attempt <? MAX_RETRIES)%nat.
Qed.

(** ** The attempt loop *)

(** One iteration of the loop, by the outcome of the [try] body. *)
Lemma attempt_loop_step E self messages used todo attempt last w :
  attempt_loop E self messages used (S todo) attempt last w =
    let rq := request_of self used messages in
    let started := Log INFO (ApiCallStarted attempt used) in
    let res := endpoint E (trace w ++ [started]) rq in
    match try_body res with
    | inr c =>
        (Return (Returned c),
         extend E w [started; Post rq res; Log INFO (ApiCallSucceeded res)])
    | inl e =>
        match verdict used attempt e with
        | inr exn => (Raise exn, extend E w [started; Post rq res])
        | inl (level, what, delay) =>
            attempt_loop E self messages used todo (S attempt) (Some e)
              (extend E w ([started; Post rq res; Log level what]
                           ++ (if (attempt <? MAX_RETRIES)%nat then [Sleep delay] else [])))
        end
    end.
Proof.
  cbn [attempt_loop]. unfold bind at 1. rewrite (log_run E).
  unfold bind at 1. rewrite post_run. cbv zeta. rewrite trace_extend.
  rewrite !extend_extend. cbn [app].
  destruct (try_body _) as [e|c].
  2: { unfold bind. rewrite (log_run E), extend_extend. reflexivity. }
  destruct e as [|o| |]; cbn [verdict]; try reflexivity.
  - unfold bind. rewrite (log_run E), (sleep_unless_last_run E), !extend_extend.
    reflexivity.
  - repeat (match goal with |- context [if ?b then _ else _] =>
              lazymatch b with
              | (_ <? _)%nat => fail
              | _ => destruct b
              end end; try reflexivity);
      unfold bind; rewrite (log_run E), (sleep_unless_last_run E), !extend_extend;
      reflexivity.
  - unfold bind. rewrite (log_run E), (sleep_unless_last_run E), !extend_extend.
    reflexivity.
Qed.

(** One activation of [_call_api], by the way its loop ends. *)
Lemma call_api_step E depth self messages model_arg w :
  _call_api E (S depth) self messages model_arg w =
    let used := model_or model_arg (model self) in
    match attempt_loop E self messages used MAX_RETRIES 1 None w with
    | (Return (Returned c), w') => (Return c, w')
    | (Return (Exhausted last), w') =>
        if bool_decide (used <> fallback_model self)
        then _call_api E depth self messages (Some (fallback_model self))
               (extend E w' [Log WARNING (FallbackWarning used (fallback_model self))])
        else (Raise (RuntimeError (AllAttemptsFailed last)), w')
    | (Raise exn, w') => (Raise exn, w')
    end.
Proof.
  cbn [_call_api]. unfold bind at 1. cbv zeta.
  destruct (attempt_loop _ _ _ _ _ _ _ _) as [[[c|last]|exn] w']; try reflexivity.
  now destruct (bool_decide _).
Qed.

(** ** The attempt loop against an endpoint that always fails the same way *)

Section ConstantEndpoint.

Variable E : Env.
Variable self : BoardDigitizer.
Variable messages : list Message.
Variable res : PostResult.
Variable e : PyExc.
Variable failure : nat -> Level * Logged.
Variable delay : nat -> Z.

Hypothesis endpoint_constant : forall tr rq, endpoint E tr rq = res.
Hypothesis answer_fails : try_body res = inl e.
Hypothesis answer_retried :
  forall used attempt,
    verdict used attempt e = inl ((failure attempt).1, (failure attempt).2, delay attempt).

Lemma attempt_loop_constant used last w :
  attempt_loop E self messages used MAX_RETRIES 1 last w =
    (Return (Exhausted (Some e)),
     extend E w (budget_events self messages res failure delay used)).
Proof using endpoint_constant answer_fails answer_retried.
  unfold MAX_RETRIES.
  do 3 (rewrite attempt_loop_step; cbv zeta;
        rewrite endpoint_constant, answer_fails, answer_retried).
  cbn [attempt_loop Nat.ltb Nat.leb MAX_RETRIES]. unfold ret.
  now rewrite !extend_extend.
Qed.

Lemma call_api_constant_terminal depth model_arg w :
  model_or model_arg (model self) = fallback_model self ->
  _call_api E (S depth) self messages model_arg w =
    (Raise (RuntimeError (AllAttemptsFailed (Some e))),
     extend E w (budget_events self messages res failure delay (fallback_model self))).
Proof using endpoint_constant answer_fails answer_retried.
  intros Hused. rewrite call_api_step. cbv zeta. rewrite attempt_loop_constant.
  rewrite Hused. rewrite bool_decide_eq_false_2 by (intros H; now apply H).
  reflexivity.
Qed.

Lemma call_api_constant_fallback depth model_arg w :
  model_or model_arg (model self) <> fallback_model self ->
  fallback_model self <> "" ->
  _call_api E (S (S depth)) self messages model_arg w =
    (Raise (RuntimeError (AllAttemptsFailed (Some e))),
     extend E w
       (budget_events self messages res failure delay (model_or model_arg (model self))
        ++ [Log WARNING (FallbackWarning (model_or model_arg (model self))
                           (fallback_model self))]
        ++ budget_events self messages res failure delay (fallback_model self))).
Proof using endpoint_constant answer_fails answer_retried.
  intros Hused Hfb. rewrite call_api_step. cbv zeta. rewrite attempt_loop_constant.
  rewrite bool_decide_eq_true_2 by exact Hused.
  rewrite call_api_constant_terminal.
  - now rewrite !extend_extend.
  - cbn [model_or]. destruct (fallback_model self); [congruence|reflexivity].
Qed.

(** With the empty string as fallback model the dispatch goes back to the
    primary model, in every activation. *)
Lemma call_api_constant_empty_fallback depth :
  fallback_model self = "" ->
  model self <> "" ->
  forall model_arg w,
    model_arg = None \/ model_arg = Some "" ->
    exists evs,
      _call_api E depth self messages model_arg w = (Raise RecursionError, extend E w evs)
      /\ attempts evs = (MAX_RETRIES * depth)%nat
      /\ Forall (fun m => m = model self) (posted_models evs).
Proof using endpoint_constant answer_fails answer_retried.
  intros Hfb Hm.
  induction depth as [|depth IH]; intros model_arg w Harg.
  - exists []. repeat split; constructor.
  - assert (Hused : model_or model_arg (model self) = model self)
      by (destruct Harg as [-> | ->]; reflexivity).
    rewrite call_api_step. cbv zeta. rewrite attempt_loop_constant.
    rewrite Hused, Hfb. rewrite bool_decide_eq_true_2 by exact Hm.
    rewrite extend_extend.
    destruct (IH (Some "") (extend E w (budget_events self messages res failure delay
                                          (model self)
                                        ++ [Log WARNING (FallbackWarning (model self) "")])))
      as (evs & Hrun & Hn & Hall); [now right|].
    eexists. rewrite Hrun, extend_extend. split; [reflexivity|]. split.
    + unfold attempts, posts in *. rewrite !omap_app, !length_app.
      unfold attempts, posts in Hn. rewrite Hn. cbn. lia.
    + unfold posted_models, posts in *. rewrite !omap_app, !fmap_app.
      apply Forall_app. split; [|exact Hall].
      cbn. repeat constructor.
Qed.

End ConstantEndpoint.

(** ** Error responses and the [except HTTPError] clause *)

(** A response that [raise_for_status] rejects is falsy, so the clause
    reads its status as ["?"] and its body as the empty string. *)
Lemma rejected_response_unknown r :
  400 <= status_code r < 600 ->
  raise_for_status r = Some (HTTPError (Some r))
  /\ status_of (Some r) = Unknown
  /\ error_body_of (Some r) = "".
Proof.
  intros [Hlo Hhi].
  assert (Hrange : ((400 <=? status_code r) && (status_code r <? 600))%bool = true).
  { apply andb_true_intro. split; [now apply Z.leb_le | now apply Z.ltb_lt]. }
  unfold status_of, error_body_of, response_truthy, ok, raise_for_status.
  now rewrite Hrange.
Qed.

Lemma rejected_response_verdict r used attempt :
  400 <= status_code r < 600 ->
  verdict used attempt (HTTPError (Some r))
  = inl (ERROR, HttpErrorLogged Unknown "", RETRY_BASE_DELAY).
Proof.
  intros Hr. destruct (rejected_response_unknown r Hr) as (_ & Hs & Hb).
  cbn [verdict]. now rewrite Hs, Hb.
Qed.

Lemma rejected_response_try_body r :
  400 <= status_code r < 600 ->
  try_body (PostReturns r) = inl (HTTPError (Some r)).
Proof.
  intros Hr. destruct (rejected_response_unknown r Hr) as (Hraise & _).
  cbn [try_body]. now rewrite Hraise.
Qed.

(** The run against an endpoint that answers every request with the same
    rejected response. *)
Lemma call_api_rejected_terminal E self messages r depth model_arg w :
  (forall tr rq, endpoint E tr rq = PostReturns r) ->
  400 <= status_code r < 600 ->
  model_or model_arg (model self) = fallback_model self ->
  _call_api E (S depth) self messages model_arg w =
    (Raise (RuntimeError (AllAttemptsFailed (Some (HTTPError (Some r))))),
     extend E w (budget_events self messages (PostReturns r)
                   (fun _ => (ERROR, HttpErrorLogged Unknown ""))
                   (fun _ => RETRY_BASE_DELAY) (fallback_model self))).
Proof.
  intros Hconst Hr Hused.
  apply (call_api_constant_terminal E self messages (PostReturns r) (HTTPError (Some r)));
    auto using rejected_response_try_body, rejected_response_verdict.
Qed.

Lemma call_api_rejected_fallback E self messages r depth model_arg w :
  (forall tr rq, endpoint E tr rq = PostReturns r) ->
  400 <= status_code r < 600 ->
  model_or model_arg (model self) <> fallback_model self ->
  fallback_model self <> "" ->
  _call_api E (S (S depth)) self messages model_arg w =
    (Raise (RuntimeError (AllAttemptsFailed (Some (HTTPError (Some r))))),
     extend E w
       (budget_events self messages (PostReturns r)
          (fun _ => (ERROR, HttpErrorLogged Unknown ""))
          (fun _ => RETRY_BASE_DELAY) (model_or model_arg (model self))
        ++ [Log WARNING (FallbackWarning (model_or model_arg (model self))
                           (fallback_model self))]
        ++ budget_events self messages (PostReturns r)
             (fun _ => (ERROR, HttpErrorLogged Unknown ""))
             (fun _ => RETRY_BASE_DELAY) (fallback_model self))).
Proof.
  intros Hconst Hr Hused Hfb.
  apply (call_api_constant_fallback E self messages (PostReturns r) (HTTPError (Some r)));
    auto using rejected_response_try_body, rejected_response_verdict.
Qed.


Lemma timeout_verdict used attempt :
  verdict used attempt Timeout
  = inl ((timeout_failure attempt).1, (timeout_failure attempt).2, growing_delay attempt).
Proof. reflexivity. Qed.

(** ** Claims about the Request Executor *)

(** C2 (the code departs from it for one configuration).  With an endpoint
    that times out on every request and a fallback model that differs from
    the primary one: when the fallback model is named, [_call_api] makes 3
    attempts against the primary model and then 3 against the fallback
    model, 6 in all, and raises the terminal failure; the k-th retry
    against a model comes after a sleep of [RETRY_BASE_DELAY ^ k] seconds,
    and nothing is slept between the last primary attempt and the first
    fallback attempt.  When the fallback model is the empty string, no
    attempt ever goes to a fallback model and no terminal failure is
    raised: every activation dispatches again, each makes 3 more attempts
    against the primary model, and the call ends in [RecursionError] after
    3 times as many attempts as the interpreter allows activations. *)
Theorem call_api_timeouts_exhaust_both_models E depth self messages w :
  (forall tr rq, endpoint E tr rq = PostRaises Timeout) ->
  model self <> fallback_model self ->
  let attempt k used :=
    [ Log INFO (ApiCallStarted k used);
      Post (request_of self used messages) (PostRaises Timeout);
      Log WARNING (TimeoutWarning k (RETRY_BASE_DELAY ^ Z.of_nat k)) ] in
  let budget used :=
    attempt 1%nat used ++ [Sleep (RETRY_BASE_DELAY ^ 1)]
    ++ attempt 2%nat used ++ [Sleep (RETRY_BASE_DELAY ^ 2)]
    ++ attempt 3%nat used in
  let evs :=
    budget (model self)
    ++ [Log WARNING (FallbackWarning (model self) (fallback_model self))]
    ++ budget (fallback_model self) in
  (fallback_model self <> "" ->
   _call_api E (S (S depth)) self messages None w =
     (Raise (RuntimeError (AllAttemptsFailed (Some Timeout))), extend E w evs)
   /\ attempts evs = (2 * MAX_RETRIES)%nat
   /\ posted_models evs
      = replicate MAX_RETRIES (model self) ++ replicate MAX_RETRIES (fallback_model self))
  /\ (fallback_model self = "" ->
      exists evs',
        _call_api E depth self messages None w = (Raise RecursionError, extend E w evs')
        /\ attempts evs' = (MAX_RETRIES * depth)%nat
        /\ Forall (fun m => m = model self) (posted_models evs')).
Proof.
  intros Hto Hne. cbv zeta. split.
  - intros Hfb. split; [|split; reflexivity].
    rewrite (call_api_constant_fallback E self messages (PostRaises Timeout) Timeout
               timeout_failure growing_delay);
      auto using timeout_verdict.
  - intros Hfb.
    apply (call_api_constant_empty_fallback E self messages (PostRaises Timeout) Timeout
             timeout_failure growing_delay);
      auto using timeout_verdict.
    congruence.
Qed.

Lemma call_api_timeouts_exhaust_both_models_witness :
  (forall tr rq, endpoint (constant_env (PostRaises Timeout)) tr rq = PostRaises Timeout)
  /\ model sample_digitizer <> fallback_model sample_digitizer
  /\ model empty_fallback_digitizer <> fallback_model empty_fallback_digitizer
  /\ attempts (trace (_call_api (constant_env (PostRaises Timeout)) 2 sample_digitizer
                        hello None empty_world).2) = 6%nat
  /\ sleeps (trace (_call_api (constant_env (PostRaises Timeout)) 2 sample_digitizer
                      hello None empty_world).2) = [2; 4; 2; 4]
  /\ exists evs,
       _call_api (constant_env (PostRaises Timeout)) 5 empty_fallback_digitizer hello None
         empty_world = (Raise RecursionError, extend (constant_env (PostRaises Timeout))
                                                empty_world evs)
       /\ attempts evs = 15%nat
       /\ Forall (fun m => m = model empty_fallback_digitizer) (posted_models evs).
Proof.
  assert (H1 : forall tr rq,
             endpoint (constant_env (PostRaises Timeout)) tr rq = PostRaises Timeout)
    by reflexivity.
  assert (H2 : model sample_digitizer <> fallback_model sample_digitizer) by discriminate.
  assert (H3 : model empty_fallback_digitizer <> fallback_model empty_fallback_digitizer)
    by discriminate.
  refine (conj H1 (conj H2 (conj H3 _))).
  destruct (call_api_timeouts_exhaust_both_models
              (constant_env (PostRaises Timeout)) 0 sample_digitizer hello empty_world
              H1 H2) as [Hnamed _].
  destruct (Hnamed ltac:(discriminate)) as (Hrun & _).
  destruct (call_api_timeouts_exhaust_both_models
              (constant_env (PostRaises Timeout)) 5 empty_fallback_digitizer hello empty_world
              H1 H3) as [_ Hempty].
  rewrite Hrun. cbn [snd]. rewrite trace_extend.
  split; [reflexivity|]. split; [reflexivity|].
  exact (Hempty eq_refl).
Defined.

(** C1 (the code departs from it).  When every request is answered with
    HTTP 401, with HTTP 402, or with HTTP 400 and a body naming [vision],
    [_call_api] does not stop at the first attempt: the response is falsy,
    its status is read as ["?"] and its body as empty (the error record
    says so), and the call makes 3 attempts against the primary model and
    3 against the fallback model with a sleep of [RETRY_BASE_DELAY]
    seconds before each retry, then raises the general failure. *)
Theorem call_api_terminal_status_is_retried E depth self messages w r :
  (forall tr rq, endpoint E tr rq = PostReturns r) ->
  status_code r = 401 \/ status_code r = 402 \/
    (status_code r = 400 /\ Str.contains "vision" (Str.lower (text r)) = true) ->
  model self <> fallback_model self ->
  fallback_model self <> "" ->
  let attempt k used :=
    [ Log INFO (ApiCallStarted k used);
      Post (request_of self used messages) (PostReturns r);
      Log ERROR (HttpErrorLogged Unknown "") ] in
  let budget used :=
    attempt 1%nat used ++ [Sleep RETRY_BASE_DELAY]
    ++ attempt 2%nat used ++ [Sleep RETRY_BASE_DELAY]
    ++ attempt 3%nat used in
  _call_api E (S (S depth)) self messages None w =
    (Raise (RuntimeError (AllAttemptsFailed (Some (HTTPError (Some r))))),
     extend E w (budget (model self)
                 ++ [Log WARNING (FallbackWarning (model self) (fallback_model self))]
                 ++ budget (fallback_model self))).
Proof.
  intros Hconst Hstatus Hne Hfb. cbv zeta.
  assert (Hr : 400 <= status_code r < 600) by lia.
  now rewrite (call_api_rejected_fallback E self messages r depth None w Hconst Hr Hne Hfb).
Qed.

Lemma call_api_terminal_status_is_retried_witness :
  let r := error_response 401 "Unauthorized" in
  (forall tr rq, endpoint (constant_env (PostReturns r)) tr rq = PostReturns r)
  /\ status_code r = 401
  /\ model sample_digitizer <> fallback_model sample_digitizer
  /\ fallback_model sample_digitizer <> ""
  /\ attempts (trace (_call_api (constant_env (PostReturns r)) 2 sample_digitizer
                        hello None empty_world).2) = 6%nat
  /\ sleeps (trace (_call_api (constant_env (PostReturns r)) 2 sample_digitizer
                      hello None empty_world).2) = [2; 2; 2; 2].
Proof.
  intros r.
  assert (H1 : forall tr rq, endpoint (constant_env (PostReturns r)) tr rq = PostReturns r)
    by reflexivity.
  assert (H2 : status_code r = 401) by reflexivity.
  assert (H3 : model sample_digitizer <> fallback_model sample_digitizer) by discriminate.
  assert (H4 : fallback_model sample_digitizer <> "") by discriminate.
  refine (conj H1 (conj H2 (conj H3 (conj H4 _)))).
  rewrite (call_api_terminal_status_is_retried
             (constant_env (PostReturns r)) 0 sample_digitizer hello empty_world r
             H1 (or_introl H2) H3 H4).
  cbn [snd]. rewrite trace_extend. split; reflexivity.
Defined.

(** C8, as the code has it.  When every request is answered with an HTTP
    error status other than 401, 402, 429 and 503 (and, for 400, a body
    that does not name [vision]), each model gets its full budget of 3
    attempts, that is 2 retries, each retry after a flat sleep of
    [RETRY_BASE_DELAY] seconds; after that the budget is exhausted: the
    failure is terminal when the model is the fallback model, and the
    fallback model is tried in the same way otherwise. *)
Theorem call_api_unclassified_http_error E depth self messages w r :
  (forall tr rq, endpoint E tr rq = PostReturns r) ->
  400 <= status_code r < 600 ->
  status_code r <> 401 -> status_code r <> 402 ->
  status_code r <> 429 -> status_code r <> 503 ->
  (status_code r = 400 -> Str.contains "vision" (Str.lower (text r)) = false) ->
  let attempt k used :=
    [ Log INFO (ApiCallStarted k used);
      Post (request_of self used messages) (PostReturns r);
      Log ERROR (HttpErrorLogged Unknown "") ] in
  let budget used :=
    attempt 1%nat used ++ [Sleep RETRY_BASE_DELAY]
    ++ attempt 2%nat used ++ [Sleep RETRY_BASE_DELAY]
    ++ attempt 3%nat used in
  let failure := Raise (RuntimeError (AllAttemptsFailed (Some (HTTPError (Some r))))) in
  (model self = fallback_model self ->
   _call_api E (S depth) self messages None w =
     (failure, extend E w (budget (model self))))
  /\ (model self <> fallback_model self -> fallback_model self <> "" ->
      _call_api E (S (S depth)) self messages None w =
        (failure,
         extend E w (budget (model self)
                     ++ [Log WARNING (FallbackWarning (model self) (fallback_model self))]
                     ++ budget (fallback_model self)))).
Proof.
  intros Hconst Hr _ _ _ _ _. cbv zeta. split.
  - intros Heq.
    rewrite (call_api_rejected_terminal E self messages r depth None w Hconst Hr Heq).
    now rewrite <- Heq.
  - intros Hne Hfb.
    now rewrite (call_api_rejected_fallback E self messages r depth None w Hconst Hr Hne Hfb).
Qed.

(** C8 as the specification states it, one retry and then exhaustion, fails:
    with HTTP 500 on every request and a single model, the model is
    attempted 3 times, not 2. *)
Lemma unclassified_http_error_not_retried_once :
  ~ (forall E self messages w r,
       (forall tr rq, endpoint E tr rq = PostReturns r) ->
       400 <= status_code r < 600 ->
       status_code r <> 401 -> status_code r <> 402 ->
       status_code r <> 429 -> status_code r <> 503 ->
       (status_code r = 400 -> Str.contains "vision" (Str.lower (text r)) = false) ->
       model self = fallback_model self ->
       attempts (trace (_call_api E 1 self messages None w).2)
       = (attempts (trace w) + 2)%nat).
Proof.
  intros H.
  specialize (H (constant_env (PostReturns (error_response 500 "Internal Server Error")))
                single_model_digitizer hello empty_world
                (error_response 500 "Internal Server Error")).
  cbn [status_code error_response] in H.
  assert (Hrun : attempts (trace (_call_api
            (constant_env (PostReturns (error_response 500 "Internal Server Error")))
            1 single_model_digitizer hello None empty_world).2) = 3%nat)
    by (vm_compute; reflexivity).
  rewrite Hrun in H.
  assert (Habs : 3%nat = (attempts (trace empty_world) + 2)%nat).
  { apply H; try reflexivity; try lia; try discriminate. }
  vm_compute in Habs. discriminate.
Qed.

Lemma call_api_unclassified_http_error_witness :
  let r := error_response 500 "Internal Server Error" in
  let E := constant_env (PostReturns r) in
  (forall tr rq, endpoint E tr rq = PostReturns r)
  /\ 400 <= status_code r < 600
  /\ sleeps (trace (_call_api E 1 single_model_digitizer hello None empty_world).2) = [2; 2]
  /\ attempts (trace (_call_api E 2 sample_digitizer hello None empty_world).2) = 6%nat.
Proof.
  intros r E.
  assert (H1 : forall tr rq, endpoint E tr rq = PostReturns r) by reflexivity.
  assert (H2 : 400 <= status_code r < 600) by (cbn; lia).
  assert (H3 : status_code r <> 401) by discriminate.
  assert (H4 : status_code r <> 402) by discriminate.
  assert (H5 : status_code r <> 429) by discriminate.
  assert (H6 : status_code r <> 503) by discriminate.
  assert (H7 : status_code r = 400 -> Str.contains "vision" (Str.lower (text r)) = false)
    by discriminate.
  refine (conj H1 (conj H2 (conj _ _))).
  - destruct (call_api_unclassified_http_error E 0 single_model_digitizer hello empty_world r
                H1 H2 H3 H4 H5 H6 H7) as [Hsame _].
    rewrite Hsame by reflexivity. cbn [snd]. rewrite trace_extend. reflexivity.
  - destruct (call_api_unclassified_http_error E 0 sample_digitizer hello empty_world r
                H1 H2 H3 H4 H5 H6 H7) as [_ Hfb].
    rewrite Hfb by discriminate. cbn [snd]. rewrite trace_extend. reflexivity.
Defined.

(** C9 (the code departs from it).  With the empty string as fallback model
    and a primary model that is named, the fallback dispatch passes [""],
    which [model or self.model] turns back into the primary model: the
    guard [used_model != self.fallback_model] holds again and the call
    dispatches again.  Against an endpoint that always times out, each
    activation makes 3 more attempts against the primary model, so the
    attempts are 3 times the depth the interpreter allows, and the call ends
    in [RecursionError]. *)
Theorem call_api_empty_fallback_recurses E depth self messages model_arg w :
  (forall tr rq, endpoint E tr rq = PostRaises Timeout) ->
  fallback_model self = "" ->
  model self <> "" ->
  model_arg = None \/ model_arg = Some "" ->
  exists evs,
    _call_api E depth self messages model_arg w = (Raise RecursionError, extend E w evs)
    /\ attempts evs = (MAX_RETRIES * depth)%nat
    /\ Forall (fun m => m = model self) (posted_models evs).
Proof.
  intros Hto Hfb Hm Harg.
  apply (call_api_constant_empty_fallback E self messages (PostRaises Timeout) Timeout
           timeout_failure growing_delay);
    auto using timeout_verdict.
Qed.

Lemma call_api_empty_fallback_recurses_witness :
  (forall tr rq, endpoint (constant_env (PostRaises Timeout)) tr rq = PostRaises Timeout)
  /\ fallback_model empty_fallback_digitizer = ""
  /\ model empty_fallback_digitizer <> ""
  /\ exists evs,
       _call_api (constant_env (PostRaises Timeout)) 5 empty_fallback_digitizer hello None
         empty_world = (Raise RecursionError,
                        extend (constant_env (PostRaises Timeout)) empty_world evs)
       /\ attempts evs = 15%nat.
Proof.
  assert (H1 : forall tr rq,
             endpoint (constant_env (PostRaises Timeout)) tr rq = PostRaises Timeout)
    by reflexivity.
  assert (H2 : fallback_model empty_fallback_digitizer = "") by reflexivity.
  assert (H3 : model empty_fallback_digitizer <> "") by discriminate.
  refine (conj H1 (conj H2 (conj H3 _))).
  destruct (call_api_empty_fallback_recurses (constant_env (PostRaises Timeout)) 5
              empty_fallback_digitizer hello None empty_world H1 H2 H3 (or_introl eq_refl))
    as (evs & Hrun & Hn & _).
  exists evs. split; [exact Hrun | exact Hn].
Defined.

(** ** The Request Executor against any endpoint *)

Lemma attempts_app evs evs' : attempts (evs ++ evs') = (attempts evs + attempts evs')%nat.
Proof. unfold attempts, posts. now rewrite omap_app, length_app. Qed.

Lemma posts_app evs evs' : posts (evs ++ evs') = posts evs ++ posts evs'.
Proof. unfold posts. apply omap_app. Qed.

Lemma posted_models_app evs evs' :
  posted_models (evs ++ evs') = posted_models evs ++ posted_models evs'.
Proof. unfold posted_models, posts. now rewrite omap_app, fmap_app. Qed.

Lemma sleeps_app evs evs' : sleeps (evs ++ evs') = sleeps evs ++ sleeps evs'.
Proof. unfold sleeps. apply omap_app. Qed.

Lemma verdict_not_recursion used attempt e exn :
  verdict used attempt e = inr exn -> exn <> RecursionError.
Proof.
  destruct e as [|o| |]; cbn [verdict]; try discriminate.
  - repeat (match goal with |- context [if ?b then _ else _] => destruct b end);
      intros [= <-]; discriminate.
  - intros [= <-]; discriminate.
Qed.

Lemma verdict_record used attempt e level what d :
  verdict used attempt e = inl (level, what, d) -> executor_record what.
Proof.
  destruct e as [|o| |]; cbn [verdict]; try discriminate.
  - now intros [= <- <- <-].
  - repeat (match goal with
            | |- context [if ?b then _ else _] =>
                match type of b with bool => destruct b end
            end);
      try discriminate; now intros [= <- <- <-].
  - now intros [= <- <- <-].
Qed.

Lemma retryable_verdict e :
  retryable e = true ->
  forall used attempt, exists level what d, verdict used attempt e = inl (level, what, d).
Proof.
  unfold retryable. destruct e as [|o| |]; cbn [verdict]; intros H used attempt; eauto.
  - revert H.
    repeat (match goal with
            | |- context [if ?b then _ else _] =>
                match type of b with bool => destruct b end
            end);
      try discriminate; eauto.
  - discriminate.
Qed.

Lemma sleep_event_executor E self messages (b : bool) d :
  Forall (executor_event E self messages) (if b then [Sleep d] else []).
Proof. destruct b; repeat constructor. Qed.

Lemma sleep_event_attempts (b : bool) d : attempts (if b then [Sleep d] else []) = 0%nat.
Proof. now destruct b. Qed.

Lemma sleep_event_models (b : bool) d : posted_models (if b then [Sleep d] else []) = [].
Proof. now destruct b. Qed.

(** Whatever the endpoint does, the loop only sleeps, logs and posts
    [messages] to [used]; it makes at most [todo] attempts, exactly [todo]
    when it runs out of attempts; what it returns is what its last exchange
    delivered. *)
Lemma attempt_loop_spec E self messages used todo :
  forall attempt last w r w',
    attempt_loop E self messages used todo attempt last w = (r, w') ->
    exists evs,
      w' = extend E w evs
      /\ Forall (executor_event E self messages) evs
      /\ Forall (fun m => m = used) (posted_models evs)
      /\ (attempts evs <= todo)%nat
      /\ (forall last', r = Return (Exhausted last') -> attempts evs = todo)
      /\ (forall c, r = Return (Returned c) -> delivered evs c)
      /\ r <> Raise RecursionError.
Proof.
  induction todo as [|todo IH]; intros attempt last w r w' Hrun.
  - cbn in Hrun. injection Hrun as <- <-. exists [].
    split; [reflexivity|]. split; [constructor|]. split; [constructor|].
    split; [reflexivity|]. split; [reflexivity|]. split; discriminate.
  - rewrite attempt_loop_step in Hrun. cbv zeta in Hrun.
    set (rq := request_of self used messages) in *.
    set (started := Log INFO (ApiCallStarted attempt used)) in *.
    set (res := endpoint E (trace w ++ [started]) rq) in *.
    assert (Hpost : executor_event E self messages (Post rq res)).
    { split; [now exists used | now exists (trace w ++ [started])]. }
    assert (Hstart : executor_event E self messages started) by exact I.
    destruct (try_body res) as [e|c] eqn:Hbody.
    + destruct (verdict used attempt e) as [[[level what] d]|exn] eqn:Hv.
      * apply IH in Hrun as (evs & -> & Hev & Hm & Hle & Hex & Hret & Hrec).
        pose proof (verdict_record _ _ _ _ _ _ Hv) as Hwhat.
        exists (([started; Post rq res; Log level what]
                 ++ (if (attempt <? MAX_RETRIES)%nat then [Sleep d] else [])) ++ evs).
        rewrite !extend_extend.
        split; [reflexivity|].
        split. { repeat apply Forall_app_2; auto using sleep_event_executor. }
        split. { rewrite !posted_models_app, sleep_event_models. now constructor. }
        split. { rewrite !attempts_app, sleep_event_attempts. cbn. lia. }
        split. { intros l Hl. rewrite !attempts_app, sleep_event_attempts, (Hex l Hl).
                 reflexivity. }
        split; [|exact Hrec].
        intros c Hc. destruct (Hret c Hc) as (evs0 & rq' & res' & records & -> & Hrec' & Hb).
        exists (([started; Post rq res; Log level what]
                 ++ (if (attempt <? MAX_RETRIES)%nat then [Sleep d] else [])) ++ evs0),
               rq', res', records.
        split; [now rewrite <- !app_assoc | now split].
      * injection Hrun as <- <-. exists [started; Post rq res].
        split; [reflexivity|].
        split; [constructor; [exact Hstart|]; constructor; [exact Hpost | constructor]|].
        split; [constructor; [reflexivity | constructor]|]. split; [cbn; lia|].
        split; [discriminate|]. split; [discriminate|].
        intros [= ->]. now apply verdict_not_recursion in Hv.
    + injection Hrun as <- <-.
      exists [started; Post rq res; Log INFO (ApiCallSucceeded res)].
      split; [reflexivity|].
      split; [constructor; [exact Hstart|]; constructor; [exact Hpost|];
              constructor; [exact I | constructor]|].
      split; [constructor; [reflexivity | constructor]|]. split; [cbn; lia|].
      split; [discriminate|]. split; [|discriminate].
      intros c' [= <-]. now exists [started], rq, res, [Log INFO (ApiCallSucceeded res)].
Qed.

(** When every answer is a failure the clauses retry, the loop runs out of
    attempts. *)
Lemma attempt_loop_exhausts E self messages used :
  (forall tr rq, exists e, try_body (endpoint E tr rq) = inl e /\ retryable e = true) ->
  forall todo attempt last w,
    exists last' w',
      attempt_loop E self messages used todo attempt last w = (Return (Exhausted last'), w').
Proof.
  intros Hfail. induction todo as [|todo IH]; intros attempt last w.
  - now exists last, w.
  - rewrite attempt_loop_step. cbv zeta.
    destruct (Hfail (trace w ++ [Log INFO (ApiCallStarted attempt used)])
                (request_of self used messages)) as (e & -> & Hretry).
    destruct (retryable_verdict e Hretry used attempt) as (level & what & d & ->).
    apply IH.
Qed.

(** Whatever the endpoint does, a call only sleeps, logs and posts
    [messages]; what it returns is what its last exchange delivered. *)
Lemma call_api_spec E depth self messages :
  forall model_arg w r w',
    _call_api E depth self messages model_arg w = (r, w') ->
    exists evs,
      w' = extend E w evs
      /\ Forall (executor_event E self messages) evs
      /\ (forall c, r = Return c -> delivered evs c).
Proof.
  induction depth as [|depth IH]; intros model_arg w r w' Hrun.
  - injection Hrun as <- <-. exists [].
    split; [reflexivity|]. split; [constructor | discriminate].
  - rewrite call_api_step in Hrun. cbv zeta in Hrun.
    destruct (attempt_loop _ _ _ _ _ _ _ _) as [rl wl] eqn:Hloop.
    apply attempt_loop_spec in Hloop as (evs & -> & Hev & _ & _ & _ & Hret & _).
    destruct rl as [[c|last]|exn].
    + injection Hrun as <- <-. exists evs.
      split; [reflexivity|]. split; [exact Hev|].
      intros c' [= <-]. now apply Hret.
    + destruct (bool_decide _).
      * apply IH in Hrun as (evs' & -> & Hev' & Hret').
        exists (evs ++ [Log WARNING (FallbackWarning (model_or model_arg (model self))
                                       (fallback_model self))] ++ evs').
        rewrite !extend_extend.
        split; [reflexivity|].
        split; [repeat apply Forall_app_2; auto; repeat constructor|].
        intros c Hc. destruct (Hret' c Hc) as (evs0 & rq & res & records & -> & Hrec & Hb).
        exists (evs ++ [Log WARNING (FallbackWarning (model_or model_arg (model self))
                                       (fallback_model self))] ++ evs0), rq, res, records.
        split; [now rewrite <- !app_assoc | now split].
      * injection Hrun as <- <-. exists evs.
        split; [reflexivity|]. split; [exact Hev | discriminate].
    + injection Hrun as <- <-. exists evs.
      split; [reflexivity|]. split; [exact Hev | discriminate].
Qed.

Lemma executor_events_no_writes E self messages evs :
  Forall (executor_event E self messages) evs -> writes evs = [].
Proof.
  induction 1 as [|ev evs Hev _ IH]; [reflexivity|].
  destruct ev; cbn in *; try contradiction; exact IH.
Qed.

(** A call changes no file but the log. *)
Lemma call_api_files E depth self messages model_arg w r w' p :
  _call_api E depth self messages model_arg w = (r, w') ->
  p <> LOG_FILE -> files w' !! p = files w !! p.
Proof.
  intros H Hp. apply call_api_spec in H as (evs & -> & Hev & _).
  apply files_extend_no_writes; [exact Hp | now apply executor_events_no_writes in Hev].
Qed.

(** With a named fallback model the fallback dispatch happens at most once:
    two activations are enough, and the attempts are at most twice
    [MAX_RETRIES]. *)
Lemma call_api_bounded E depth self messages model_arg w r w' :
  fallback_model self <> "" ->
  _call_api E (S (S depth)) self messages model_arg w = (r, w') ->
  exists evs,
    w' = extend E w evs
    /\ (attempts evs <= 2 * MAX_RETRIES)%nat
    /\ (exists n k,
          (n <= MAX_RETRIES)%nat /\ (k <= MAX_RETRIES)%nat
          /\ posted_models evs
             = replicate n (model_or model_arg (model self))
               ++ replicate k (fallback_model self))
    /\ r <> Raise RecursionError.
Proof.
  intros Hfb Hrun. rewrite call_api_step in Hrun. cbv zeta in Hrun.
  destruct (attempt_loop _ _ _ _ _ _ _ _) as [rl wl] eqn:Hloop.
  apply attempt_loop_spec in Hloop as (evs & -> & _ & Hm & Hle & _ & _ & Hrec).
  assert (Hrep : forall (x : string) l, Forall (fun m => m = x) l -> l = replicate (length l) x).
  { intros x l. induction 1 as [|m l' -> _ IH]; [reflexivity|]. cbn. now rewrite <- IH. }
  apply Hrep in Hm.
  assert (Hlen : (length (posted_models evs) <= MAX_RETRIES)%nat)
    by (unfold posted_models; rewrite length_fmap; exact Hle).
  assert (Hone : exists n k,
             (n <= MAX_RETRIES)%nat /\ (k <= MAX_RETRIES)%nat
             /\ posted_models evs
                = replicate n (model_or model_arg (model self))
                  ++ replicate k (fallback_model self)).
  { exists (length (posted_models evs)), 0%nat. cbn [replicate]. rewrite app_nil_r.
    split; [exact Hlen|]. split; [lia | exact Hm]. }
  destruct rl as [[c|last]|exn].
  - injection Hrun as <- <-. exists evs.
    split; [reflexivity|]. split; [lia|]. split; [exact Hone | discriminate].
  - destruct (bool_decide _).
    + rewrite call_api_step in Hrun. cbv zeta in Hrun.
      assert (Hused : model_or (Some (fallback_model self)) (model self) = fallback_model self)
        by (cbn; destruct (fallback_model self); [congruence | reflexivity]).
      rewrite Hused in Hrun.
      destruct (attempt_loop _ _ _ _ _ _ _ _) as [rl' wl'] eqn:Hloop'.
      apply attempt_loop_spec in Hloop' as (evs' & -> & _ & Hm' & Hle' & _ & _ & Hrec').
      apply Hrep in Hm'.
      assert (Hlen' : (length (posted_models evs') <= MAX_RETRIES)%nat)
        by (unfold posted_models; rewrite length_fmap; exact Hle').
      rewrite bool_decide_eq_false_2 in Hrun by (intros H; now apply H).
      set (switch := Log WARNING (FallbackWarning (model_or model_arg (model self))
                                    (fallback_model self))) in *.
      assert (Hboth : exists evs0,
                 extend E (extend E (extend E w evs) [switch]) evs' = extend E w evs0
                 /\ (attempts evs0 <= 2 * MAX_RETRIES)%nat
                 /\ (exists n k,
                       (n <= MAX_RETRIES)%nat /\ (k <= MAX_RETRIES)%nat
                       /\ posted_models evs0
                          = replicate n (model_or model_arg (model self))
                            ++ replicate k (fallback_model self))).
      { exists (evs ++ [switch] ++ evs').
        rewrite !extend_extend, !attempts_app, !posted_models_app.
        change (attempts [switch]) with 0%nat. change (posted_models [switch]) with (@nil string).
        cbn [app].
        split; [reflexivity|]. split; [lia|].
        exists (length (posted_models evs)), (length (posted_models evs')).
        split; [exact Hlen|]. split; [exact Hlen'|]. now rewrite <- Hm, <- Hm'. }
      destruct Hboth as (evs0 & Heq & Hatt & Hmod).
      destruct rl' as [[c|last']|exn]; injection Hrun as <- <-;
        exists evs0;
        (split; [exact Heq|]; split; [exact Hatt|]; split; [exact Hmod|]);
        first [discriminate | intros [= ->]; now apply Hrec'].
    + injection Hrun as <- <-. exists evs.
      split; [reflexivity|]. split; [lia|]. split; [exact Hone | discriminate].
  - injection Hrun as <- <-. exists evs.
    split; [reflexivity|]. split; [lia|]. split; [exact Hone|].
    intros [= ->]. now apply Hrec.
Qed.

Lemma verdict_no_switch used attempt e level what d :
  verdict used attempt e = inl (level, what, d) ->
  forall u f, what <> FallbackWarning u f.
Proof.
  destruct e as [|o| |]; cbn [verdict]; try discriminate.
  - intros [= <- <- <-]; discriminate.
  - repeat (match goal with
            | |- context [if ?b then _ else _] =>
                match type of b with bool => destruct b end
            end);
      try discriminate; intros [= <- <- <-]; discriminate.
  - intros [= <- <- <-]; discriminate.
Qed.

(** The loop itself never logs the switch to the fallback model. *)
Lemma attempt_loop_no_switch E self messages used todo :
  forall attempt last w r w',
    attempt_loop E self messages used todo attempt last w = (r, w') ->
    exists evs,
      w' = extend E w evs
      /\ Forall (fun r => forall u f, r.2 <> FallbackWarning u f) (logged evs).
Proof.
  induction todo as [|todo IH]; intros attempt last w r w' Hrun.
  - apply pair_equal_spec in Hrun as [<- <-]. exists []. split; [reflexivity | constructor].
  - rewrite attempt_loop_step in Hrun. cbv zeta in Hrun.
    set (rq := request_of self used messages) in *.
    set (started := Log INFO (ApiCallStarted attempt used)) in *.
    set (res := endpoint E (trace w ++ [started]) rq) in *.
    destruct (try_body res) as [e|c].
    + destruct (verdict used attempt e) as [[[level what] d]|exn] eqn:Hv.
      * apply IH in Hrun as (evs & -> & Hall).
        exists (([started; Post rq res; Log level what]
                 ++ (if (attempt <? MAX_RETRIES)%nat then [Sleep d] else [])) ++ evs).
        rewrite extend_extend. split; [reflexivity|].
        unfold logged. rewrite !omap_app. apply Forall_app_2; [|exact Hall].
        apply Forall_app_2; [|destruct (attempt <? MAX_RETRIES)%nat; constructor].
        cbn. constructor; [discriminate|]. constructor; [|constructor].
        cbn. now apply (verdict_no_switch used attempt e level what d).
      * apply pair_equal_spec in Hrun as [<- <-]. exists [started; Post rq res].
        split; [reflexivity|]. cbn. constructor; [discriminate | constructor].
    + apply pair_equal_spec in Hrun as [<- <-].
      exists [started; Post rq res; Log INFO (ApiCallSucceeded res)].
      split; [reflexivity|]. cbn.
      constructor; [discriminate|]. constructor; [discriminate | constructor].
Qed.

(** C3.  When the primary and the fallback model are the same and every
    attempt fails in a way the clauses retry, the retries run out and the
    call raises the terminal failure after exactly [MAX_RETRIES] attempts,
    all of them against that one model: no fallback dispatch follows. *)
Theorem call_api_same_model_no_fallback E depth self messages w :
  model self = fallback_model self ->
  (forall tr rq, exists e, try_body (endpoint E tr rq) = inl e /\ retryable e = true) ->
  exists last evs,
    _call_api E (S depth) self messages None w =
      (Raise (RuntimeError (AllAttemptsFailed last)), extend E w evs)
    /\ attempts evs = MAX_RETRIES
    /\ Forall (fun m => m = model self) (posted_models evs)
    /\ Forall (fun r => forall used fallback, r.2 <> FallbackWarning used fallback)
         (logged evs).
Proof.
  intros Heq Hfail. rewrite call_api_step. cbv zeta. cbn [model_or].
  destruct (attempt_loop_exhausts E self messages (model self) Hfail MAX_RETRIES 1%nat None w)
    as (last & w' & Hloop).
  rewrite Hloop.
  pose proof Hloop as Hloop'.
  apply attempt_loop_spec in Hloop as (evs & -> & _ & Hm & _ & Hex & _).
  apply attempt_loop_no_switch in Hloop' as (evs' & Heq' & Hq).
  rewrite bool_decide_eq_false_2 by (intros H; now apply H).
  exists last, evs. split; [reflexivity|]. split; [now apply (Hex last)|].
  split; [exact Hm|].
  assert (evs' = evs) as ->; [|exact Hq].
  apply (f_equal trace) in Heq'. rewrite !trace_extend in Heq'.
  now apply app_inv_head in Heq'.
Qed.

Lemma call_api_same_model_no_fallback_witness :
  model single_model_digitizer = fallback_model single_model_digitizer
  /\ (forall tr rq, exists e,
        try_body (endpoint (constant_env (PostRaises Timeout)) tr rq) = inl e
        /\ retryable e = true)
  /\ exists last evs,
       _call_api (constant_env (PostRaises Timeout)) 1 single_model_digitizer hello None
         empty_world
       = (Raise (RuntimeError (AllAttemptsFailed last)),
          extend (constant_env (PostRaises Timeout)) empty_world evs)
       /\ attempts evs = 3%nat.
Proof.
  assert (H1 : model single_model_digitizer = fallback_model single_model_digitizer)
    by reflexivity.
  assert (H2 : forall tr rq, exists e,
             try_body (endpoint (constant_env (PostRaises Timeout)) tr rq) = inl e
             /\ retryable e = true)
    by (intros tr rq; exists Timeout; split; reflexivity).
  refine (conj H1 (conj H2 _)).
  destruct (call_api_same_model_no_fallback (constant_env (PostRaises Timeout)) 0
              single_model_digitizer hello empty_world H1 H2) as (last & evs & Hrun & Hn & _).
  exists last, evs. split; [exact Hrun | exact Hn].
Defined.

(** ** Claims about the Prompt Composer *)

Lemma truthy_true_iff s : Str.truthy s = true <-> s <> "".
Proof. destruct s; cbn; split; congruence. Qed.

Lemma truthy_append_l a b : Str.truthy a = true -> Str.truthy (a +:+ b) = true.
Proof. now destruct a. Qed.

Lemma truthy_append_r a b : Str.truthy b = true -> Str.truthy (a +:+ b) = true.
Proof. destruct a; [now cbn | reflexivity]. Qed.

(** The dictionary, entry by entry. *)
Lemma BOARD_TEMPLATES_lookup key text :
  BOARD_TEMPLATES !! key = Some text ->
  (key = "retrospektive" /\ text = retrospektive_text)
  \/ (key = "ideensammlung" /\ text = ideensammlung_text)
  \/ (key = "metaplan" /\ text = metaplan_text)
  \/ (key = "5s_audit" /\ text = audit_5s_text)
  \/ (key = "custom" /\ text = "").
Proof.
  unfold BOARD_TEMPLATES. cbn [list_to_map foldr curry uncurry fst snd].
  repeat (rewrite lookup_insert; case_decide;
          [intros [= <-]; subst key; auto 10|]).
  now rewrite lookup_empty.
Qed.

Lemma named_template_text key text :
  BOARD_TEMPLATES !! key = Some text -> key <> "custom" -> Str.truthy text = true.
Proof.
  intros Hk Hc.
  destruct (BOARD_TEMPLATES_lookup key text Hk)
    as [[_ ->]|[[_ ->]|[[_ ->]|[[_ ->]|[-> _]]]]]; try reflexivity.
  congruence.
Qed.

(** C7 as the specification states it fails: with template [custom] and
    context [X] the block is not [Board-Kontext: X] but that line under
    the heading line [Board-Kontext:]. *)
Lemma custom_context_block_is_wrapped :
  _build_context_section (with_context "custom" "X") <> "Board-Kontext: X"
  /\ _build_context_section (with_context "custom" "X")
     = "Board-Kontext:" +:+ Str.nl +:+ "Board-Kontext: X" +:+ Str.nl.
Proof. split; [vm_compute; discriminate | vm_compute; reflexivity]. Qed.

(** C7, as the code has it.  A context block that is not empty is the
    heading line [Board-Kontext:], a body, and a line feed.  For the
    template [custom] with a context [X] the body is [Board-Kontext: X];
    for a named template without context it is the text of the template;
    for a named template with a context it is the text of the template, an
    empty line, and [Zusätzlicher Kontext: ] with the context.  For a
    template key that is empty or not in the dictionary, without context,
    there is no block: the result is the empty string. *)
Theorem build_context_section_cases self :
  let block body := "Board-Kontext:" +:+ Str.nl +:+ body +:+ Str.nl in
  (template self = "custom" -> context self <> "" ->
   _build_context_section self = block ("Board-Kontext: " +:+ context self))
  /\ (forall text,
        BOARD_TEMPLATES !! template self = Some text -> template self <> "custom" ->
        context self = "" ->
        _build_context_section self = block text)
  /\ (forall text,
        BOARD_TEMPLATES !! template self = Some text -> template self <> "custom" ->
        context self <> "" ->
        _build_context_section self =
          block (text +:+ Str.nl +:+ Str.nl +:+ "Zusätzlicher Kontext: " +:+ context self))
  /\ (BOARD_TEMPLATES !! template self = None -> context self = "" ->
      _build_context_section self = "").
Proof.
  cbv zeta. unfold _build_context_section, BOARD_TEMPLATES_get.
  split; [|split; [|split]].
  - intros Ht Hc. apply truthy_true_iff in Hc.
    rewrite Ht, Hc, bool_decide_eq_true_2 by reflexivity. reflexivity.
  - intros text Hk Hn Hc. rewrite Hk, Hc, andb_false_r. cbn [from_option id Str.truthy].
    now rewrite (named_template_text _ _ Hk Hn).
  - intros text Hk Hn Hc. apply truthy_true_iff in Hc.
    rewrite Hk, Hc, bool_decide_eq_false_2 by exact Hn. cbn [from_option id andb].
    rewrite truthy_append_r; [reflexivity|].
    now apply truthy_append_r, truthy_append_r, truthy_append_r.
  - intros Hk Hc. rewrite Hk, Hc, andb_false_r. reflexivity.
Qed.

Lemma build_context_section_cases_witness :
  (template (with_context "custom" "X") = "custom"
   /\ context (with_context "custom" "X") <> ""
   /\ _build_context_section (with_context "custom" "X")
      = "Board-Kontext:" +:+ Str.nl +:+ ("Board-Kontext: " +:+ "X") +:+ Str.nl)
  /\ (BOARD_TEMPLATES !! template (with_context "metaplan" "") = Some metaplan_text
      /\ _build_context_section (with_context "metaplan" "")
         = "Board-Kontext:" +:+ Str.nl +:+ metaplan_text +:+ Str.nl)
  /\ (context (with_context "metaplan" "Lager-Team") <> ""
      /\ _build_context_section (with_context "metaplan" "Lager-Team")
         = "Board-Kontext:" +:+ Str.nl
           +:+ (metaplan_text +:+ Str.nl +:+ Str.nl +:+ "Zusätzlicher Kontext: "
                +:+ "Lager-Team") +:+ Str.nl)
  /\ (BOARD_TEMPLATES !! template (with_context "kanban" "") = None
      /\ _build_context_section (with_context "kanban" "") = "").
Proof.
  assert (Hm : BOARD_TEMPLATES !! "metaplan" = Some metaplan_text) by (vm_compute; reflexivity).
  assert (Hk : BOARD_TEMPLATES !! "kanban" = None) by (vm_compute; reflexivity).
  split; [|split; [|split]].
  - refine (conj eq_refl (conj _ _)); [discriminate|].
    destruct (build_context_section_cases (with_context "custom" "X")) as (H & _).
    apply H; [reflexivity | discriminate].
  - refine (conj Hm _).
    destruct (build_context_section_cases (with_context "metaplan" "")) as (_ & H & _).
    apply H; [exact Hm | discriminate | reflexivity].
  - refine (conj _ _); [discriminate|].
    destruct (build_context_section_cases (with_context "metaplan" "Lager-Team"))
      as (_ & _ & H & _).
    apply H; [exact Hm | discriminate | discriminate].
  - refine (conj Hk _).
    destruct (build_context_section_cases (with_context "kanban" "")) as (_ & _ & _ & H).
    apply H; [exact Hk | reflexivity].
Defined.

(** ** File names *)

Lemma chars_app a b :
  list_ascii_of_string (a +:+ b) = list_ascii_of_string a ++ list_ascii_of_string b.
Proof.
  induction a as [|x a IH]; [reflexivity|].
  change (x :: list_ascii_of_string (a +:+ b)
          = x :: (list_ascii_of_string a ++ list_ascii_of_string b)).
  now rewrite IH.
Qed.

Lemma chars_inj a b : list_ascii_of_string a = list_ascii_of_string b -> a = b.
Proof.
  intros H. rewrite <- (string_of_list_ascii_of_string a), <- (string_of_list_ascii_of_string b).
  now rewrite H.
Qed.

Lemma append_inj_r a b c : a +:+ c = b +:+ c -> a = b.
Proof.
  intros H. apply chars_inj. apply (f_equal list_ascii_of_string) in H.
  rewrite !chars_app in H. now apply app_inv_tail in H.
Qed.

(** The characters of a string, last first. *)
Lemma rev_chars_app a b :
  rev (list_ascii_of_string (a +:+ b))
  = rev (list_ascii_of_string b) ++ rev (list_ascii_of_string a).
Proof. now rewrite chars_app, rev_app_distr. Qed.

Lemma joinpath_inj dir a b : joinpath dir a = joinpath dir b -> a = b.
Proof. unfold joinpath. intros H. now apply String.app_inj in H. Qed.

Lemma raw_name_not_summary_name a b : a +:+ "_Raw.md" <> b +:+ "_Summary.md".
Proof.
  intros H. apply (f_equal (fun s => rev (list_ascii_of_string s))) in H.
  rewrite !rev_chars_app in H. cbn in H. discriminate H.
Qed.

Lemma raw_path_not_summary_path self image_path :
  raw_path_of self image_path <> summary_path_of self image_path.
Proof.
  unfold raw_path_of, summary_path_of. intros H.
  apply joinpath_inj in H. now apply raw_name_not_summary_name in H.
Qed.

(** The artifacts of two images with different stems are different files. *)
Lemma artifacts_apart self p q :
  stem p <> stem q ->
  raw_path_of self p <> raw_path_of self q
  /\ raw_path_of self p <> summary_path_of self q
  /\ summary_path_of self p <> raw_path_of self q
  /\ summary_path_of self p <> summary_path_of self q.
Proof.
  intros Hne. unfold raw_path_of, summary_path_of.
  repeat split; intros H; apply joinpath_inj in H.
  - now apply append_inj_r in H.
  - now apply raw_name_not_summary_name in H.
  - symmetry in H. now apply raw_name_not_summary_name in H.
  - now apply append_inj_r in H.
Qed.

Lemma lower_chars s :
  list_ascii_of_string (Str.lower s) = map Str.lower_ascii (list_ascii_of_string s).
Proof. induction s as [|c s IH]; [reflexivity|]. cbn. now rewrite IH. Qed.

Lemma supported_cases s :
  s ∈ SUPPORTED_FORMATS -> s = ".jpg" \/ s = ".jpeg" \/ s = ".png" \/ s = ".webp".
Proof. unfold SUPPORTED_FORMATS. set_unfold. tauto. Qed.

Lemma supported_intro s :
  s = ".jpg" \/ s = ".jpeg" \/ s = ".png" \/ s = ".webp" -> s ∈ SUPPORTED_FORMATS.
Proof. unfold SUPPORTED_FORMATS. set_unfold. tauto. Qed.

(** A supported suffix ends in a letter [g] or [p], in either case, after
    a letter that is no [o]. *)
Lemma supported_suffix_last sfx :
  Str.lower sfx ∈ SUPPORTED_FORMATS ->
  exists c c' rest,
    rev (list_ascii_of_string sfx) = c :: c' :: rest
    /\ (Str.lower_ascii c = "g"%char \/ Str.lower_ascii c = "p"%char)
    /\ Str.lower_ascii c' <> "o"%char.
Proof.
  intros H. apply supported_cases in H.
  assert (Hrev : exists c c' rest,
             rev (list_ascii_of_string (Str.lower sfx)) = c :: c' :: rest
             /\ (c = "g"%char \/ c = "p"%char) /\ c' <> "o"%char).
  { destruct H as [-> | [-> | [-> | ->]]]; cbn; do 3 eexists;
      (split; [reflexivity|]); (split; [auto | discriminate]). }
  destruct Hrev as (c & c' & rest & Hrev & Hc & Hc').
  rewrite lower_chars, <- map_rev in Hrev.
  destruct (rev (list_ascii_of_string sfx)) as [|d [|d' rest']]; try discriminate Hrev.
  injection Hrev as <- <- _. now exists d, d', rest'.
Qed.

(** No artifact is written over an image with a supported suffix. *)
Lemma image_not_artifact self p q :
  Str.lower (suffix p) ∈ SUPPORTED_FORMATS ->
  path_str p <> raw_path_of self q /\ path_str p <> summary_path_of self q.
Proof.
  intros Hsup. destruct (supported_suffix_last _ Hsup) as (c & c' & rest & Hrev & Hc & _).
  unfold path_str, raw_path_of, summary_path_of, joinpath, name.
  split; intros H; apply (f_equal (fun s => rev (list_ascii_of_string s))) in H;
    rewrite !rev_chars_app, Hrev in H; cbn in H; injection H as -> _;
    destruct Hc as [Hc|Hc]; discriminate Hc.
Qed.

(** The log file is no artifact, and no image with a supported suffix. *)
Lemma artifact_not_log_file self p :
  raw_path_of self p <> LOG_FILE /\ summary_path_of self p <> LOG_FILE.
Proof.
  unfold raw_path_of, summary_path_of, joinpath.
  split; intros H; apply (f_equal (fun s => rev (list_ascii_of_string s))) in H;
    rewrite !rev_chars_app in H; cbn in H; discriminate H.
Qed.

Lemma image_not_log_file p :
  Str.lower (suffix p) ∈ SUPPORTED_FORMATS -> path_str p <> LOG_FILE.
Proof.
  intros Hsup. destruct (supported_suffix_last _ Hsup) as (c & c' & rest & Hrev & _ & Hc').
  unfold path_str, joinpath, name. intros H.
  apply (f_equal (fun s => rev (list_ascii_of_string s))) in H.
  rewrite !rev_chars_app, Hrev in H. cbn in H. injection H as _ -> _.
  now apply Hc'.
Qed.

(** ** The stages *)

Lemma executor_stage_event E self messages ev :
  executor_event E self messages ev -> stage_event E self messages ev.
Proof. destruct ev as [| | | |level what]; try exact id. now destruct what. Qed.

Lemma stage_events_no_writes E self messages evs :
  Forall (stage_event E self messages) evs -> writes evs = [].
Proof.
  induction 1 as [|ev evs Hev _ IH]; [reflexivity|].
  destruct ev as [| | | |level what]; cbn in *; try contradiction; try exact IH.
Qed.

Lemma stage_events_silent E self messages evs :
  Forall (stage_event E self messages) evs -> Forall silent evs.
Proof.
  induction 1 as [|ev evs Hev _ IH]; constructor; [|exact IH].
  destruct ev as [| | | |level what]; cbn in *; auto.
Qed.

(** A stage: its record, the call of the executor, and the closing record
    when the call returns. *)
Lemma stage_run E stage (call : M PyValue) w :
  (log E INFO (StageStarted stage);;;
   result <- call;;
   log E INFO (StageFinished stage);;;
   ret result) w
  = match call (extend E w [Log INFO (StageStarted stage)]) with
    | (Return v, w') => (Return v, extend E w' [Log INFO (StageFinished stage)])
    | (Raise exn, w') => (Raise exn, w')
    end.
Proof.
  unfold bind. rewrite (log_run E). destruct (call _) as [[v|exn] w']; reflexivity.
Qed.

Lemma stage_spec E depth self messages stage w r w' :
  (log E INFO (StageStarted stage);;;
   result <- _call_api E depth self messages None;;
   log E INFO (StageFinished stage);;;
   ret result) w = (r, w') ->
  exists evs,
    w' = extend E w evs
    /\ Forall (stage_event E self messages) evs
    /\ (forall c, r = Return c -> delivered evs c).
Proof.
  rewrite stage_run.
  destruct (_call_api _ _ _ _ _ _) as [[v|exn] w1] eqn:Hcall;
    apply call_api_spec in Hcall as (evs & -> & Hev & Hret);
    intros Hrun; apply pair_equal_spec in Hrun as [<- <-].
  - exists ([Log INFO (StageStarted stage)] ++ evs ++ [Log INFO (StageFinished stage)]).
    rewrite !extend_extend. split; [reflexivity|]. split.
    + repeat apply Forall_app_2; try (repeat constructor; fail).
      eapply Forall_impl; [exact Hev | apply executor_stage_event].
    + intros c [= <-]. destruct (Hret v eq_refl) as (evs0 & rq & res & records & -> & Hq & Hb).
      exists ([Log INFO (StageStarted stage)] ++ evs0), rq, res,
             (records ++ [Log INFO (StageFinished stage)]).
      split; [now rewrite <- !app_assoc|]. split; [|exact Hb].
      rewrite posts_app, Hq. reflexivity.
  - exists ([Log INFO (StageStarted stage)] ++ evs).
    rewrite !extend_extend. split; [reflexivity|]. split; [|discriminate].
    apply Forall_app_2; [repeat constructor|].
    eapply Forall_impl; [exact Hev | apply executor_stage_event].
Qed.

(** With a named fallback model a stage makes at most twice [MAX_RETRIES]
    attempts and does not end in [RecursionError]. *)
Lemma stage_bounded E depth self messages stage w r w' :
  fallback_model self <> "" ->
  (log E INFO (StageStarted stage);;;
   result <- _call_api E (S (S depth)) self messages None;;
   log E INFO (StageFinished stage);;;
   ret result) w = (r, w') ->
  (attempts (trace w') <= attempts (trace w) + 2 * MAX_RETRIES)%nat
  /\ r <> Raise RecursionError.
Proof.
  intros Hfb. rewrite stage_run.
  destruct (_call_api _ _ _ _ _ _) as [[v|exn] w1] eqn:Hcall;
    apply call_api_bounded in Hcall as (evs & -> & Hn & _ & Hrec); try exact Hfb;
    intros Hrun; apply pair_equal_spec in Hrun as [<- <-];
    rewrite !trace_extend, !attempts_app;
    change (attempts [Log INFO (StageStarted stage)]) with 0%nat;
    try change (attempts [Log INFO (StageFinished stage)]) with 0%nat;
    (split; [lia|]); first [discriminate | exact Hrec].
Qed.

(** A stage whose requests all fail raises. *)
Lemma stage_never_returns E depth self messages stage w :
  (forall tr rq, req_messages rq = messages -> exists e, try_body (endpoint E tr rq) = inl e) ->
  exists exn w',
    (log E INFO (StageStarted stage);;;
     result <- _call_api E depth self messages None;;
     log E INFO (StageFinished stage);;;
     ret result) w = (Raise exn, w')
    /\ exists evs, w' = extend E w evs /\ writes evs = [].
Proof.
  intros Hfail.
  destruct ((log E INFO (StageStarted stage);;;
             result <- _call_api E depth self messages None;;
             log E INFO (StageFinished stage);;;
             ret result) w) as [[c|exn] w'] eqn:Hrun.
  - exfalso. apply stage_spec in Hrun as (evs & _ & Hev & Hret).
    destruct (Hret c eq_refl) as (evs0 & rq & res & records & -> & _ & Hbody).
    apply Forall_app in Hev as [_ Hev].
    apply Forall_cons in Hev as [[(m & ->) (tr & ->)] _].
    destruct (Hfail tr (request_of self m messages) eq_refl) as (e & He). congruence.
  - exists exn, w'. split; [reflexivity|].
    apply stage_spec in Hrun as (evs & -> & Hev & _).
    exists evs. split; [reflexivity | now apply stage_events_no_writes in Hev].
Qed.

(** A stage whose first request is answered returns the answer. *)
Lemma stage_returns E depth self messages stage w :
  (forall tr rq, req_messages rq = messages ->
                 exists c, try_body (endpoint E tr rq) = inr (PyStr c)) ->
  exists c w',
    (log E INFO (StageStarted stage);;;
     result <- _call_api E (S depth) self messages None;;
     log E INFO (StageFinished stage);;;
     ret result) w = (Return (PyStr c), w')
    /\ exists evs, w' = extend E w evs /\ writes evs = [].
Proof.
  intros Hok. rewrite stage_run.
  set (w0 := extend E w [Log INFO (StageStarted stage)]).
  destruct (Hok (trace w0 ++ [Log INFO (ApiCallStarted 1 (model self))])
              (request_of self (model self) messages) eq_refl) as (c & Hc).
  rewrite call_api_step. cbv zeta. cbn [model_or]. unfold MAX_RETRIES.
  rewrite attempt_loop_step. cbv zeta. rewrite Hc.
  exists c. eexists. split; [reflexivity|].
  subst w0. rewrite !extend_extend. eexists. split; reflexivity.
Qed.

(** ** The runs of the pipeline *)

Lemma opening_files E self image_path w p :
  p <> LOG_FILE ->
  files (extend E w (board_opening self image_path)) !! p = files w !! p.
Proof. intros Hp. now apply files_extend_no_writes. Qed.

(** Every run of [process_board] ends in one of the twelve ways. *)
Lemma process_board_run E depth self image_path w r w' :
  process_board E depth self image_path w = (r, w') ->
  board_run E depth self image_path w r w'.
Proof.
  unfold process_board, bind at 1, exists_.
  destruct (files w !! path_str image_path) as [entry|] eqn:Hfile.
  2: { cbn. intros [= <- <-]. now constructor. }
  replace (bool_decide (is_Some (Some entry))) with true
    by (symmetry; apply bool_decide_eq_true_2; eauto).
  cbn [negb].
  destruct (bool_decide (Str.lower (suffix image_path) ∈ SUPPORTED_FORMATS)) eqn:Hsup.
  2: { cbn. intros [= <- <-]. apply bool_decide_eq_false in Hsup.
       now apply (run_unsupported _ _ _ _ _ entry). }
  apply bool_decide_eq_true in Hsup. cbn [negb].
  do 4 (unfold bind at 1; rewrite (log_run E); cbv beta iota).
  rewrite !extend_extend. cbn [app].
  change [Log INFO Rule; Log INFO (BoardStarted (name image_path));
          Log INFO (BoardSettings (template self) (model self)); Log INFO Rule]
    with (board_opening self image_path).
  set (w0 := extend E w (board_opening self image_path)).
  assert (Hfile0 : files w0 !! path_str image_path = Some entry).
  { subst w0. rewrite opening_files; [exact Hfile | now apply image_not_log_file]. }
  unfold bind at 1, _encode_image, bind at 1, read_bytes. rewrite Hfile0.
  destruct entry as [data|].
  2: { intros [= <- <-]. now apply run_directory. }
  cbn [ret fst snd].
  fold (image_b64_of data). fold (mime_type_of image_path).
  unfold bind at 1.
  destruct (analyze_structure _ _ _ _ _ w0) as [[s1|exn] w1] eqn:H1.
  2: { intros [= <- <-]. now apply (run_stage1_failed _ _ _ _ _ data). }
  unfold bind at 1.
  destruct (transcribe_raw _ _ _ _ _ _ w1) as [[s2|exn] w2] eqn:H2.
  2: { intros [= <- <-]. now apply (run_stage2_failed _ _ _ _ _ data s1 w1). }
  unfold bind at 1, now. unfold bind at 1.
  destruct s2 as [s2|shown].
  2: { cbn [str_add raise]. intros [= <- <-].
       now apply (run_raw_not_text _ _ _ _ _ data s1 w1 shown). }
  cbn [str_add ret].
  fold (raw_document E self image_path s1 s2 w2).
  unfold bind at 1.
  destruct (decide (files w2 !! raw_path_of self image_path = Some Directory)) as [Hdir|Hdir].
  { unfold write_text. rewrite Hdir. intros [= <- <-].
    now apply (run_raw_path_directory _ _ _ _ _ data s1 w1 s2). }
  rewrite (write_text_run E) by exact Hdir.
  unfold bind at 1. rewrite (log_run E). rewrite extend_extend. cbn [app].
  fold (raw_saved E self image_path s1 s2 w2).
  unfold bind at 1.
  destruct (clean_and_enrich _ _ _ _ _ _) as [[s3|exn] w3] eqn:H3.
  2: { intros [= <- <-]. now apply (run_stage3_failed _ _ _ _ _ data s1 w1 s2 w2). }
  unfold bind at 1.
  destruct (synthesize_summary _ _ _ _ _ w3) as [[s4|exn] w4] eqn:H4.
  2: { intros [= <- <-]. now apply (run_stage4_failed _ _ _ _ _ data s1 w1 s2 w2 s3 w3). }
  unfold bind at 1, now. unfold bind at 1.
  destruct s4 as [s4|shown].
  2: { cbn [str_add raise]. intros [= <- <-].
       now apply (run_summary_not_text _ _ _ _ _ data s1 w1 s2 w2 s3 w3 shown). }
  cbn [str_add ret].
  fold (summary_document E self image_path s4 w4).
  unfold bind at 1.
  destruct (decide (files w4 !! summary_path_of self image_path = Some Directory))
    as [Hdir'|Hdir'].
  { unfold write_text. rewrite Hdir'. intros [= <- <-].
    now apply (run_summary_path_directory _ _ _ _ _ data s1 w1 s2 w2 s3 w3 s4). }
  rewrite (write_text_run E) by exact Hdir'.
  unfold bind. rewrite !(log_run E). unfold ret. rewrite !extend_extend. cbn [app].
  fold (summary_saved E self image_path s4 w4).
  intros [= <- <-].
  now apply (run_done _ _ _ _ _ data s1 w1 s2 w2 s3 w3 s4 w4).
Qed.

Lemma analyze_structure_spec E depth self image_b64 mime_type w r w' :
  analyze_structure E depth self image_b64 mime_type w = (r, w') ->
  exists evs,
    w' = extend E w evs
    /\ Forall (stage_event E self (analyze_structure_messages self image_b64 mime_type)) evs
    /\ (forall c, r = Return c -> delivered evs c).
Proof. apply stage_spec. Qed.

Lemma transcribe_raw_spec E depth self image_b64 mime_type s1 w r w' :
  transcribe_raw E depth self image_b64 mime_type s1 w = (r, w') ->
  exists evs,
    w' = extend E w evs
    /\ Forall (stage_event E self (transcribe_raw_messages self image_b64 mime_type s1)) evs
    /\ (forall c, r = Return c -> delivered evs c).
Proof. apply stage_spec. Qed.

Lemma clean_and_enrich_spec E depth self s2 s1 w r w' :
  clean_and_enrich E depth self s2 s1 w = (r, w') ->
  exists evs,
    w' = extend E w evs
    /\ Forall (stage_event E self (clean_and_enrich_messages self s2 s1)) evs
    /\ (forall c, r = Return c -> delivered evs c).
Proof. apply stage_spec. Qed.

Lemma synthesize_summary_spec E depth self s3 s1 w r w' :
  synthesize_summary E depth self s3 s1 w = (r, w') ->
  exists evs,
    w' = extend E w evs
    /\ Forall (stage_event E self (synthesize_summary_messages self s3 s1)) evs
    /\ (forall c, r = Return c -> delivered evs c).
Proof. apply stage_spec. Qed.

(** ** Claims about the Pipeline Orchestrator *)

(** *** The payloads of the stages *)

Lemma transcribe_raw_mentions self image_b64 mime_type s1 :
  payload_mentions (transcribe_raw_messages self image_b64 mime_type s1) (fmt s1).
Proof.
  unfold payload_mentions, transcribe_raw_messages, _build_vision_message.
  apply Exists_cons_tl, Exists_cons_hd. unfold message_mentions. cbn [content].
  apply Exists_cons_tl, Exists_cons_hd. cbn [part_mentions].
  unfold transcribe_raw_prompt.
  repeat (first [apply infix_of_here | apply infix_of_later]).
Qed.

Lemma clean_and_enrich_mentions self s2 s1 :
  payload_mentions (clean_and_enrich_messages self s2 s1) (fmt s1)
  /\ payload_mentions (clean_and_enrich_messages self s2 s1) (fmt s2).
Proof.
  unfold payload_mentions, clean_and_enrich_messages.
  split; apply Exists_cons_hd; unfold message_mentions; cbn [content];
    unfold clean_and_enrich_prompt; cbv zeta.
  - repeat (first [apply infix_of_here | apply infix_of_later]).
  - repeat (first [apply infix_of_end | apply infix_of_later]).
Qed.

Lemma synthesize_summary_mentions self s3 s1 :
  payload_mentions (synthesize_summary_messages self s3 s1) (fmt s1)
  /\ payload_mentions (synthesize_summary_messages self s3 s1) (fmt s3).
Proof.
  unfold payload_mentions, synthesize_summary_messages.
  split; apply Exists_cons_hd; unfold message_mentions; cbn [content];
    unfold synthesize_summary_prompt; cbv zeta.
  - repeat (first [apply infix_of_here | apply infix_of_later]).
  - repeat (first [apply infix_of_end | apply infix_of_later]).
Qed.

(** *** Threading of the stage outputs *)

Lemma stage_output_sub evs evs' messages c :
  (forall ev, ev ∈ evs -> ev ∈ evs') ->
  stage_output evs messages c -> stage_output evs' messages c.
Proof.
  intros Hsub (rq & res & Hin & Hm & Hb). exists rq, res. split; [now apply Hsub | now split].
Qed.

Lemma stage_output_mono evs more messages c :
  stage_output evs messages c -> stage_output (evs ++ more) messages c.
Proof. apply stage_output_sub. intros ev Hin. apply elem_of_app. now left. Qed.

Lemma stage_output_later evs more messages c :
  stage_output more messages c -> stage_output (evs ++ more) messages c.
Proof. apply stage_output_sub. intros ev Hin. apply elem_of_app. now right. Qed.

Lemma threaded_mono self image_b64 mime_type before more messages :
  threaded self image_b64 mime_type before messages ->
  threaded self image_b64 mime_type (before ++ more) messages.
Proof.
  intros [H | s1 H1 H | s1 s2 H1 H2 H | s1 s2 s3 H1 H2 H3 H].
  - now apply threaded_stage1.
  - apply (threaded_stage2 _ _ _ _ _ s1); auto using stage_output_mono.
  - apply (threaded_stage3 _ _ _ _ _ s1 s2); auto using stage_output_mono.
  - apply (threaded_stage4 _ _ _ _ _ s1 s2 s3); auto using stage_output_mono.
Qed.

(** The requests of one stage all carry its messages. *)
Lemma segment_messages E self messages seg before rq res after :
  Forall (stage_event E self messages) seg ->
  seg = before ++ Post rq res :: after ->
  req_messages rq = messages.
Proof.
  intros Hall ->. apply Forall_app in Hall as [_ Hall].
  apply Forall_cons in Hall as [[(m & ->) _] _]. reflexivity.
Qed.

(** What a stage delivered is an output of its segment. *)
Lemma delivered_stage_output E self messages seg c :
  Forall (stage_event E self messages) seg ->
  delivered seg c -> stage_output seg messages c.
Proof.
  intros Hall (evs0 & rq & res & records & -> & _ & Hb). exists rq, res.
  split; [apply elem_of_app; right; apply list_elem_of_here|].
  split; [|exact Hb].
  eapply segment_messages; [exact Hall | reflexivity].
Qed.

Lemma all_threaded_nil self image_b64 mime_type : all_threaded self image_b64 mime_type [].
Proof. intros before rq res after H. now destruct before. Qed.

(** A further stage keeps the history threaded when its messages are
    threaded by the history so far. *)
Lemma all_threaded_segment E self image_b64 mime_type evs messages seg :
  all_threaded self image_b64 mime_type evs ->
  Forall (stage_event E self messages) seg ->
  threaded self image_b64 mime_type evs messages ->
  all_threaded self image_b64 mime_type (evs ++ seg).
Proof.
  intros Hevs Hseg Hm before rq res after Heq.
  apply app_eq_app in Heq as [l [[Hl1 Hl2] | [Hl1 Hl2]]].
  - destruct l as [|ev l].
    + rewrite app_nil_r in Hl1. subst before. cbn in Hl2.
      rewrite (segment_messages E self messages seg [] rq res after Hseg)
        by (now rewrite <- Hl2).
      exact Hm.
    + injection Hl2 as <- ->. now apply (Hevs before rq res l).
  - subst before.
    rewrite (segment_messages E self messages seg l rq res after Hseg Hl2).
    now apply threaded_mono.
Qed.

(** So do events that are no exchanges. *)
Lemma all_threaded_quiet self image_b64 mime_type evs quiet :
  all_threaded self image_b64 mime_type evs ->
  posts quiet = [] ->
  all_threaded self image_b64 mime_type (evs ++ quiet).
Proof.
  intros Hevs Hq before rq res after Heq.
  apply app_eq_app in Heq as [l [[Hl1 Hl2] | [Hl1 Hl2]]].
  - destruct l as [|ev l].
    + cbn in Hl2. rewrite <- Hl2 in Hq. discriminate Hq.
    + injection Hl2 as <- ->. now apply (Hevs before rq res l).
  - rewrite Hl2, posts_app in Hq. apply app_eq_nil in Hq as [_ Hq]. discriminate Hq.
Qed.

Section Threading.

Variable E : Env.
Variable self : BoardDigitizer.
Variables image_b64 mime_type : string.
Variables opening saving : list Event.

Hypothesis opening_quiet : posts opening = [].
Hypothesis saving_quiet : posts saving = [].

Lemma opening_threaded : all_threaded self image_b64 mime_type opening.
Proof using opening_quiet.
  apply (all_threaded_quiet self image_b64 mime_type [] opening);
    [apply all_threaded_nil | exact opening_quiet].
Qed.

Lemma stage1_threaded evs1 :
  Forall (stage_event E self (analyze_structure_messages self image_b64 mime_type)) evs1 ->
  all_threaded self image_b64 mime_type (opening ++ evs1).
Proof using opening_quiet.
  intros H1.
  apply (all_threaded_segment E self _ _ opening
           (analyze_structure_messages self image_b64 mime_type) evs1);
    [apply opening_threaded | exact H1 | now apply threaded_stage1].
Qed.

Lemma stage2_threaded evs1 s1 evs2 :
  Forall (stage_event E self (analyze_structure_messages self image_b64 mime_type)) evs1 ->
  delivered evs1 s1 ->
  Forall (stage_event E self (transcribe_raw_messages self image_b64 mime_type s1)) evs2 ->
  all_threaded self image_b64 mime_type ((opening ++ evs1) ++ evs2).
Proof using opening_quiet.
  intros H1 Hd1 H2.
  apply (all_threaded_segment E self _ _ _
           (transcribe_raw_messages self image_b64 mime_type s1) evs2);
    [now apply stage1_threaded | exact H2 |].
  apply (threaded_stage2 _ _ _ _ _ s1);
    [apply stage_output_later; now apply (delivered_stage_output E self) | reflexivity
    | apply transcribe_raw_mentions].
Qed.

Lemma stage3_threaded evs1 s1 evs2 s2 evs3 :
  Forall (stage_event E self (analyze_structure_messages self image_b64 mime_type)) evs1 ->
  delivered evs1 s1 ->
  Forall (stage_event E self (transcribe_raw_messages self image_b64 mime_type s1)) evs2 ->
  delivered evs2 s2 ->
  Forall (stage_event E self (clean_and_enrich_messages self s2 s1)) evs3 ->
  all_threaded self image_b64 mime_type ((((opening ++ evs1) ++ evs2) ++ saving) ++ evs3).
Proof using opening_quiet saving_quiet.
  intros H1 Hd1 H2 Hd2 H3.
  apply (all_threaded_segment E self _ _ _ (clean_and_enrich_messages self s2 s1) evs3);
    [apply all_threaded_quiet; [now apply (stage2_threaded evs1 s1) | exact saving_quiet]
    | exact H3 |].
  apply (threaded_stage3 _ _ _ _ _ s1 s2).
  - do 2 apply stage_output_mono. apply stage_output_later.
    now apply (delivered_stage_output E self).
  - apply stage_output_mono, stage_output_later.
    now apply (delivered_stage_output E self).
  - reflexivity.
  - apply clean_and_enrich_mentions.
  - apply clean_and_enrich_mentions.
Qed.

Lemma stage4_threaded evs1 s1 evs2 s2 evs3 s3 evs4 :
  Forall (stage_event E self (analyze_structure_messages self image_b64 mime_type)) evs1 ->
  delivered evs1 s1 ->
  Forall (stage_event E self (transcribe_raw_messages self image_b64 mime_type s1)) evs2 ->
  delivered evs2 s2 ->
  Forall (stage_event E self (clean_and_enrich_messages self s2 s1)) evs3 ->
  delivered evs3 s3 ->
  Forall (stage_event E self (synthesize_summary_messages self s3 s1)) evs4 ->
  all_threaded self image_b64 mime_type
    (((((opening ++ evs1) ++ evs2) ++ saving) ++ evs3) ++ evs4).
Proof using opening_quiet saving_quiet.
  intros H1 Hd1 H2 Hd2 H3 Hd3 H4.
  apply (all_threaded_segment E self _ _ _ (synthesize_summary_messages self s3 s1) evs4);
    [now apply (stage3_threaded evs1 s1 evs2 s2) | exact H4 |].
  apply (threaded_stage4 _ _ _ _ _ s1 s2 s3).
  - do 3 apply stage_output_mono. apply stage_output_later.
    now apply (delivered_stage_output E self).
  - do 2 apply stage_output_mono. apply stage_output_later.
    now apply (delivered_stage_output E self).
  - apply stage_output_later. now apply (delivered_stage_output E self).
  - reflexivity.
  - apply synthesize_summary_mentions.
  - apply synthesize_summary_mentions.
Qed.

End Threading.

(** The history of a run of [process_board], stage by stage. *)
Lemma process_board_threading E depth self image_path w data r w' :
  files w !! path_str image_path = Some (File data) ->
  process_board E depth self image_path w = (r, w') ->
  exists evs,
    w' = extend E w evs
    /\ all_threaded self (image_b64_of data) (mime_type_of image_path) evs
    /\ (forall paths, r = Return paths ->
        exists s1 s2 s3 s4,
          stage_output evs
            (analyze_structure_messages self (image_b64_of data) (mime_type_of image_path)) s1
          /\ stage_output evs
               (transcribe_raw_messages self (image_b64_of data) (mime_type_of image_path) s1)
               s2
          /\ stage_output evs (clean_and_enrich_messages self s2 s1) s3
          /\ stage_output evs (synthesize_summary_messages self s3 s1) s4).
Proof.
  intros Hfile Hrun. apply process_board_run in Hrun.
  inversion Hrun as [ Hf | entry Hf Hs | Hf Hs | d e0 wa Hf Hs Ha | d t1 wa e0 wb Hf Hs Ha Hb
                    | d t1 wa sh wb Hf Hs Ha Hb | d t1 wa t2 wb Hf Hs Ha Hb Hdir
                    | d t1 wa t2 wb e0 wc Hf Hs Ha Hb Hdir Hc
                    | d t1 wa t2 wb t3 wc e0 wd Hf Hs Ha Hb Hdir Hc Hd
                    | d t1 wa t2 wb t3 wc sh wd Hf Hs Ha Hb Hdir Hc Hd
                    | d t1 wa t2 wb t3 wc t4 wd Hf Hs Ha Hb Hdir Hc Hd Hdir'
                    | d t1 wa t2 wb t3 wc t4 wd Hf Hs Ha Hb Hdir Hc Hd Hdir' ];
    subst; try congruence;
    try (assert (d = data) by congruence; subst d);
    try (apply analyze_structure_spec in Ha as (evs1 & -> & H1 & Hd1));
    try (apply transcribe_raw_spec in Hb as (evs2 & -> & H2 & Hd2));
    try (apply clean_and_enrich_spec in Hc as (evs3 & -> & H3 & Hd3));
    try (apply synthesize_summary_spec in Hd as (evs4 & -> & H4 & Hd4));
    rewrite ?extend_extend.
  - exists []. split; [reflexivity|]. split; [apply all_threaded_nil | discriminate].
  - exists (board_opening self image_path ++ evs1). split; [reflexivity|].
    split; [now apply (stage1_threaded E) | discriminate].
  - exists ((board_opening self image_path ++ evs1) ++ evs2).
    split; [now rewrite <- !app_assoc|]. split; [|discriminate].
    apply (stage2_threaded E self _ _ (board_opening self image_path) eq_refl evs1 t1); auto.
  - exists ((board_opening self image_path ++ evs1) ++ evs2).
    split; [now rewrite <- !app_assoc|]. split; [|discriminate].
    apply (stage2_threaded E self _ _ (board_opening self image_path) eq_refl evs1 t1); auto.
  - exists ((board_opening self image_path ++ evs1) ++ evs2).
    split; [now rewrite <- !app_assoc|]. split; [|discriminate].
    apply (stage2_threaded E self _ _ (board_opening self image_path) eq_refl evs1 t1); auto.
  - eexists ((((board_opening self image_path ++ evs1) ++ evs2) ++ raw_saved _ _ _ _ _ _)
             ++ evs3).
    split; [now rewrite <- !app_assoc|]. split; [|discriminate].
    apply (stage3_threaded E self _ _ (board_opening self image_path)
             (raw_saved E self image_path t1 t2 _) eq_refl eq_refl
             evs1 t1 evs2 (PyStr t2)); auto.
  - eexists (((((board_opening self image_path ++ evs1) ++ evs2) ++ raw_saved _ _ _ _ _ _)
              ++ evs3) ++ evs4).
    split; [now rewrite <- !app_assoc|]. split; [|discriminate].
    apply (stage4_threaded E self _ _ (board_opening self image_path)
             (raw_saved E self image_path t1 t2 _) eq_refl eq_refl
             evs1 t1 evs2 (PyStr t2) evs3 t3);
      auto.
  - eexists (((((board_opening self image_path ++ evs1) ++ evs2) ++ raw_saved _ _ _ _ _ _)
              ++ evs3) ++ evs4).
    split; [now rewrite <- !app_assoc|]. split; [|discriminate].
    apply (stage4_threaded E self _ _ (board_opening self image_path)
             (raw_saved E self image_path t1 t2 _) eq_refl eq_refl
             evs1 t1 evs2 (PyStr t2) evs3 t3);
      auto.
  - eexists (((((board_opening self image_path ++ evs1) ++ evs2) ++ raw_saved _ _ _ _ _ _)
              ++ evs3) ++ evs4).
    split; [now rewrite <- !app_assoc|]. split; [|discriminate].
    apply (stage4_threaded E self _ _ (board_opening self image_path)
             (raw_saved E self image_path t1 t2 _) eq_refl eq_refl
             evs1 t1 evs2 (PyStr t2) evs3 t3);
      auto.
  - eexists ((((((board_opening self image_path ++ evs1) ++ evs2) ++ raw_saved _ _ _ _ _ _)
               ++ evs3) ++ evs4) ++ summary_saved _ _ _ _ _).
    split; [now rewrite <- !app_assoc|]. split.
    + apply all_threaded_quiet; [|reflexivity].
      apply (stage4_threaded E self _ _ (board_opening self image_path)
             (raw_saved E self image_path t1 t2 _) eq_refl eq_refl
             evs1 t1 evs2 (PyStr t2) evs3 t3);
        auto.
    + intros _ _. exists t1, (PyStr t2), t3, (PyStr t4).
      pose proof (delivered_stage_output E self _ _ _ H1 (Hd1 _ eq_refl)) as O1.
      pose proof (delivered_stage_output E self _ _ _ H2 (Hd2 _ eq_refl)) as O2.
      pose proof (delivered_stage_output E self _ _ _ H3 (Hd3 _ eq_refl)) as O3.
      pose proof (delivered_stage_output E self _ _ _ H4 (Hd4 _ eq_refl)) as O4.
      repeat split;
        (eapply stage_output_sub; [|eassumption]);
        intros ev Hin; rewrite !elem_of_app; tauto.
Qed.

(** C4.  In every run of [process_board], whatever the endpoint answers
    and however the run ends, each request posted is the payload of one of
    the four stages built from the values that earlier exchanges of the
    same run delivered: a stage-2 payload is built from, and contains the
    text of, what a stage-1 exchange delivered; a stage-3 payload those of
    stage 1 and stage 2; a stage-4 payload those of stage 1 and stage 3.
    A run that returns has gone through the four stages in this way. *)
Theorem process_board_threads_stage_outputs E depth self image_path w data r w' :
  files w !! path_str image_path = Some (File data) ->
  process_board E depth self image_path w = (r, w') ->
  let image_b64 := image_b64_of data in
  let mime_type := mime_type_of image_path in
  exists evs,
    trace w' = trace w ++ evs
    /\ all_threaded self image_b64 mime_type evs
    /\ (forall paths, r = Return paths ->
        exists s1 s2 s3 s4,
          stage_output evs (analyze_structure_messages self image_b64 mime_type) s1
          /\ stage_output evs (transcribe_raw_messages self image_b64 mime_type s1) s2
          /\ stage_output evs (clean_and_enrich_messages self s2 s1) s3
          /\ stage_output evs (synthesize_summary_messages self s3 s1) s4).
Proof.
  intros Hfile Hrun. cbv zeta.
  destruct (process_board_threading E depth self image_path w data r w' Hfile Hrun)
    as (evs & -> & Hall & Hout).
  exists evs. rewrite trace_extend. auto.
Qed.

Lemma process_board_threads_stage_outputs_witness :
  let E := scripted_env ["Layout: drei Spalten"; "## Spalte A"; "## Spalte A (4 Stimmen)";
                         "### Executive Summary"] in
  let w := world_with sample_png "PNG" in
  let run := process_board E 1 sample_digitizer sample_png w in
  files w !! path_str sample_png = Some (File "PNG")
  /\ run = (Return (raw_path_of sample_digitizer sample_png,
                    summary_path_of sample_digitizer sample_png), run.2)
  /\ exists evs,
       trace run.2 = trace w ++ evs
       /\ all_threaded sample_digitizer (image_b64_of "PNG") (mime_type_of sample_png) evs.
Proof.
  intros E w run.
  assert (H0 : files w !! path_str sample_png = Some (File "PNG")) by (vm_compute; reflexivity).
  assert (H1 : run = (Return (raw_path_of sample_digitizer sample_png,
                              summary_path_of sample_digitizer sample_png), run.2))
    by (vm_compute; reflexivity).
  refine (conj H0 (conj H1 _)).
  destruct (process_board_threads_stage_outputs E 1 sample_digitizer sample_png w "PNG"
              _ run.2 H0 H1) as (evs & Htr & Hall & _).
  exists evs. split; [exact Htr | exact Hall].
Defined.

(** *** What a run writes *)

Lemma apply_writes_unwritten (m : gmap string Entry) ws p :
  p ∉ ws.*1 -> apply_writes m ws !! p = m !! p.
Proof.
  revert m. induction ws as [|[q d] ws IH]; intros m Hp; [reflexivity|].
  cbn [apply_writes foldl fst snd]. cbn in Hp. apply not_elem_of_cons in Hp as [Hq Hp].
  change (apply_writes (<[q := File d]> m) ws !! p = m !! p).
  rewrite IH by exact Hp. now rewrite lookup_insert_ne.
Qed.

Lemma apply_writes_written (m : gmap string Entry) ws p :
  p ∈ ws.*1 -> exists d, apply_writes m ws !! p = Some (File d).
Proof.
  revert m. induction ws as [|[q d] ws IH]; intros m Hp; [now apply elem_of_nil in Hp|].
  change (exists d', apply_writes (<[q := File d]> m) ws !! p = Some (File d')).
  destruct (decide (p ∈ ws.*1)) as [Hin|Hout]; [now apply IH|].
  cbn in Hp. apply elem_of_cons in Hp as [->|Hp]; [|contradiction].
  exists d. rewrite apply_writes_unwritten by exact Hout. apply lookup_insert_eq.
Qed.

(** No event puts a directory where there was none. *)
Lemma extend_no_new_directory E w evs p :
  files w !! p <> Some Directory -> files (extend E w evs) !! p <> Some Directory.
Proof.
  revert w. induction evs as [|ev evs IH]; intros w Hp; [exact Hp|].
  change (extend E w (ev :: evs)) with (extend E (record E w ev) evs).
  apply IH. destruct ev as [rq res|s|q d|what|level what]; try exact Hp; cbn [record files].
  - destruct (decide (q = p)) as [->|Hne].
    + rewrite lookup_insert_eq. discriminate.
    + now rewrite lookup_insert_ne.
  - destruct (decide (LOG_FILE = p)) as [<-|Hne].
    + rewrite lookup_insert_eq. unfold appended.
      destruct (files w !! LOG_FILE) as [[?|]|]; discriminate.
    + now rewrite lookup_insert_ne.
Qed.

Lemma opening_silent self image_path : Forall silent (board_opening self image_path).
Proof. repeat constructor. Qed.

Lemma raw_saved_silent E self image_path s1 s2 w :
  Forall silent (raw_saved E self image_path s1 s2 w).
Proof. repeat constructor. Qed.

Lemma summary_saved_silent E self image_path s4 w :
  Forall silent (summary_saved E self image_path s4 w).
Proof. repeat constructor. Qed.

(** What a run of [process_board] writes: nothing, the raw document, or
    the raw document and then the summary document; it prints nothing;
    and a path that is turned down leaves no event at all. *)
Lemma process_board_effects E depth self image_path w r w' :
  process_board E depth self image_path w = (r, w') ->
  exists evs,
    w' = extend E w evs
    /\ Forall silent evs
    /\ ((writes evs = [] /\ exists exn, r = Raise exn)
        \/ (exists raw, writes evs = [(raw_path_of self image_path, raw)]
                        /\ exists exn, r = Raise exn)
        \/ (exists raw summary,
              writes evs = [(raw_path_of self image_path, raw);
                            (summary_path_of self image_path, summary)]
              /\ r = Return (raw_path_of self image_path, summary_path_of self image_path))).
Proof.
  intros Hrun. apply process_board_run in Hrun.
  board_run_cases Hrun;
    try (apply analyze_structure_spec in Ha as (evs1 & -> & H1 & _);
         pose proof (stage_events_no_writes _ _ _ _ H1) as W1;
         apply stage_events_silent in H1);
    try (apply transcribe_raw_spec in Hb as (evs2 & -> & H2 & _);
         pose proof (stage_events_no_writes _ _ _ _ H2) as W2;
         apply stage_events_silent in H2);
    try (apply clean_and_enrich_spec in Hc as (evs3 & -> & H3 & _);
         pose proof (stage_events_no_writes _ _ _ _ H3) as W3;
         apply stage_events_silent in H3);
    try (apply synthesize_summary_spec in Hd as (evs4 & -> & H4 & _);
         pose proof (stage_events_no_writes _ _ _ _ H4) as W4;
         apply stage_events_silent in H4);
    rewrite ?extend_extend;
    first [ exists []; split; [reflexivity|] | eexists; split; [reflexivity|] ];
    (split; [repeat apply Forall_app_2;
             auto using opening_silent, raw_saved_silent, summary_saved_silent|]);
    rewrite ?writes_app, ?W1, ?W2, ?W3, ?W4; cbn [app];
    first [ left; split; [reflexivity | eauto]
          | right; left; eexists; split; [reflexivity | eauto]
          | right; right; eexists _, _; split; reflexivity ].
Qed.

(** A path that is missing or has no supported suffix is turned down with
    the world as it was. *)
Lemma process_board_rejects E depth self image_path w :
  (files w !! path_str image_path = None ->
   process_board E depth self image_path w
   = (Raise (FileNotFoundError (path_str image_path)), w))
  /\ (is_Some (files w !! path_str image_path) ->
      Str.lower (suffix image_path) ∉ SUPPORTED_FORMATS ->
      process_board E depth self image_path w = (Raise (ValueError (suffix image_path)), w)).
Proof.
  split.
  - intros Hnone.
    destruct (process_board E depth self image_path w) as [r w'] eqn:Hrun.
    apply process_board_run in Hrun. board_run_cases Hrun; congruence.
  - intros [found Hsome] Hsup.
    destruct (process_board E depth self image_path w) as [r w'] eqn:Hrun.
    apply process_board_run in Hrun. board_run_cases Hrun; try congruence; contradiction.
Qed.

(** *** The first request of a run *)

Lemma call_api_first_post E depth self messages model_arg w r w' :
  _call_api E (S depth) self messages model_arg w = (r, w') ->
  exists res rest,
    w' = extend E w
           (Log INFO (ApiCallStarted 1 (model_or model_arg (model self)))
            :: Post (request_of self (model_or model_arg (model self)) messages) res
            :: rest).
Proof.
  rewrite call_api_step. cbv zeta. unfold MAX_RETRIES. rewrite attempt_loop_step. cbv zeta.
  set (used := model_or model_arg (model self)).
  set (rq := request_of self used messages).
  set (started := Log INFO (ApiCallStarted 1 used)).
  set (res := endpoint E (trace w ++ [started]) rq).
  destruct (try_body res) as [e|c].
  - destruct (verdict used 1 e) as [[[level what] delay]|exn].
    + destruct (attempt_loop _ _ _ _ _ _ _ _) as [rl wl] eqn:Hloop.
      apply attempt_loop_spec in Hloop as (evs & -> & _).
      rewrite extend_extend. cbn [app].
      destruct rl as [[c|last]|exn].
      * intros H. apply pair_equal_spec in H as [_ <-]. now eexists _, _.
      * destruct (bool_decide _).
        -- intros H. apply call_api_spec in H as (evs' & -> & _).
           rewrite !extend_extend. cbn [app]. now eexists _, _.
        -- intros H. apply pair_equal_spec in H as [_ <-]. now eexists _, _.
      * intros H. apply pair_equal_spec in H as [_ <-]. now eexists _, _.
    + intros H. apply pair_equal_spec in H as [_ <-]. now eexists _, _.
  - intros H. apply pair_equal_spec in H as [_ <-]. now eexists _, _.
Qed.

(** A run that gets past the two checks on a regular file starts with its
    opening records and the first request of stage 1. *)
Lemma process_board_first_post E depth self image_path w data r w' :
  files w !! path_str image_path = Some (File data) ->
  Str.lower (suffix image_path) ∈ SUPPORTED_FORMATS ->
  process_board E (S depth) self image_path w = (r, w') ->
  exists res rest,
    trace w' = trace w ++ board_opening self image_path
               ++ Log INFO (StageStarted AnalyzeStructure)
               :: Log INFO (ApiCallStarted 1 (model self))
               :: Post (request_of self (model self)
                          (analyze_structure_messages self (image_b64_of data)
                             (mime_type_of image_path))) res
               :: rest.
Proof.
  intros Hfile Hsup Hrun. apply process_board_run in Hrun.
  board_run_cases Hrun; try congruence; try contradiction;
    (assert (d = data) by congruence; subst d);
    unfold analyze_structure in Ha; rewrite stage_run in Ha;
    destruct (_call_api _ _ _ _ _ _) as [[v|exn] w1] eqn:Hcall;
    apply call_api_first_post in Hcall as (res & rest & ->);
    apply pair_equal_spec in Ha as [Ha1 Ha2]; try discriminate Ha1; subst;
    try (apply transcribe_raw_spec in Hb as (evs2 & -> & _));
    try (apply clean_and_enrich_spec in Hc as (evs3 & -> & _));
    try (apply synthesize_summary_spec in Hd as (evs4 & -> & _));
    rewrite !trace_extend, <- ?app_assoc; cbn [app model_or];
    eexists _, _; reflexivity.
Qed.

Lemma posts_elem evs rq res :
  (rq, res) ∈ posts evs -> exists before after, evs = before ++ Post rq res :: after.
Proof.
  induction evs as [|ev evs IH]; intros Hin; [now apply elem_of_nil in Hin|].
  destruct ev as [rq' res'|s|q d|what|level what]; cbn in Hin;
    try (destruct (IH Hin) as (before & after & ->); now eexists (_ :: before), after).
  apply elem_of_cons in Hin as [[= -> ->]|Hin]; [now exists [], evs|].
  destruct (IH Hin) as (before & after & ->). now eexists (_ :: before), after.
Qed.

(** C6 as the specification states it fails: the mapping from supported
    suffix to media type is not injective, [.jpg] and [.jpeg] are both
    [image/jpeg]. *)
Lemma mime_mapping_not_injective :
  ~ (forall s1 s2,
       s1 ∈ SUPPORTED_FORMATS -> s2 ∈ SUPPORTED_FORMATS ->
       mime_of s1 = mime_of s2 -> s1 = s2).
Proof.
  intros H.
  assert (Habs : ".jpg" = ".jpeg").
  { apply H; [apply supported_intro; auto | apply supported_intro; auto
             | vm_compute; reflexivity]. }
  discriminate Habs.
Qed.

(** C6, as the code has it.  The table gives every supported suffix its
    media type (so the default of the lookup is never used for one), and
    two supported suffixes share a media type only when they are [.jpg]
    and [.jpeg].  [_encode_image] returns the media type of the lowered
    suffix, and [process_board] sends the image under it: in a run on a
    regular file with a supported suffix the first request is a stage-1
    request whose image is [data:<media type>;base64,<file>], and every
    request of the run carries that image or none.  A path whose lowered
    suffix is not supported is turned down with the world as it was, so
    without any request: with [FileNotFoundError] when nothing is at the
    path, with [ValueError] when something is. *)
Theorem supported_formats_and_media_types :
  (forall s, s ∈ SUPPORTED_FORMATS -> is_Some (mime_map !! s))
  /\ (mime_of ".jpg" = "image/jpeg" /\ mime_of ".jpeg" = "image/jpeg"
      /\ mime_of ".png" = "image/png" /\ mime_of ".webp" = "image/webp")
  /\ (forall s1 s2,
        s1 ∈ SUPPORTED_FORMATS -> s2 ∈ SUPPORTED_FORMATS ->
        mime_of s1 = mime_of s2 ->
        s1 = s2 \/ (s1 = ".jpg" /\ s2 = ".jpeg") \/ (s1 = ".jpeg" /\ s2 = ".jpg"))
  /\ (forall self image_path w data,
        files w !! path_str image_path = Some (File data) ->
        _encode_image self image_path w
        = (Return (Base64.b64encode data, mime_of (Str.lower (suffix image_path))), w))
  /\ (forall E depth self image_path w data,
        files w !! path_str image_path = Some (File data) ->
        Str.lower (suffix image_path) ∈ SUPPORTED_FORMATS ->
        let run := process_board E (S depth) self image_path w in
        let url := "data:" +:+ mime_of (Str.lower (suffix image_path)) +:+ ";base64,"
                   +:+ Base64.b64encode data in
        exists evs rq res rest,
          trace run.2 = trace w ++ evs
          /\ posts evs = (rq, res) :: rest
          /\ image_url_of (req_messages rq) = url
          /\ Forall (fun p => image_url_of (req_messages p.1) = url
                              \/ image_url_of (req_messages p.1) = "") (posts evs))
  /\ (forall E depth self image_path w,
        Str.lower (suffix image_path) ∉ SUPPORTED_FORMATS ->
        (files w !! path_str image_path = None ->
         process_board E depth self image_path w
         = (Raise (FileNotFoundError (path_str image_path)), w))
        /\ (is_Some (files w !! path_str image_path) ->
            process_board E depth self image_path w
            = (Raise (ValueError (suffix image_path)), w))).
Proof.
  split; [|split; [|split; [|split; [|split]]]].
  - intros s Hs.
    destruct (supported_cases s Hs) as [-> | [-> | [-> | ->]]]; vm_compute; eauto.
  - repeat split; vm_compute; reflexivity.
  - intros s1 s2 H1 H2.
    destruct (supported_cases s1 H1) as [-> | [-> | [-> | ->]]];
      destruct (supported_cases s2 H2) as [-> | [-> | [-> | ->]]];
      vm_compute; intros Heq; try discriminate Heq; auto.
  - intros self image_path w data Hfile.
    unfold _encode_image, bind, read_bytes. now rewrite Hfile.
  - intros E depth self image_path w data Hfile Hsup. cbv zeta.
    destruct (process_board E (S depth) self image_path w) as [r w'] eqn:Hrun.
    cbn [snd].
    destruct (process_board_first_post E depth self image_path w data r w' Hfile Hsup Hrun)
      as (res & rest & Htr).
    destruct (process_board_threading E (S depth) self image_path w data r w' Hfile Hrun)
      as (evs & -> & Hall & _).
    rewrite trace_extend in Htr. apply app_inv_head in Htr.
    exists evs. eexists _, res, (posts rest).
    split; [now rewrite trace_extend|].
    split; [rewrite Htr, posts_app; reflexivity|].
    split; [reflexivity|].
    apply Forall_forall. intros [rq' res'] Hin. cbn [fst].
    apply posts_elem in Hin as (before & after & Heq).
    destruct (Hall before rq' res' after Heq)
      as [-> | s1 _ -> _ | s1 s2 _ _ -> _ _ | s1 s2 s3 _ _ _ -> _ _].
    + now left.
    + now left.
    + now right.
    + now right.
  - intros E depth self image_path w Hsup.
    destruct (process_board_rejects E depth self image_path w) as [Hnone Hsome].
    split; [exact Hnone | intros H; now apply Hsome].
Qed.

Lemma supported_formats_and_media_types_witness :
  ".webp" ∈ SUPPORTED_FORMATS
  /\ is_Some (mime_map !! ".webp")
  /\ files (world_with sample_png "PNG") !! path_str sample_png = Some (File "PNG")
  /\ _encode_image sample_digitizer sample_png (world_with sample_png "PNG")
     = (Return ("UE5H", "image/png"), world_with sample_png "PNG")
  /\ Str.lower (suffix sample_png) ∈ SUPPORTED_FORMATS
  /\ (exists evs rq res rest,
        trace (process_board (scripted_env ["Layout"]) 1 sample_digitizer sample_png
                 (world_with sample_png "PNG")).2
        = trace (world_with sample_png "PNG") ++ evs
        /\ posts evs = (rq, res) :: rest
        /\ image_url_of (req_messages rq) = "data:image/png;base64,UE5H")
  /\ (Str.lower (suffix sample_gif) ∉ SUPPORTED_FORMATS)
  /\ process_board (constant_env (PostRaises Timeout)) 2 sample_digitizer sample_gif
       (world_with sample_gif "GIF89a")
     = (Raise (ValueError ".gif"), world_with sample_gif "GIF89a")
  /\ process_board (constant_env (PostRaises Timeout)) 2 sample_digitizer sample_gif
       empty_world
     = (Raise (FileNotFoundError "fotos/board1.gif"), empty_world).
Proof.
  destruct supported_formats_and_media_types as (Htotal & _ & _ & Henc & Hsel & Hrej).
  assert (H1 : ".webp" ∈ SUPPORTED_FORMATS) by (apply supported_intro; auto).
  assert (H2 : files (world_with sample_png "PNG") !! path_str sample_png = Some (File "PNG"))
    by (vm_compute; reflexivity).
  assert (H3 : Str.lower (suffix sample_gif) ∉ SUPPORTED_FORMATS).
  { intros H. apply supported_cases in H. vm_compute in H.
    destruct H as [H|[H|[H|H]]]; discriminate H. }
  assert (H4 : Str.lower (suffix sample_png) ∈ SUPPORTED_FORMATS)
    by (apply supported_intro; vm_compute; auto).
  refine (conj H1 (conj (Htotal _ H1) (conj H2 (conj _ (conj H4 (conj _ (conj H3 _))))))).
  - exact (Henc sample_digitizer sample_png _ _ H2).
  - destruct (Hsel (scripted_env ["Layout"]) 0%nat sample_digitizer sample_png
                (world_with sample_png "PNG") "PNG" H2 H4)
      as (evs & rq & res & rest & Htr & Hposts & Hurl & _).
    exists evs, rq, res, rest. split; [exact Htr|]. split; [exact Hposts|].
    rewrite Hurl. vm_compute. reflexivity.
  - destruct (Hrej (constant_env (PostRaises Timeout)) 2%nat sample_digitizer sample_gif
                (world_with sample_gif "GIF89a") H3) as [_ Hsome].
    destruct (Hrej (constant_env (PostRaises Timeout)) 2%nat sample_digitizer sample_gif
                empty_world H3) as [Hnone _].
    split.
    + apply Hsome. vm_compute. eauto.
    + apply Hnone. vm_compute. reflexivity.
Defined.

(** *** The documents *)

Lemma raw_document_text E self image_path s1 s2 w :
  raw_document E self image_path s1 s2 w
  = "# Rohdaten-Transkription: " +:+ stem image_path +:+ Str.nl +:+ Str.nl
    +:+ "**Erstellt:** " +:+ strftime E (trace w) +:+ Str.nl
    +:+ "**Modell:** " +:+ model self +:+ Str.nl
    +:+ "**Template:** " +:+ template self +:+ Str.nl +:+ Str.nl
    +:+ "---" +:+ Str.nl +:+ Str.nl
    +:+ "## Strukturanalyse" +:+ Str.nl +:+ Str.nl +:+ fmt s1 +:+ Str.nl +:+ Str.nl
    +:+ "---" +:+ Str.nl +:+ Str.nl
    +:+ "## Transkription" +:+ Str.nl +:+ Str.nl +:+ s2.
Proof. unfold raw_document, raw_header. cbv zeta. now rewrite !append_assoc. Qed.

Lemma summary_document_text E self image_path s4 w :
  summary_document E self image_path s4 w
  = "# Executive Summary: " +:+ stem image_path +:+ Str.nl +:+ Str.nl
    +:+ "**Erstellt:** " +:+ strftime E (trace w) +:+ Str.nl
    +:+ "**Modell:** " +:+ model self +:+ Str.nl
    +:+ "**Template:** " +:+ template self +:+ Str.nl +:+ Str.nl
    +:+ "---" +:+ Str.nl +:+ Str.nl +:+ s4.
Proof. unfold summary_document, summary_header. cbv zeta. now rewrite !append_assoc. Qed.

(** C5.  When stages 1 and 2 have returned, stage 2 with a text, and no
    directory sits at the raw path, the raw document is written at once:
    its text is the header with the name of the board, the time, the model,
    the template and what stage 1 returned, followed by the text of stage
    2.  When the run then raises, the failure is that of stage 3, of stage
    4, or of saving the summary, and each of them ran in the world in which
    the raw document was already written.  Nothing is written after the
    raw document: at the end the raw path holds it, the summary path holds
    what it held before the run (nothing, if there was no such file), and
    so does every other path but the log file. *)
Theorem raw_artifact_survives_later_failure E depth self image_path w data s1 w1 s2 w2 exn w' :
  files w !! path_str image_path = Some (File data) ->
  Str.lower (suffix image_path) ∈ SUPPORTED_FORMATS ->
  analyze_structure E depth self (image_b64_of data) (mime_type_of image_path)
    (extend E w (board_opening self image_path)) = (Return s1, w1) ->
  transcribe_raw E depth self (image_b64_of data) (mime_type_of image_path) s1 w1
    = (Return (PyStr s2), w2) ->
  files w !! raw_path_of self image_path <> Some Directory ->
  process_board E depth self image_path w = (Raise exn, w') ->
  let nl := Str.nl in
  let raw :=
    "# Rohdaten-Transkription: " +:+ stem image_path +:+ nl +:+ nl
    +:+ "**Erstellt:** " +:+ strftime E (trace w2) +:+ nl
    +:+ "**Modell:** " +:+ model self +:+ nl
    +:+ "**Template:** " +:+ template self +:+ nl +:+ nl
    +:+ "---" +:+ nl +:+ nl
    +:+ "## Strukturanalyse" +:+ nl +:+ nl +:+ fmt s1 +:+ nl +:+ nl
    +:+ "---" +:+ nl +:+ nl
    +:+ "## Transkription" +:+ nl +:+ nl +:+ s2 in
  let raw_path := raw_path_of self image_path in
  let summary_path := summary_path_of self image_path in
  let w3 := extend E w2 [WriteText raw_path raw; Log INFO (RawSaved raw_path)] in
  (clean_and_enrich E depth self (PyStr s2) s1 w3 = (Raise exn, w')
   \/ exists s3 w4,
        clean_and_enrich E depth self (PyStr s2) s1 w3 = (Return s3, w4)
        /\ (synthesize_summary E depth self s3 s1 w4 = (Raise exn, w')
            \/ (exists shown,
                  synthesize_summary E depth self s3 s1 w4 = (Return (PyOther shown), w')
                  /\ exn = TypeError)
            \/ (exists s4,
                  synthesize_summary E depth self s3 s1 w4 = (Return (PyStr s4), w')
                  /\ files w !! summary_path = Some Directory
                  /\ exn = IsADirectoryError summary_path)))
  /\ (exists evs,
        trace w' = trace w2 ++ WriteText raw_path raw :: evs /\ writes evs = [])
  /\ files w' !! raw_path = Some (File raw)
  /\ files w' !! summary_path = files w !! summary_path
  /\ (forall p, p <> raw_path -> p <> LOG_FILE -> files w' !! p = files w !! p).
Proof.
  intros Hfile Hsup H1 H2 Hnodir Hrun. cbv zeta.
  rewrite <- (raw_document_text E self image_path s1 s2 w2).
  change [WriteText (raw_path_of self image_path) (raw_document E self image_path s1 s2 w2);
          Log INFO (RawSaved (raw_path_of self image_path))]
    with (raw_saved E self image_path s1 s2 w2).
  destruct (artifact_not_log_file self image_path) as [Hrawlog Hsumlog].
  pose proof H1 as H1'. apply analyze_structure_spec in H1' as (evs1 & Hw1 & E1 & _).
  pose proof H2 as H2'. apply transcribe_raw_spec in H2' as (evs2 & Hw2 & E2 & _).
  apply stage_events_no_writes in E1, E2.
  assert (Hfiles2 : forall p, p <> LOG_FILE -> files w2 !! p = files w !! p).
  { intros p Hp. rewrite Hw2, Hw1, !extend_extend.
    apply files_extend_no_writes; [exact Hp|]. now rewrite !writes_app, E1, E2. }
  clear Hw1 Hw2.
  set (w3:= extend E w2 (raw_saved E self image_path s1 s2 w2)).
  assert (Hframe : forall evs,
            w' = extend E w3 evs -> writes evs = [] ->
            (exists evs',
               trace w' = trace w2
                 ++ WriteText (raw_path_of self image_path)
                      (raw_document E self image_path s1 s2 w2) :: evs'
               /\ writes evs' = [])
            /\ files w' !! raw_path_of self image_path
               = Some (File (raw_document E self image_path s1 s2 w2))
            /\ files w' !! summary_path_of self image_path
               = files w !! summary_path_of self image_path
            /\ (forall p, p <> raw_path_of self image_path -> p <> LOG_FILE ->
                          files w' !! p = files w !! p)).
  { intros evs -> Hw. subst w3. rewrite extend_extend.
    split.
    { eexists. rewrite trace_extend. cbn [raw_saved app]. split; [reflexivity|].
      cbn. exact Hw. }
    assert (Hany : forall p, p <> LOG_FILE ->
              files (extend E w2 (raw_saved E self image_path s1 s2 w2 ++ evs)) !! p
              = <[raw_path_of self image_path :=
                    File (raw_document E self image_path s1 s2 w2)]> (files w2) !! p).
    { intros p Hp. rewrite files_extend by exact Hp. rewrite writes_app, Hw. reflexivity. }
    split; [rewrite Hany by exact Hrawlog; apply lookup_insert_eq|].
    split.
    - rewrite Hany by exact Hsumlog.
      rewrite lookup_insert_ne by apply raw_path_not_summary_path.
      now apply Hfiles2.
    - intros p Hp Hlog. rewrite Hany by exact Hlog.
      rewrite lookup_insert_ne by congruence. now apply Hfiles2. }
  apply process_board_run in Hrun.
  board_run_cases Hrun; try congruence;
    (assert (d = data) by congruence; subst d);
    (rewrite H1 in Ha; injection Ha as <- <-);
    try (rewrite H2 in Hb; discriminate Hb);
    (rewrite H2 in Hb; injection Hb as <- <-).
  - exfalso. rewrite Hfiles2 in Hdir by exact Hrawlog. contradiction.
  - split; [now left|].
    apply clean_and_enrich_spec in Hc as (evs & -> & Hev & _).
    apply (Hframe evs); [reflexivity | now apply stage_events_no_writes in Hev].
  - split; [right; exists t3, wc; split; [exact Hc | now left]|].
    apply clean_and_enrich_spec in Hc as (evs & -> & Hev & _).
    apply synthesize_summary_spec in Hd as (evs' & -> & Hev' & _).
    apply (Hframe (evs ++ evs')); [now rewrite extend_extend|].
    apply stage_events_no_writes in Hev, Hev'. now rewrite writes_app, Hev, Hev'.
  - split; [right; exists t3, wc; split; [exact Hc|]; right; left; now exists sh|].
    apply clean_and_enrich_spec in Hc as (evs & -> & Hev & _).
    apply synthesize_summary_spec in Hd as (evs' & -> & Hev' & _).
    apply (Hframe (evs ++ evs')); [now rewrite extend_extend|].
    apply stage_events_no_writes in Hev, Hev'. now rewrite writes_app, Hev, Hev'.
  - pose proof Hc as Hc'. pose proof Hd as Hd'.
    apply clean_and_enrich_spec in Hc' as (evs & Hwc & Hev & _).
    apply synthesize_summary_spec in Hd' as (evs' & Hwd & Hev' & _).
    apply stage_events_no_writes in Hev, Hev'.
    assert (Hfin : w' = extend E w3 (evs ++ evs')) by (now rewrite Hwd, Hwc, extend_extend).
    assert (Hw : writes (evs ++ evs') = []) by (now rewrite writes_app, Hev, Hev').
    destruct (Hframe _ Hfin Hw) as (F1 & F2 & F3 & F4).
    split; [|now repeat split].
    right. exists t3, wc. split; [exact Hc|]. right. right. exists t4.
    split; [exact Hd|]. split; [|reflexivity]. now rewrite <- F3.
Qed.

Lemma raw_artifact_survives_later_failure_witness :
  let E := scripted_env ["Layout: drei Spalten"; "## Spalte A"] in
  let d := sample_digitizer in
  let w := world_with sample_png "PNG" in
  let run1 := analyze_structure E 2 d (image_b64_of "PNG") (mime_type_of sample_png)
                (extend E w (board_opening d sample_png)) in
  let run2 := transcribe_raw E 2 d (image_b64_of "PNG") (mime_type_of sample_png)
                (PyStr "Layout: drei Spalten") run1.2 in
  let run := process_board E 2 d sample_png w in
  files w !! path_str sample_png = Some (File "PNG")
  /\ Str.lower (suffix sample_png) ∈ SUPPORTED_FORMATS
  /\ run1 = (Return (PyStr "Layout: drei Spalten"), run1.2)
  /\ run2 = (Return (PyStr "## Spalte A"), run2.2)
  /\ files w !! raw_path_of d sample_png <> Some Directory
  /\ run = (Raise (RuntimeError (AllAttemptsFailed (Some Timeout))), run.2)
  /\ files run.2 !! "output/board1_Raw.md"
     = Some (File ("# Rohdaten-Transkription: board1" +:+ Str.nl +:+ Str.nl
                   +:+ "**Erstellt:** 2026-02-26 10:00" +:+ Str.nl
                   +:+ "**Modell:** google/gemini-2.0-flash" +:+ Str.nl
                   +:+ "**Template:** custom" +:+ Str.nl +:+ Str.nl
                   +:+ "---" +:+ Str.nl +:+ Str.nl
                   +:+ "## Strukturanalyse" +:+ Str.nl +:+ Str.nl
                   +:+ "Layout: drei Spalten" +:+ Str.nl +:+ Str.nl
                   +:+ "---" +:+ Str.nl +:+ Str.nl
                   +:+ "## Transkription" +:+ Str.nl +:+ Str.nl +:+ "## Spalte A"))
  /\ files run.2 !! summary_path_of d sample_png = files w !! summary_path_of d sample_png.
Proof.
  intros E d w run1 run2 run.
  assert (H0 : files w !! path_str sample_png = Some (File "PNG")) by (vm_compute; reflexivity).
  assert (Hs : Str.lower (suffix sample_png) ∈ SUPPORTED_FORMATS)
    by (apply supported_intro; vm_compute; auto).
  assert (H1 : run1 = (Return (PyStr "Layout: drei Spalten"), run1.2))
    by (vm_compute; reflexivity).
  assert (H2 : run2 = (Return (PyStr "## Spalte A"), run2.2)) by (vm_compute; reflexivity).
  assert (Hd : files w !! raw_path_of d sample_png <> Some Directory)
    by (vm_compute; discriminate).
  assert (H3 : run = (Raise (RuntimeError (AllAttemptsFailed (Some Timeout))), run.2))
    by (vm_compute; reflexivity).
  refine (conj H0 (conj Hs (conj H1 (conj H2 (conj Hd (conj H3 _)))))).
  destruct (raw_artifact_survives_later_failure E 2 d sample_png w "PNG"
              (PyStr "Layout: drei Spalten") run1.2 "## Spalte A" run2.2
              (RuntimeError (AllAttemptsFailed (Some Timeout))) run.2 H0 Hs H1 H2 Hd H3)
    as (_ & _ & Hraw & Hsum & _).
  split; [|exact Hsum].
  refine (eq_trans Hraw _). vm_compute. reflexivity.
Defined.

(** ** Claims about the Batch Coordinator *)

Lemma files_extend_unwritten E w evs p :
  p <> LOG_FILE -> p ∉ (writes evs).*1 -> files (extend E w evs) !! p = files w !! p.
Proof. intros Hp Hout. rewrite files_extend by exact Hp. now apply apply_writes_unwritten. Qed.

Lemma files_extend_written E w evs p :
  p <> LOG_FILE -> p ∈ (writes evs).*1 ->
  exists doc, files (extend E w evs) !! p = Some (File doc).
Proof. intros Hp Hin. rewrite files_extend by exact Hp. now apply apply_writes_written. Qed.

Lemma written_paths_two (a b x y : string) : [(a, x); (b, y)].*1 = [a; b].
Proof. reflexivity. Qed.

Lemma written_paths_four (a b c d x y z t : string) :
  [(a, x); (b, y); (c, z); (d, t)].*1 = [a; b; c; d].
Proof. reflexivity. Qed.

(** The payloads of stages 2, 3 and 4 are never a stage-1 payload. *)
Lemma later_stages_not_stage1 self image_b64 mime_type :
  (forall b m s1, transcribe_raw_messages self b m s1
                  <> analyze_structure_messages self image_b64 mime_type)
  /\ (forall s2 s1, clean_and_enrich_messages self s2 s1
                    <> analyze_structure_messages self image_b64 mime_type)
  /\ (forall s3 s1, synthesize_summary_messages self s3 s1
                    <> analyze_structure_messages self image_b64 mime_type).
Proof.
  repeat split; intros; intros H.
  - unfold transcribe_raw_messages, analyze_structure_messages, _build_vision_message,
      transcribe_raw_prompt in H.
    injection H as _ H. discriminate H.
  - discriminate H.
  - discriminate H.
Qed.

Section Batch.

Variable E : Env.
Variable depth : nat.
Variable self : BoardDigitizer.
Variable bad : list Message.

Hypothesis bad_is_stage1 :
  exists image_b64 mime_type, bad = analyze_structure_messages self image_b64 mime_type.
Hypothesis bad_fails :
  forall tr rq, req_messages rq = bad -> exists e, try_body (endpoint E tr rq) = inl e.
Hypothesis others_answered :
  forall tr rq, req_messages rq <> bad ->
                exists c, try_body (endpoint E tr rq) = inr (PyStr c).

Lemma good_answers messages :
  messages <> bad ->
  forall tr rq, req_messages rq = messages ->
                exists c, try_body (endpoint E tr rq) = inr (PyStr c).
Proof using others_answered. intros Hgood tr rq <-. now apply others_answered. Qed.

Lemma good_analyze_structure b m w :
  analyze_structure_messages self b m <> bad ->
  exists c w', analyze_structure E (S depth) self b m w = (Return (PyStr c), w').
Proof using others_answered.
  intros Hgood.
  destruct (stage_returns E depth self _ AnalyzeStructure w (good_answers _ Hgood))
    as (c & w' & H & _).
  exists c, w'. exact H.
Qed.

Lemma good_transcribe_raw b m s1 w :
  transcribe_raw_messages self b m s1 <> bad ->
  exists c w', transcribe_raw E (S depth) self b m s1 w = (Return (PyStr c), w').
Proof using others_answered.
  intros Hgood.
  destruct (stage_returns E depth self _ TranscribeRaw w (good_answers _ Hgood))
    as (c & w' & H & _).
  exists c, w'. exact H.
Qed.

Lemma good_clean_and_enrich s2 s1 w :
  clean_and_enrich_messages self s2 s1 <> bad ->
  exists c w', clean_and_enrich E (S depth) self s2 s1 w = (Return (PyStr c), w').
Proof using others_answered.
  intros Hgood.
  destruct (stage_returns E depth self _ CleanAndEnrich w (good_answers _ Hgood))
    as (c & w' & H & _).
  exists c, w'. exact H.
Qed.

Lemma good_synthesize_summary s3 s1 w :
  synthesize_summary_messages self s3 s1 <> bad ->
  exists c w', synthesize_summary E (S depth) self s3 s1 w = (Return (PyStr c), w').
Proof using others_answered.
  intros Hgood.
  destruct (stage_returns E depth self _ SynthesizeSummary w (good_answers _ Hgood))
    as (c & w' & H & _).
  exists c, w'. exact H.
Qed.

(** An image whose four requests are answered with a text is processed to
    the end: both artifacts are written. *)
Lemma process_board_answered image_path w data :
  files w !! path_str image_path = Some (File data) ->
  Str.lower (suffix image_path) ∈ SUPPORTED_FORMATS ->
  analyze_structure_messages self (image_b64_of data) (mime_type_of image_path) <> bad ->
  files w !! raw_path_of self image_path <> Some Directory ->
  files w !! summary_path_of self image_path <> Some Directory ->
  exists evs raw summary,
    process_board E (S depth) self image_path w
      = (Return (raw_path_of self image_path, summary_path_of self image_path),
         extend E w evs)
    /\ Forall silent evs
    /\ writes evs = [(raw_path_of self image_path, raw);
                     (summary_path_of self image_path, summary)].
Proof using bad_is_stage1 others_answered.
  intros Hfile Hsup Hgood Hrawdir Hsumdir.
  destruct bad_is_stage1 as (b & m & Hbad).
  destruct (later_stages_not_stage1 self b m) as (Hn2 & Hn3 & Hn4).
  rewrite <- Hbad in Hn2, Hn3, Hn4. clear Hbad.
  destruct (process_board E (S depth) self image_path w) as [r w'] eqn:Hrun.
  destruct (process_board_effects _ _ _ _ _ _ _ Hrun) as (evs & -> & Hsilent & Hcases).
  assert (Hret : r = Return (raw_path_of self image_path, summary_path_of self image_path)).
  { clear Hcases Hsilent. apply process_board_run in Hrun.
    remember (extend E w evs) as w' eqn:Hw'. clear Hw'.
    board_run_cases Hrun; try congruence; try contradiction;
      (assert (d = data) by congruence; subst d).
    - destruct (good_analyze_structure _ _ (extend E w (board_opening self image_path)) Hgood)
        as (c & w1 & Hok).
      congruence.
    - destruct (good_transcribe_raw (image_b64_of data) (mime_type_of image_path) t1 wa (Hn2 _ _ _)) as (c & w1 & Hok). congruence.
    - destruct (good_transcribe_raw (image_b64_of data) (mime_type_of image_path) t1 wa (Hn2 _ _ _)) as (c & w1 & Hok). congruence.
    - exfalso.
      apply analyze_structure_spec in Ha as (evs1 & -> & _).
      apply transcribe_raw_spec in Hb as (evs2 & -> & _).
      revert Hdir. repeat apply extend_no_new_directory. exact Hrawdir.
    - destruct (good_clean_and_enrich (PyStr t2) t1
                  (extend E wb (raw_saved E self image_path t1 t2 wb)) (Hn3 _ _))
        as (c & w1 & Hok).
      congruence.
    - destruct (good_synthesize_summary t3 t1 wc (Hn4 _ _)) as (c & w1 & Hok). congruence.
    - destruct (good_synthesize_summary t3 t1 wc (Hn4 _ _)) as (c & w1 & Hok). congruence.
    - exfalso.
      apply analyze_structure_spec in Ha as (evs1 & -> & _).
      apply transcribe_raw_spec in Hb as (evs2 & -> & _).
      apply clean_and_enrich_spec in Hc as (evs3 & -> & _).
      apply synthesize_summary_spec in Hd as (evs4 & -> & _).
      revert Hdir'. repeat apply extend_no_new_directory. exact Hsumdir. }
  subst r.
  destruct Hcases as [[_ [exn Habs]] | [(raw & _ & exn & Habs) | (raw & summary & Hw & _)]];
    try discriminate Habs.
  exists evs, raw, summary. auto.
Qed.

(** The image whose stage-1 request always fails is given up at stage 1:
    nothing is written. *)
Lemma process_board_stage1_fails image_path w data :
  files w !! path_str image_path = Some (File data) ->
  Str.lower (suffix image_path) ∈ SUPPORTED_FORMATS ->
  analyze_structure_messages self (image_b64_of data) (mime_type_of image_path) = bad ->
  exists exn evs,
    process_board E (S depth) self image_path w = (Raise exn, extend E w evs)
    /\ Forall silent evs
    /\ writes evs = [].
Proof using bad_fails.
  clear bad_is_stage1 others_answered.
  intros Hfile Hsup Hbad.
  destruct (stage_never_returns E (S depth) self bad AnalyzeStructure
              (extend E w (board_opening self image_path)) bad_fails)
    as (exn & w1 & Hfail & _).
  assert (Hstage : analyze_structure E (S depth) self (image_b64_of data)
                     (mime_type_of image_path) (extend E w (board_opening self image_path))
                   = (Raise exn, w1))
    by (unfold analyze_structure; rewrite Hbad; exact Hfail).
  clear Hfail.
  destruct (process_board E (S depth) self image_path w) as [r w'] eqn:Hrun.
  apply process_board_run in Hrun.
  board_run_cases Hrun; try congruence; try contradiction;
    (assert (d = data) by congruence; subst d); try congruence.
  apply analyze_structure_spec in Ha as (evs1 & -> & Hev & _).
  exists e0, (board_opening self image_path ++ evs1).
  rewrite extend_extend. split; [reflexivity|]. split.
  - apply Forall_app_2; [apply opening_silent | now apply stage_events_silent in Hev].
  - rewrite writes_app. now apply stage_events_no_writes in Hev.
Qed.

End Batch.

(** One round of the loop over the images: whatever [process_board] does,
    the loop goes on with the rest. *)
Lemma process_images_cons E depth self image_path rest success_count error_count w :
  process_images E depth self (image_path :: rest) success_count error_count w =
    match process_board E depth self image_path w with
    | (Return paths, w1) =>
        process_images E depth self rest (S success_count) error_count
          (extend E w1 [Print (Succeeded (name image_path) paths.1 paths.2)])
    | (Raise exn, w1) =>
        process_images E depth self rest success_count (S error_count)
          (extend E w1 [Log ERROR (BoardFailed (name image_path) exn);
                        Print (Failed (name image_path) exn)])
    end.
Proof.
  cbn [process_images]. unfold bind at 1, try_except, bind at 1.
  destruct (process_board E depth self image_path w) as [[paths|exn] w1]; reflexivity.
Qed.

(** The loop never raises, and counts every image once. *)
Lemma process_images_total E depth self images :
  forall success_count error_count w,
    exists s e w',
      process_images E depth self images success_count error_count w = (Return (s, e), w')
      /\ (s + e = success_count + error_count + length images)%nat.
Proof.
  induction images as [|image_path rest IH]; intros success_count error_count w.
  - exists success_count, error_count, w. split; [reflexivity | cbn; lia].
  - rewrite process_images_cons.
    destruct (process_board E depth self image_path w) as [[paths|exn] w1].
    + destruct (IH (S success_count) error_count
                  (extend E w1 [Print (Succeeded (name image_path) paths.1 paths.2)]))
        as (s & e & w' & -> & Hsum).
      exists s, e, w'. split; [reflexivity | cbn [length]; lia].
    + destruct (IH success_count (S error_count)
                  (extend E w1 [Log ERROR (BoardFailed (name image_path) exn);
                                Print (Failed (name image_path) exn)]))
        as (s & e & w' & -> & Hsum).
      exists s, e, w'. split; [reflexivity | cbn [length]; lia].
Qed.

(** C10.  The loop over the images never stops at a failure: for every
    batch and every endpoint it returns counts that add up to the number
    of images.  For a batch of three images that are regular files, such
    that every request with the stage-1 payload of the second image fails
    and every other request is answered with a text, and with no directory
    in the place of an artifact of the first or the third image, the
    counts are 2 successes and 1 failure, the tally printed last says so,
    the raw and the summary document of the first and of the third image
    are files on disk, and those of the second image are not there. *)
Theorem batch_isolation E depth self :
  (forall images w,
     exists s e w',
       main_processing E depth self images w = (Return (s, e), w')
       /\ (s + e = length images)%nat)
  /\ (forall i1 i2 i3 w data1 data2 data3,
        let bad := analyze_structure_messages self (image_b64_of data2) (mime_type_of i2) in
        (0 < depth)%nat ->
        files w !! path_str i1 = Some (File data1) ->
        files w !! path_str i2 = Some (File data2) ->
        files w !! path_str i3 = Some (File data3) ->
        Str.lower (suffix i1) ∈ SUPPORTED_FORMATS ->
        Str.lower (suffix i2) ∈ SUPPORTED_FORMATS ->
        Str.lower (suffix i3) ∈ SUPPORTED_FORMATS ->
        (forall tr rq, req_messages rq = bad ->
                       exists e, try_body (endpoint E tr rq) = inl e) ->
        (forall tr rq, req_messages rq <> bad ->
                       exists c, try_body (endpoint E tr rq) = inr (PyStr c)) ->
        analyze_structure_messages self (image_b64_of data1) (mime_type_of i1) <> bad ->
        analyze_structure_messages self (image_b64_of data3) (mime_type_of i3) <> bad ->
        stem i2 <> stem i1 ->
        stem i2 <> stem i3 ->
        files w !! raw_path_of self i2 = None ->
        files w !! summary_path_of self i2 = None ->
        (forall p, p ∈ [raw_path_of self i1; summary_path_of self i1;
                        raw_path_of self i3; summary_path_of self i3] ->
                   files w !! p <> Some Directory) ->
        exists evs w',
          main_processing E depth self [i1; i2; i3] w = (Return (2%nat, 1%nat), w')
          /\ trace w' = trace w ++ evs
                        ++ [Print (Tally 2 1 (resolve E (output_dir self)))]
          /\ reported evs = [name i1; name i2; name i3]
          /\ (exists doc, files w' !! raw_path_of self i1 = Some (File doc))
          /\ (exists doc, files w' !! summary_path_of self i1 = Some (File doc))
          /\ (exists doc, files w' !! raw_path_of self i3 = Some (File doc))
          /\ (exists doc, files w' !! summary_path_of self i3 = Some (File doc))
          /\ files w' !! raw_path_of self i2 = None
          /\ files w' !! summary_path_of self i2 = None).
Proof.
  split.
  - intros images w. unfold main_processing, bind at 1.
    destruct (process_images_total E depth self images 0%nat 0%nat w)
      as (s & e & w' & -> & Hsum).
    exists s, e. cbn [fst snd]. unfold bind, print, emit, ret.
    destruct (1 <? length images)%nat; eexists; (split; [reflexivity | lia]).
  - intros i1 i2 i3 w data1 data2 data3 bad Hdepth Hf1 Hf2 Hf3 Hs1 Hs2 Hs3
      Hbad Hgood Hn1 Hn3 Hst1 Hst3 Hraw2 Hsum2 Hnodir.
    destruct depth as [|depth']; [lia|].
    assert (Hstage1 : exists image_b64 mime_type,
               bad = analyze_structure_messages self image_b64 mime_type)
      by (now exists (image_b64_of data2), (mime_type_of i2)).
    destruct (artifacts_apart self i2 i1 Hst1) as (A1 & A2 & A3 & A4).
    destruct (artifacts_apart self i2 i3 Hst3) as (B1 & B2 & B3 & B4).
    destruct (image_not_artifact self i2 i1 Hs2) as (C1 & C2).
    destruct (image_not_artifact self i3 i1 Hs3) as (D1 & D2).
    destruct (artifact_not_log_file self i1) as (L1 & L1').
    destruct (artifact_not_log_file self i2) as (L2 & L2').
    destruct (artifact_not_log_file self i3) as (L3 & L3').
    pose proof (image_not_log_file i2 Hs2) as LI2.
    pose proof (image_not_log_file i3 Hs3) as LI3.
    (* image 1 *)
    assert (Hd1 : files w !! raw_path_of self i1 <> Some Directory)
      by (apply Hnodir; in_list).
    assert (Hd1' : files w !! summary_path_of self i1 <> Some Directory)
      by (apply Hnodir; in_list).
    destruct (process_board_answered E depth' self bad Hstage1 Hgood i1 w data1 Hf1 Hs1 Hn1
                Hd1 Hd1')
      as (evs1 & raw1 & sum1 & Hrun1 & Hsil1 & W1).
    set (P1 := Print (Succeeded (name i1) (raw_path_of self i1) (summary_path_of self i1))).
    set (wa := extend E (extend E w evs1) [P1]).
    assert (Ha : wa = extend E w (evs1 ++ [P1])) by (subst wa; apply extend_extend).
    assert (Wa : writes (evs1 ++ [P1])
                 = [(raw_path_of self i1, raw1); (summary_path_of self i1, sum1)])
      by (rewrite writes_app, W1; reflexivity).
    (* image 2 *)
    assert (Hf2a : files wa !! path_str i2 = Some (File data2)).
    { rewrite Ha, files_extend_unwritten; [exact Hf2 | exact LI2 |].
      rewrite Wa, written_paths_two. not_in_list. }
    destruct (process_board_stage1_fails E depth' self bad Hbad i2 wa data2 Hf2a Hs2 eq_refl)
      as (exn2 & evs2 & Hrun2 & Hsil2 & W2).
    set (F2 := [Log ERROR (BoardFailed (name i2) exn2); Print (Failed (name i2) exn2)]).
    set (wb := extend E (extend E wa evs2) F2).
    assert (Hb : wb = extend E w ((evs1 ++ [P1]) ++ evs2 ++ F2))
      by (subst wb; rewrite Ha; now rewrite !extend_extend, <- ?app_assoc).
    assert (Wb : writes ((evs1 ++ [P1]) ++ evs2 ++ F2)
                 = [(raw_path_of self i1, raw1); (summary_path_of self i1, sum1)])
      by (rewrite writes_app, Wa, writes_app, W2; reflexivity).
    (* image 3 *)
    assert (Hf3b : files wb !! path_str i3 = Some (File data3)).
    { rewrite Hb, files_extend_unwritten; [exact Hf3 | exact LI3 |].
      rewrite Wb, written_paths_two. not_in_list. }
    assert (Hnodir3 : files wb !! raw_path_of self i3 <> Some Directory
                      /\ files wb !! summary_path_of self i3 <> Some Directory).
    { rewrite Hb. split; apply extend_no_new_directory; apply Hnodir; in_list. }
    destruct Hnodir3 as [Hnd3 Hnd3'].
    destruct (process_board_answered E depth' self bad Hstage1 Hgood i3 wb data3 Hf3b Hs3 Hn3
                Hnd3 Hnd3')
      as (evs3 & raw3 & sum3 & Hrun3 & Hsil3 & W3).
    set (P3 := Print (Succeeded (name i3) (raw_path_of self i3) (summary_path_of self i3))).
    set (wc := extend E (extend E wb evs3) [P3]).
    set (hist := ((evs1 ++ [P1]) ++ evs2 ++ F2) ++ evs3 ++ [P3]).
    assert (Hc : wc = extend E w hist)
      by (subst wc hist; rewrite Hb; now rewrite !extend_extend, <- ?app_assoc).
    assert (Wc : writes hist
                 = [(raw_path_of self i1, raw1); (summary_path_of self i1, sum1);
                    (raw_path_of self i3, raw3); (summary_path_of self i3, sum3)])
      by (subst hist; rewrite writes_app, Wb, writes_app, W3; reflexivity).
    (* the loop *)
    unfold main_processing, bind at 1.
    rewrite process_images_cons, Hrun1. cbn [fst snd]. fold P1. fold wa.
    rewrite process_images_cons, Hrun2. fold F2. fold wb.
    rewrite process_images_cons, Hrun3. cbn [fst snd]. fold P3. fold wc.
    cbn [process_images ret].
    unfold bind, print, emit, ret. cbn [length Nat.ltb Nat.leb fst snd].
    exists hist, (extend E wc [Print (Tally 2 1 (resolve E (output_dir self)))]).
    split; [reflexivity|].
    rewrite Hc, extend_extend.
    set (full := hist ++ [Print (Tally 2 1 (resolve E (output_dir self)))]).
    assert (Wf : writes full
                 = [(raw_path_of self i1, raw1); (summary_path_of self i1, sum1);
                    (raw_path_of self i3, raw3); (summary_path_of self i3, sum3)])
      by (subst full; rewrite writes_app, Wc; reflexivity).
    split; [subst full; now rewrite trace_extend|].
    split.
    { subst hist P1 F2 P3. unfold reported. rewrite !omap_app.
      fold (reported evs1). fold (reported evs2). fold (reported evs3).
      assert (Hq : forall evs, Forall silent evs -> reported evs = []).
      { induction 1 as [|ev evs' Hev _ IH]; [reflexivity|].
        destruct ev as [| | |what|]; try exact IH. destruct Hev. }
      rewrite (Hq _ Hsil1), (Hq _ Hsil2), (Hq _ Hsil3). reflexivity. }
    split; [apply files_extend_written; [exact L1|];
            rewrite Wf, written_paths_four; in_list|].
    split; [apply files_extend_written; [exact L1'|];
            rewrite Wf, written_paths_four; in_list|].
    split; [apply files_extend_written; [exact L3|];
            rewrite Wf, written_paths_four; in_list|].
    split; [apply files_extend_written; [exact L3'|];
            rewrite Wf, written_paths_four; in_list|].
    split.
    + rewrite files_extend_unwritten; [exact Hraw2 | exact L2 |].
      rewrite Wf, written_paths_four. not_in_list.
    + rewrite files_extend_unwritten; [exact Hsum2 | exact L2' |].
      rewrite Wf, written_paths_four. not_in_list.
Qed.

Lemma image_url_of_stage1 self image_b64 mime_type :
  image_url_of (analyze_structure_messages self image_b64 mime_type)
  = "data:" +:+ mime_type +:+ ";base64," +:+ image_b64.
Proof. reflexivity. Qed.

Lemma batch_isolation_witness :
  let E := picky_env board2_stage1 "* Zettel" in
  (forall tr rq, req_messages rq = board2_stage1 ->
                 exists e, try_body (endpoint E tr rq) = inl e)
  /\ (forall tr rq, req_messages rq <> board2_stage1 ->
                    exists c, try_body (endpoint E tr rq) = inr (PyStr c))
  /\ exists evs w',
       main_processing E 1 sample_digitizer [board1; board2; board3] batch_world
         = (Return (2%nat, 1%nat), w')
       /\ trace w' = trace batch_world ++ evs
                     ++ [Print (Tally 2 1 (resolve E (output_dir sample_digitizer)))]
       /\ reported evs = ["board1.PNG"; "board2.jpg"; "board3.webp"]
       /\ (exists doc, files w' !! raw_path_of sample_digitizer board1 = Some (File doc))
       /\ (exists doc, files w' !! summary_path_of sample_digitizer board3 = Some (File doc))
       /\ files w' !! raw_path_of sample_digitizer board2 = None
       /\ files w' !! summary_path_of sample_digitizer board2 = None.
Proof.
  intros E.
  assert (Hbad : forall tr rq, req_messages rq = board2_stage1 ->
                               exists e, try_body (endpoint E tr rq) = inl e).
  { intros tr rq Hrq. exists Timeout. cbn. now rewrite decide_True. }
  assert (Hgood : forall tr rq, req_messages rq <> board2_stage1 ->
                                exists c, try_body (endpoint E tr rq) = inr (PyStr c)).
  { intros tr rq Hrq. exists "* Zettel". cbn. now rewrite decide_False. }
  refine (conj Hbad (conj Hgood _)).
  destruct (batch_isolation E 1 sample_digitizer) as [_ Hscenario].
  assert (F1 : files batch_world !! path_str board1 = Some (File "PNG-1"))
    by (vm_compute; reflexivity).
  assert (F2 : files batch_world !! path_str board2 = Some (File "JPG-2"))
    by (vm_compute; reflexivity).
  assert (F3 : files batch_world !! path_str board3 = Some (File "WEBP-3"))
    by (vm_compute; reflexivity).
  assert (S1 : Str.lower (suffix board1) ∈ SUPPORTED_FORMATS)
    by (apply supported_intro; vm_compute; auto).
  assert (S2 : Str.lower (suffix board2) ∈ SUPPORTED_FORMATS)
    by (apply supported_intro; vm_compute; auto).
  assert (S3 : Str.lower (suffix board3) ∈ SUPPORTED_FORMATS)
    by (apply supported_intro; vm_compute; auto).
  assert (N1 : analyze_structure_messages sample_digitizer (image_b64_of "PNG-1")
                 (mime_type_of board1) <> board2_stage1).
  { intros H. apply (f_equal image_url_of) in H. unfold board2_stage1 in H.
    rewrite !image_url_of_stage1 in H. vm_compute in H. discriminate H. }
  assert (N3 : analyze_structure_messages sample_digitizer (image_b64_of "WEBP-3")
                 (mime_type_of board3) <> board2_stage1).
  { intros H. apply (f_equal image_url_of) in H. unfold board2_stage1 in H.
    rewrite !image_url_of_stage1 in H. vm_compute in H. discriminate H. }
  assert (R2 : files batch_world !! raw_path_of sample_digitizer board2 = None)
    by (vm_compute; reflexivity).
  assert (R2' : files batch_world !! summary_path_of sample_digitizer board2 = None)
    by (vm_compute; reflexivity).
  assert (ND : forall p,
             p ∈ [raw_path_of sample_digitizer board1; summary_path_of sample_digitizer board1;
                  raw_path_of sample_digitizer board3; summary_path_of sample_digitizer board3] ->
             files batch_world !! p <> Some Directory).
  { intros p Hp.
    apply elem_of_cons in Hp as [->|Hp]; [vm_compute; discriminate|].
    apply elem_of_cons in Hp as [->|Hp]; [vm_compute; discriminate|].
    apply elem_of_cons in Hp as [->|Hp]; [vm_compute; discriminate|].
    apply elem_of_cons in Hp as [->|Hp]; [vm_compute; discriminate|].
    now apply elem_of_nil in Hp. }
  destruct (Hscenario board1 board2 board3 batch_world "PNG-1" "JPG-2" "WEBP-3"
              ltac:(lia) F1 F2 F3 S1 S2 S3 Hbad Hgood N1 N3 ltac:(discriminate)
              ltac:(discriminate) R2 R2' ND)
    as (evs & w' & Hrun & Htr & Hrep & A1 & _ & _ & A3 & B2 & B2').
  exists evs, w'. auto 10.
Defined.

(** * Further properties of the Request Executor *)

(** Whatever response an [HTTPError] carries, the clause ends in its last
    branch: a response that is truthy has a status below 400 or from 600
    on, and one that is falsy or missing reads as ["?"]. *)
Lemma verdict_http_error_flat used attempt e_response :
  verdict used attempt (HTTPError e_response)
  = inl (ERROR, HttpErrorLogged (status_of e_response) (error_body_of e_response),
         RETRY_BASE_DELAY).
Proof.
  cbn [verdict]. unfold status_of, error_body_of, response_truthy, ok, raise_for_status.
  destruct e_response as [r|]; [|reflexivity].
  destruct (400 <=? status_code r) eqn:Hlo; destruct (status_code r <? 600) eqn:Hhi;
    cbn [andb status_is orb]; try reflexivity;
    try apply Z.leb_gt in Hlo; try apply Z.ltb_ge in Hhi; try apply Z.leb_le in Hlo;
    rewrite ?(proj2 (Z.eqb_neq (status_code r) 401)), ?(proj2 (Z.eqb_neq (status_code r) 402)),
      ?(proj2 (Z.eqb_neq (status_code r) 400)), ?(proj2 (Z.eqb_neq (status_code r) 429)),
      ?(proj2 (Z.eqb_neq (status_code r) 503)) by lia;
    reflexivity.
Qed.

Lemma verdict_raises_only_escaped used attempt e exn :
  verdict used attempt e = inr exn -> e = OtherException /\ exn = Escaped OtherException.
Proof.
  destruct e as [|o| |]; try (cbn [verdict]; discriminate).
  - rewrite verdict_http_error_flat. discriminate.
  - cbn [verdict]. intros [= <-]. now split.
Qed.

Lemma verdict_delay used attempt e level what d :
  (1 <= attempt < MAX_RETRIES)%nat ->
  verdict used attempt e = inl (level, what, d) -> d = 2 \/ d = 4.
Proof.
  intros Ha. unfold MAX_RETRIES in Ha.
  assert (Hp : RETRY_BASE_DELAY ^ Z.of_nat attempt = 2 \/ RETRY_BASE_DELAY ^ Z.of_nat attempt = 4).
  { assert (attempt = 1%nat \/ attempt = 2%nat) as [-> | ->] by lia; [now left | now right]. }
  destruct e as [|o| |].
  - cbn [verdict]. now intros [= <- <- <-].
  - rewrite verdict_http_error_flat. intros [= <- <- <-]. now left.
  - cbn [verdict]. now intros [= <- <- <-].
  - cbn [verdict]. discriminate.
Qed.

(** Where an event sits in a history that is split in two ways. *)
Lemma app_cons_split {A} (before after evs0 tail : list A) (a b : A) :
  before ++ a :: after = evs0 ++ b :: tail ->
  (exists mid, evs0 = before ++ a :: mid /\ after = mid ++ b :: tail)
  \/ (before = evs0 /\ a = b /\ after = tail)
  \/ (exists mid, before = evs0 ++ b :: mid /\ tail = mid ++ a :: after).
Proof.
  revert evs0. induction before as [|x before IH]; intros [|y evs0] Heq; cbn in Heq.
  - injection Heq as -> ->. right. now left.
  - injection Heq as -> ->. left. now exists evs0.
  - injection Heq as -> <-. right. right. now exists before.
  - injection Heq as -> Heq.
    destruct (IH evs0 Heq) as [(mid & -> & ->) | [(-> & -> & ->) | (mid & -> & ->)]].
    + left. now exists mid.
    + right. now left.
    + right. right. now exists mid.
Qed.

(** The loop as [_call_api] starts it: its history is a run of records,
    failed exchanges and sleeps, then one last exchange, then the record
    of how that one went; and the way the loop ends goes with the answer of
    that exchange. *)
Lemma attempt_loop_shape E self messages used todo :
  forall attempt last w r w',
    (attempt + todo = S MAX_RETRIES)%nat -> (1 <= attempt)%nat -> (0 < todo)%nat ->
    attempt_loop E self messages used todo attempt last w = (r, w') ->
    exists evs0 res tail,
      w' = extend E w (evs0 ++ Post (request_of self used messages) res :: tail)
      /\ Forall failed_or_slept evs0
      /\ match r with
         | Return (Returned c) =>
             try_body res = inr c /\ tail = [Log INFO (ApiCallSucceeded res)]
         | Return (Exhausted l) =>
             exists e level what,
               try_body res = inl e /\ l = Some e /\ tail = [Log level what]
               /\ executor_record what
         | Raise exn =>
             exn = Escaped OtherException /\ try_body res = inl OtherException /\ tail = []
         end.
Proof.
  induction todo as [|todo IH]; intros attempt last w r w' Hsum Hone Hpos Hrun; [lia|].
  rewrite attempt_loop_step in Hrun. cbv zeta in Hrun.
  set (rq := request_of self used messages) in *.
  set (started := Log INFO (ApiCallStarted attempt used)) in *.
  set (res := endpoint E (trace w ++ [started]) rq) in *.
  destruct (try_body res) as [e|c] eqn:Hbody.
  - destruct (verdict used attempt e) as [[[level what] d]|exn] eqn:Hv.
    + pose proof (verdict_record _ _ _ _ _ _ Hv) as Hwhat.
      destruct todo as [|todo'].
      * (* the last attempt: no sleep, the loop runs out *)
        assert (Hlast : (attempt <? MAX_RETRIES)%nat = false) by (apply Nat.ltb_ge; lia).
        rewrite Hlast in Hrun. cbn [attempt_loop] in Hrun.
        apply pair_equal_spec in Hrun as [<- <-].
        exists [started], res, [Log level what].
        split; [reflexivity|]. split; [repeat constructor|].
        now exists e, level, what.
      * assert (Hmore : (attempt <? MAX_RETRIES)%nat = true) by (apply Nat.ltb_lt; lia).
        rewrite Hmore in Hrun.
        apply IH in Hrun as (evs0 & res' & tail & -> & Hall & Hr); [|lia|lia|lia].
        exists ([started; Post rq res; Log level what; Sleep d] ++ evs0), res', tail.
        rewrite !extend_extend, <- !app_assoc.
        split; [reflexivity|]. split; [|exact Hr].
        apply Forall_app_2; [|exact Hall].
        constructor; [exact I|]. constructor; [now exists e|].
        constructor; [exact Hwhat|]. constructor; [|constructor].
        apply (verdict_delay used attempt e level what d);
          [apply Nat.ltb_lt in Hmore; lia | exact Hv].
    + apply pair_equal_spec in Hrun as [<- <-].
      apply verdict_raises_only_escaped in Hv as [-> ->].
      exists [started], res, []. split; [reflexivity|]. split; [repeat constructor|].
      now repeat split.
  - apply pair_equal_spec in Hrun as [<- <-]. exists [started], res, [Log INFO (ApiCallSucceeded res)].
    split; [reflexivity|]. split; [repeat constructor | now split].
Qed.

(** The same for a whole call, fallback dispatches included: nothing but
    records follows the last exchange. *)
Lemma call_api_shape E depth self messages :
  forall model_arg w r w',
    _call_api E depth self messages model_arg w = (r, w') ->
    (r = Raise RecursionError /\ w' = w)
    \/ exists evs0 rq res tail,
         w' = extend E w (evs0 ++ Post rq res :: tail)
         /\ Forall failed_or_slept evs0
         /\ posts tail = [] /\ sleeps tail = []
         /\ closes r res
         /\ (forall c, r = Return c -> tail = [Log INFO (ApiCallSucceeded res)]).
Proof.
  induction depth as [|depth IH]; intros model_arg w r w' Hrun.
  - apply pair_equal_spec in Hrun as [<- <-]. now left.
  - right. rewrite call_api_step in Hrun. cbv zeta in Hrun.
    destruct (attempt_loop _ _ _ _ _ _ _ _) as [rl wl] eqn:Hloop.
    apply attempt_loop_shape in Hloop as (evs0 & res & tail & -> & Hall & Hr);
      [|reflexivity|lia|unfold MAX_RETRIES; lia].
    set (rq := request_of self (model_or model_arg (model self)) messages) in *.
    destruct rl as [[c|l]|exn].
    + destruct Hr as [Hbody ->]. apply pair_equal_spec in Hrun as [<- <-].
      exists evs0, rq, res, [Log INFO (ApiCallSucceeded res)].
      split; [reflexivity|]. split; [exact Hall|]. split; [reflexivity|].
      split; [reflexivity|]. split; [exact Hbody | reflexivity].
    + destruct Hr as (e & level & what & Hbody & -> & -> & Hwhat).
      destruct (bool_decide _).
      * apply IH in Hrun
          as [[-> ->] | (evs1 & rq' & res' & tail' & -> & Hall' & Hp & Hs & Hr' & Hret)].
        -- exists evs0, rq, res,
             [Log level what;
              Log WARNING (FallbackWarning (model_or model_arg (model self))
                             (fallback_model self))].
           rewrite extend_extend, <- app_assoc.
           split; [reflexivity|]. split; [exact Hall|]. split; [reflexivity|].
           split; [reflexivity|]. split; [now exists e | discriminate].
        -- exists ((evs0 ++ Post rq res :: [Log level what])
                   ++ [Log WARNING (FallbackWarning (model_or model_arg (model self))
                                      (fallback_model self))] ++ evs1), rq', res', tail'.
           rewrite !extend_extend, <- !app_assoc.
           split; [reflexivity|].
           split; [|now repeat split].
           apply Forall_app_2; [exact Hall|].
           constructor; [now exists e|]. constructor; [exact Hwhat|].
           constructor; [exact I | exact Hall'].
      * apply pair_equal_spec in Hrun as [<- <-]. exists evs0, rq, res, [Log level what].
        split; [reflexivity|]. split; [exact Hall|]. split; [reflexivity|].
        split; [reflexivity|]. split; [now exists e | discriminate].
    + destruct Hr as (-> & Hbody & ->). apply pair_equal_spec in Hrun as [<- <-].
      exists evs0, rq, res, [].
      split; [reflexivity|]. split; [exact Hall|]. split; [reflexivity|].
      split; [reflexivity|]. split; [now split | discriminate].
Qed.

(** X1.  When the first request of a call is answered, [_call_api] returns
    the content at once: one attempt, no sleep, no fallback, and the two
    records of the attempt in the log. *)
Theorem call_api_answered_at_once E depth self messages model_arg w c :
  let used := model_or model_arg (model self) in
  let rq := request_of self used messages in
  let started := Log INFO (ApiCallStarted 1 used) in
  let res := endpoint E (trace w ++ [started]) rq in
  try_body res = inr c ->
  _call_api E (S depth) self messages model_arg w
  = (Return c, extend E w [started; Post rq res; Log INFO (ApiCallSucceeded res)]).
Proof.
  cbv zeta. intros Hc. rewrite call_api_step. cbv zeta. unfold MAX_RETRIES.
  rewrite attempt_loop_step. cbv zeta. now rewrite Hc.
Qed.

Lemma call_api_answered_at_once_witness :
  let E := scripted_env ["OK"] in
  let rq := request_of sample_digitizer (model sample_digitizer) hello in
  let started := Log INFO (ApiCallStarted 1 (model sample_digitizer)) in
  try_body (endpoint E (trace empty_world ++ [started]) rq) = inr (PyStr "OK")
  /\ attempts (trace (_call_api E 1 sample_digitizer hello None empty_world).2) = 1%nat
  /\ sleeps (trace (_call_api E 1 sample_digitizer hello None empty_world).2) = []
  /\ (_call_api E 1 sample_digitizer hello None empty_world).1 = Return (PyStr "OK").
Proof.
  intros E rq started.
  assert (H : try_body (endpoint E (trace empty_world ++ [started]) rq) = inr (PyStr "OK"))
    by reflexivity.
  refine (conj H _).
  rewrite (call_api_answered_at_once E 0 sample_digitizer hello None empty_world
             (PyStr "OK") H).
  repeat split; reflexivity.
Defined.

(** X2.  [_call_api] posts nothing after an answer: in the history of a
    call every exchange that is followed by another exchange failed, and
    when the call returns a value it is the content of the last exchange,
    which only the record of the success follows. *)
Theorem call_api_stops_at_first_answer E depth self messages model_arg w :
  let run := _call_api E depth self messages model_arg w in
  exists evs,
    run.2 = extend E w evs
    /\ (forall before rq res after,
          evs = before ++ Post rq res :: after -> posts after <> [] ->
          exists e, try_body res = inl e)
    /\ (forall c, run.1 = Return c ->
          exists before rq res,
            evs = before ++ [Post rq res; Log INFO (ApiCallSucceeded res)]
            /\ try_body res = inr c).
Proof.
  cbv zeta.
  destruct (_call_api E depth self messages model_arg w) as [r w'] eqn:Hrun.
  apply call_api_shape in Hrun
    as [[-> ->] | (evs0 & rq0 & res0 & tail & -> & Hall & Hp & _ & Hr & Hret)].
  - exists []. rewrite extend_nil. split; [reflexivity|]. split.
    + intros before rq res after H. now destruct before.
    + discriminate.
  - exists (evs0 ++ Post rq0 res0 :: tail). split; [reflexivity|]. split.
    + intros before rq res after Heq Hafter. symmetry in Heq.
      apply app_cons_split in Heq
        as [(mid & -> & ->) | [(-> & _ & ->) | (mid & -> & ->)]].
      * apply Forall_app in Hall as [_ Hall]. now apply Forall_cons in Hall as [Hpost _].
      * contradiction.
      * exfalso. apply Hafter. rewrite posts_app in Hp.
        apply app_eq_nil in Hp as [_ Hp]. cbn in Hp.
        destruct (posts after); [reflexivity | discriminate Hp].
    + cbn [fst]. intros c ->. rewrite (Hret c eq_refl).
      exists evs0, rq0, res0. split; [reflexivity | exact Hr].
Qed.

(** X3.  The cause named by the terminal failure is the exception of the
    last attempt made: when the call raises [AllAttemptsFailed last], the
    last exchange of the call failed with [e], only records follow it, and
    [last] is [Some e]. *)
Theorem call_api_reports_last_failure E depth self messages model_arg w last :
  let run := _call_api E depth self messages model_arg w in
  run.1 = Raise (RuntimeError (AllAttemptsFailed last)) ->
  exists before rq res records e,
    run.2 = extend E w (before ++ Post rq res :: records)
    /\ posts records = []
    /\ try_body res = inl e
    /\ last = Some e.
Proof.
  cbv zeta.
  destruct (_call_api E depth self messages model_arg w) as [r w'] eqn:Hrun.
  cbn [fst snd]. intros ->.
  apply call_api_shape in Hrun
    as [[[=] _] | (evs0 & rq0 & res0 & tail & -> & _ & Hp & _ & (e & He & ->) & _)].
  now exists evs0, rq0, res0, tail, e.
Qed.

Lemma call_api_reports_last_failure_witness :
  let E := constant_env (PostRaises RequestException) in
  (_call_api E 2 sample_digitizer hello None empty_world).1
  = Raise (RuntimeError (AllAttemptsFailed (Some RequestException)))
  /\ exists before rq res records e,
       (_call_api E 2 sample_digitizer hello None empty_world).2
       = extend E empty_world (before ++ Post rq res :: records)
       /\ posts records = []
       /\ try_body res = inl e
       /\ Some RequestException = Some e.
Proof.
  intros E.
  assert (H : (_call_api E 2 sample_digitizer hello None empty_world).1
              = Raise (RuntimeError (AllAttemptsFailed (Some RequestException))))
    by (vm_compute; reflexivity).
  refine (conj H _).
  exact (call_api_reports_last_failure E 2 sample_digitizer hello None empty_world _ H).
Defined.

(** X4.  A call writes no file and prints nothing itself: apart from its
    requests and its sleeps it leaves only records of the logger, so the
    log file is the only file it can change.  Every request it posts
    carries the API key of the digitizer as bearer token, the messages it
    was called with and the token limit of the digitizer: the attempts of
    a call, fallback included, differ only in the model. *)
Theorem call_api_requests_uniform E depth self messages model_arg w :
  let run := _call_api E depth self messages model_arg w in
  (forall path, path <> LOG_FILE -> files run.2 !! path = files w !! path)
  /\ exists evs,
       run.2 = extend E w evs
       /\ Forall (fun ev => match ev with
                            | Post _ _ | Sleep _ => True
                            | Log _ what => executor_record what
                            | WriteText _ _ | Print _ => False
                            end) evs
       /\ Forall (fun p => req_bearer p.1 = api_key self
                           /\ req_messages p.1 = messages
                           /\ req_max_tokens p.1 = max_tokens self) (posts evs).
Proof.
  cbv zeta.
  destruct (_call_api E depth self messages model_arg w) as [r w'] eqn:Hrun.
  cbn [snd]. split.
  - intros path Hpath. exact (call_api_files _ _ _ _ _ _ _ _ _ Hrun Hpath).
  - apply call_api_spec in Hrun as (evs & -> & Hev & _).
    exists evs. split; [reflexivity|].
    induction Hev as [|ev evs Hev _ [IH1 IH2]]; [split; constructor|].
    destruct ev as [rq res|s|p d|what|level what]; cbn in Hev; try contradiction.
    + destruct Hev as [(m & ->) _]. split; constructor; auto.
    + split; [constructor; auto | exact IH2].
    + split; [constructor; auto | exact IH2].
Qed.

(** X5.  The only sleeps of a call last 2 or 4 seconds, and a call never
    ends on a sleep: after every sleep another exchange follows, and the
    history of a call is empty or ends with an exchange and the records
    about it. *)
Theorem call_api_sleeps_only_between_attempts E depth self messages model_arg w :
  let run := _call_api E depth self messages model_arg w in
  exists evs,
    run.2 = extend E w evs
    /\ Forall (fun seconds => seconds = 2 \/ seconds = 4) (sleeps evs)
    /\ (forall before seconds after,
          evs = before ++ Sleep seconds :: after -> posts after <> [])
    /\ (evs = []
        \/ exists before rq res records,
             evs = before ++ Post rq res :: records
             /\ posts records = [] /\ sleeps records = []).
Proof.
  cbv zeta.
  destruct (_call_api E depth self messages model_arg w) as [r w'] eqn:Hrun.
  apply call_api_shape in Hrun
    as [[-> ->] | (evs0 & rq0 & res0 & tail & -> & Hall & Hp & Hs & _ & _)].
  - exists []. rewrite extend_nil. split; [reflexivity|]. split; [constructor|].
    split; [|now left]. intros before seconds after H. now destruct before.
  - exists (evs0 ++ Post rq0 res0 :: tail). split; [reflexivity|]. split; [|split].
    + rewrite sleeps_app. change (sleeps (Post rq0 res0 :: tail)) with (sleeps tail).
      rewrite Hs, app_nil_r.
      induction Hall as [|ev evs Hev _ IH]; [constructor|].
      destruct ev; cbn in *; try contradiction; auto.
    + intros before seconds after Heq. symmetry in Heq.
      apply app_cons_split in Heq
        as [(mid & -> & ->) | [(_ & [=] & _) | (mid & -> & ->)]].
      * rewrite posts_app. cbn. now destruct (posts mid).
      * exfalso. rewrite sleeps_app in Hs. apply app_eq_nil in Hs as [_ Hs].
        discriminate Hs.
    + right. now exists evs0, rq0, res0, tail.
Qed.

(** X6.  The three specific [RuntimeError]s are never raised.  [e.response]
    is falsy for every status [raise_for_status] rejects, so no status is
    ever compared with 401, 402, 400, 429 or 503: a call returns the
    content of an answer (a text, or whatever else the JSON held in its
    place), or raises the general failure with the exception of its last
    attempt, or lets an exception through that is no [RequestException],
    or ends in [RecursionError]. *)
Theorem call_api_outcomes E depth self messages model_arg w :
  let run := _call_api E depth self messages model_arg w in
  (exists c rq res, run.1 = Return c /\ (rq, res) ∈ posts (trace run.2)
                    /\ try_body res = inr c)
  \/ (exists e, run.1 = Raise (RuntimeError (AllAttemptsFailed (Some e))))
  \/ run.1 = Raise (Escaped OtherException)
  \/ run.1 = Raise RecursionError.
Proof.
  cbv zeta.
  destruct (_call_api E depth self messages model_arg w) as [r w'] eqn:Hrun.
  cbn [fst snd].
  apply call_api_shape in Hrun
    as [[-> _] | (evs0 & rq0 & res0 & tail & -> & _ & _ & _ & Hr & _)]; [auto|].
  destruct r as [c|[[| |m|l]|e| |p|s|p|]]; cbn in Hr; try contradiction; eauto.
  - left. exists c, rq0, res0. split; [reflexivity|]. split; [|exact Hr].
    rewrite trace_extend, !posts_app.
    change (posts (Post rq0 res0 :: tail)) with ((rq0, res0) :: posts tail).
    apply elem_of_app. right. apply elem_of_app. right. apply list_elem_of_here.
  - destruct Hr as (e & _ & ->). eauto.
  - destruct Hr as [-> _]. auto.
Qed.

(** X7.  A response that passes [raise_for_status] but whose JSON lacks the
    expected keys ends the call at once: the [KeyError] is no
    [RequestException], so it is neither retried nor answered with the
    fallback model, and nothing is logged about it. *)
Theorem call_api_malformed_answer_escapes E depth self messages model_arg w r :
  let used := model_or model_arg (model self) in
  let rq := request_of self used messages in
  let started := Log INFO (ApiCallStarted 1 used) in
  endpoint E (trace w ++ [started]) rq = PostReturns r ->
  ~ (400 <= status_code r < 600) ->
  body r = BadShape ->
  _call_api E (S depth) self messages model_arg w
  = (Raise (Escaped OtherException), extend E w [started; Post rq (PostReturns r)]).
Proof.
  cbv zeta. intros Hres Hstatus Hbody.
  assert (Htry : try_body (PostReturns r) = inl OtherException).
  { cbn [try_body]. unfold raise_for_status.
    destruct (400 <=? status_code r) eqn:Hlo; destruct (status_code r <? 600) eqn:Hhi;
      cbn [andb]; rewrite ?Hbody; try reflexivity.
    apply Z.leb_le in Hlo. apply Z.ltb_lt in Hhi. lia. }
  rewrite call_api_step. cbv zeta. unfold MAX_RETRIES.
  rewrite attempt_loop_step. cbv zeta. rewrite Hres, Htry. reflexivity.
Qed.

Lemma call_api_malformed_answer_escapes_witness :
  let E := constant_env (PostReturns shapeless_response) in
  let rq := request_of sample_digitizer (model sample_digitizer) hello in
  let started := Log INFO (ApiCallStarted 1 (model sample_digitizer)) in
  endpoint E (trace empty_world ++ [started]) rq = PostReturns shapeless_response
  /\ ~ (400 <= status_code shapeless_response < 600)
  /\ body shapeless_response = BadShape
  /\ _call_api E 2 sample_digitizer hello None empty_world
     = (Raise (Escaped OtherException),
        extend E empty_world [started; Post rq (PostReturns shapeless_response)]).
Proof.
  intros E rq started.
  assert (H1 : endpoint E (trace empty_world ++ [started]) rq
               = PostReturns shapeless_response) by reflexivity.
  assert (H2 : ~ (400 <= status_code shapeless_response < 600)) by (cbn; lia).
  assert (H3 : body shapeless_response = BadShape) by reflexivity.
  refine (conj H1 (conj H2 (conj H3 _))).
  exact (call_api_malformed_answer_escapes E 1 sample_digitizer hello None empty_world
           shapeless_response H1 H2 H3).
Defined.

(** The retry budget of one model that times out on every request. *)
Lemma attempt_loop_model_times_out E self messages used last w :
  (forall tr, endpoint E tr (request_of self used messages) = PostRaises Timeout) ->
  attempt_loop E self messages used MAX_RETRIES 1 last w
  = (Return (Exhausted (Some Timeout)),
     extend E w (budget_events self messages (PostRaises Timeout)
                   timeout_failure growing_delay used)).
Proof.
  intros Hdown. unfold MAX_RETRIES.
  do 3 (rewrite attempt_loop_step; cbv zeta; rewrite Hdown; cbn [try_body verdict]).
  cbn [attempt_loop Nat.ltb Nat.leb MAX_RETRIES]. unfold ret.
  now rewrite !extend_extend.
Qed.

(** X9.  The fallback recovers the call: when every request to the primary
    model times out and the fallback model answers, [_call_api] returns the
    answer of the fallback model after the 3 attempts against the primary
    model (with their sleeps of 2 and 4 seconds), the warning of the
    switch, and one attempt against the fallback model. *)
Theorem call_api_fallback_recovers E depth self messages w res c :
  (forall tr, endpoint E tr (request_of self (model self) messages) = PostRaises Timeout) ->
  (forall tr, endpoint E tr (request_of self (fallback_model self) messages) = res) ->
  try_body res = inr c ->
  model self <> fallback_model self ->
  fallback_model self <> "" ->
  let started k used := Log INFO (ApiCallStarted k used) in
  let primary := Post (request_of self (model self) messages) (PostRaises Timeout) in
  let timed_out k := Log WARNING (TimeoutWarning k (RETRY_BASE_DELAY ^ Z.of_nat k)) in
  _call_api E (S (S depth)) self messages None w
  = (Return c,
     extend E w
       [ started 1%nat (model self); primary; timed_out 1%nat; Sleep (RETRY_BASE_DELAY ^ 1);
         started 2%nat (model self); primary; timed_out 2%nat; Sleep (RETRY_BASE_DELAY ^ 2);
         started 3%nat (model self); primary; timed_out 3%nat;
         Log WARNING (FallbackWarning (model self) (fallback_model self));
         started 1%nat (fallback_model self);
         Post (request_of self (fallback_model self) messages) res;
         Log INFO (ApiCallSucceeded res) ]).
Proof.
  intros Hdown Hup Hc Hne Hfb. cbv zeta.
  rewrite call_api_step. cbv zeta. cbn [model_or].
  rewrite (attempt_loop_model_times_out E self messages (model self) None w Hdown).
  rewrite bool_decide_eq_true_2 by exact Hne.
  assert (Hused : model_or (Some (fallback_model self)) (model self) = fallback_model self)
    by (cbn; destruct (fallback_model self); [congruence | reflexivity]).
  rewrite call_api_step. cbv zeta. rewrite Hused. unfold MAX_RETRIES.
  rewrite attempt_loop_step. cbv zeta. rewrite Hup, Hc.
  now rewrite !extend_extend.
Qed.

Lemma call_api_fallback_recovers_witness :
  let E := model_down_env (model sample_digitizer) "OK" in
  let res := PostReturns (answer "OK") in
  (forall tr, endpoint E tr (request_of sample_digitizer (model sample_digitizer) hello)
              = PostRaises Timeout)
  /\ (forall tr, endpoint E tr (request_of sample_digitizer (fallback_model sample_digitizer)
                                  hello) = res)
  /\ try_body res = inr (PyStr "OK")
  /\ (_call_api E 2 sample_digitizer hello None empty_world).1 = Return (PyStr "OK")
  /\ posted_models (trace (_call_api E 2 sample_digitizer hello None empty_world).2)
     = [model sample_digitizer; model sample_digitizer; model sample_digitizer;
        fallback_model sample_digitizer]
  /\ sleeps (trace (_call_api E 2 sample_digitizer hello None empty_world).2) = [2; 4].
Proof.
  intros E res.
  assert (H1 : forall tr,
             endpoint E tr (request_of sample_digitizer (model sample_digitizer) hello)
             = PostRaises Timeout) by reflexivity.
  assert (H2 : forall tr,
             endpoint E tr (request_of sample_digitizer (fallback_model sample_digitizer)
                              hello) = res) by reflexivity.
  assert (H3 : try_body res = inr (PyStr "OK")) by reflexivity.
  refine (conj H1 (conj H2 (conj H3 _))).
  rewrite (call_api_fallback_recovers E 0 sample_digitizer hello empty_world res (PyStr "OK")
             H1 H2 H3 ltac:(discriminate) ltac:(discriminate)).
  repeat split; reflexivity.
Defined.

(** X8.  With a fallback model that is named, a call needs only two
    activations: it never ends in [RecursionError], and its attempts go to
    the model asked for, at most [MAX_RETRIES] times, and after that to the
    fallback model, at most [MAX_RETRIES] times: never back, never to a
    third model. *)
Theorem call_api_primary_then_fallback E depth self messages model_arg w :
  fallback_model self <> "" ->
  let run := _call_api E (S (S depth)) self messages model_arg w in
  run.1 <> Raise RecursionError
  /\ exists evs n k,
       run.2 = extend E w evs
       /\ (n <= MAX_RETRIES)%nat /\ (k <= MAX_RETRIES)%nat
       /\ posted_models evs
          = replicate n (model_or model_arg (model self)) ++ replicate k (fallback_model self).
Proof.
  intros Hfb. cbv zeta.
  destruct (_call_api E (S (S depth)) self messages model_arg w) as [r w'] eqn:Hrun.
  cbn [fst snd].
  apply call_api_bounded in Hrun as (evs & -> & _ & (n & k & Hn & Hk & Hm) & Hrec);
    [|exact Hfb].
  split; [exact Hrec|]. now exists evs, n, k.
Qed.

Lemma call_api_primary_then_fallback_witness :
  let E := constant_env (PostRaises RequestException) in
  fallback_model sample_digitizer <> ""
  /\ (_call_api E 2 sample_digitizer hello None empty_world).1 <> Raise RecursionError
  /\ exists evs n k,
       (_call_api E 2 sample_digitizer hello None empty_world).2 = extend E empty_world evs
       /\ (n <= MAX_RETRIES)%nat /\ (k <= MAX_RETRIES)%nat
       /\ posted_models evs
          = replicate n (model sample_digitizer)
            ++ replicate k (fallback_model sample_digitizer).
Proof.
  intros E.
  assert (H : fallback_model sample_digitizer <> "") by discriminate.
  refine (conj H _).
  exact (call_api_primary_then_fallback E 0 sample_digitizer hello None empty_world H).
Defined.

(** X22.  A rate-limit or service-unavailable response (HTTP 429 or 503)
    is retried with the flat delay, not with the growing one: the status
    of the falsy response reads as ["?"], so the branch for 429 and 503 is
    passed over and the error is logged as an unclassified one.  With a
    single model the call makes its 3 attempts with two sleeps of
    [RETRY_BASE_DELAY] seconds and raises the general failure. *)
Theorem call_api_rate_limit_flat_delay E depth self messages w r :
  (forall tr rq, endpoint E tr rq = PostReturns r) ->
  status_code r = 429 \/ status_code r = 503 ->
  model self = fallback_model self ->
  let started k := Log INFO (ApiCallStarted k (model self)) in
  let rq := Post (request_of self (model self) messages) (PostReturns r) in
  let failed := Log ERROR (HttpErrorLogged Unknown EmptyString) in
  _call_api E (S depth) self messages None w
  = (Raise (RuntimeError (AllAttemptsFailed (Some (HTTPError (Some r))))),
     extend E w [ started 1%nat; rq; failed; Sleep RETRY_BASE_DELAY;
                  started 2%nat; rq; failed; Sleep RETRY_BASE_DELAY;
                  started 3%nat; rq; failed ]).
Proof.
  intros Hconst Hstatus Heq. cbv zeta.
  assert (Hr : 400 <= status_code r < 600) by lia.
  rewrite (call_api_rejected_terminal E self messages r depth None w Hconst Hr Heq).
  now rewrite <- Heq.
Qed.

Lemma call_api_rate_limit_flat_delay_witness :
  let r := error_response 429 "Too Many Requests" in
  let E := constant_env (PostReturns r) in
  (forall tr rq, endpoint E tr rq = PostReturns r)
  /\ status_code r = 429
  /\ model single_model_digitizer = fallback_model single_model_digitizer
  /\ sleeps (trace (_call_api E 1 single_model_digitizer hello None empty_world).2) = [2; 2]
  /\ attempts (trace (_call_api E 1 single_model_digitizer hello None empty_world).2) = 3%nat.
Proof.
  intros r E.
  assert (H1 : forall tr rq, endpoint E tr rq = PostReturns r) by reflexivity.
  assert (H2 : status_code r = 429) by reflexivity.
  assert (H3 : model single_model_digitizer = fallback_model single_model_digitizer)
    by reflexivity.
  refine (conj H1 (conj H2 (conj H3 _))).
  rewrite (call_api_rate_limit_flat_delay E 0 single_model_digitizer hello empty_world r
             H1 (or_introl H2) H3).
  split; reflexivity.
Defined.

(** * Further properties of the Pipeline Orchestrator *)

(** X10.  A run of [process_board] that returns leaves both documents on
    disk, made of the values the run's own exchanges delivered.  The raw
    document is written first: it is the heading with the name of the
    board, the time of the write, the model, the template and what stage 1
    delivered, followed by the text of stage 2.  The summary document is
    written second: it is the heading with the name of the board, the time
    of that write, the model and the template, followed by the text of
    stage 4, where stage 4 was asked with what stage 3 delivered, stage 3
    with the text of stage 2, and all of them with what stage 1 delivered.
    Nothing else is written. *)
Theorem process_board_documents E depth self image_path w paths w' :
  process_board E depth self image_path w = (Return paths, w') ->
  exists data s1 s2 s3 s4 before mid after,
    let nl := Str.nl in
    let raw_path := raw_path_of self image_path in
    let summary_path := summary_path_of self image_path in
    let raw :=
      "# Rohdaten-Transkription: " +:+ stem image_path +:+ nl +:+ nl
      +:+ "**Erstellt:** " +:+ strftime E (trace w ++ before) +:+ nl
      +:+ "**Modell:** " +:+ model self +:+ nl
      +:+ "**Template:** " +:+ template self +:+ nl +:+ nl
      +:+ "---" +:+ nl +:+ nl
      +:+ "## Strukturanalyse" +:+ nl +:+ nl +:+ fmt s1 +:+ nl +:+ nl
      +:+ "---" +:+ nl +:+ nl
      +:+ "## Transkription" +:+ nl +:+ nl +:+ s2 in
    let summary :=
      "# Executive Summary: " +:+ stem image_path +:+ nl +:+ nl
      +:+ "**Erstellt:** "
      +:+ strftime E (trace w ++ before ++ WriteText raw_path raw :: mid) +:+ nl
      +:+ "**Modell:** " +:+ model self +:+ nl
      +:+ "**Template:** " +:+ template self +:+ nl +:+ nl
      +:+ "---" +:+ nl +:+ nl +:+ s4 in
    files w !! path_str image_path = Some (File data)
    /\ paths = (raw_path, summary_path)
    /\ w' = extend E w (before ++ WriteText raw_path raw
                               :: mid ++ WriteText summary_path summary :: after)
    /\ writes before = [] /\ writes mid = [] /\ writes after = []
    /\ stage_output before
         (analyze_structure_messages self (image_b64_of data) (mime_type_of image_path)) s1
    /\ stage_output before
         (transcribe_raw_messages self (image_b64_of data) (mime_type_of image_path) s1)
         (PyStr s2)
    /\ stage_output mid (clean_and_enrich_messages self (PyStr s2) s1) s3
    /\ stage_output mid (synthesize_summary_messages self s3 s1) (PyStr s4)
    /\ files w' !! raw_path = Some (File raw)
    /\ files w' !! summary_path = Some (File summary).
Proof.
  intros Hrun. apply process_board_run in Hrun. board_run_cases Hrun.
  apply analyze_structure_spec in Ha as (evs1 & Hwa & H1 & Hd1).
  apply transcribe_raw_spec in Hb as (evs2 & Hwb & H2 & Hd2).
  apply clean_and_enrich_spec in Hc as (evs3 & Hwc & H3 & Hd3).
  apply synthesize_summary_spec in Hd as (evs4 & Hwd & H4 & Hd4).
  pose proof (delivered_stage_output E self _ _ _ H1 (Hd1 _ eq_refl)) as O1.
  pose proof (delivered_stage_output E self _ _ _ H2 (Hd2 _ eq_refl)) as O2.
  pose proof (delivered_stage_output E self _ _ _ H3 (Hd3 _ eq_refl)) as O3.
  pose proof (delivered_stage_output E self _ _ _ H4 (Hd4 _ eq_refl)) as O4.
  apply stage_events_no_writes in H1, H2, H3, H4.
  clear Hd1 Hd2 Hd3 Hd4 Hdir Hdir'.
  set (before := board_opening self image_path ++ evs1 ++ evs2).
  assert (Eb : wb = extend E w before)
    by (rewrite Hwb, Hwa, !extend_extend; subst before; now rewrite <- ?app_assoc).
  clear Hwa Hwb. subst wb.
  set (rawdoc := raw_document E self image_path t1 t2 (extend E w before)) in *.
  set (mid := [Log INFO (RawSaved (raw_path_of self image_path))] ++ evs3 ++ evs4).
  assert (Ed : wd = extend E w (before ++ WriteText (raw_path_of self image_path) rawdoc
                                       :: mid)).
  { rewrite Hwd, Hwc. unfold raw_saved. fold rawdoc. rewrite !extend_extend.
    subst mid. now rewrite <- ?app_assoc. }
  clear Hwc Hwd. subst wd.
  set (sumdoc := summary_document E self image_path t4
                   (extend E w (before ++ WriteText (raw_path_of self image_path) rawdoc
                                       :: mid))) in *.
  exists d, t1, t2, t3, t4, before, mid,
    [Log INFO (SummarySaved (summary_path_of self image_path));
     Log INFO (BoardFinished (stem image_path))].
  cbv zeta.
  rewrite <- (trace_extend E w before).
  rewrite <- (raw_document_text E self image_path t1 t2 (extend E w before)).
  fold rawdoc.
  rewrite <- (trace_extend E w (before ++ WriteText (raw_path_of self image_path) rawdoc
                                       :: mid)).
  rewrite <- (summary_document_text E self image_path t4).
  fold sumdoc.
  assert (Hw' : extend E (extend E w (before ++ WriteText (raw_path_of self image_path) rawdoc
                                             :: mid))
                  (summary_saved E self image_path t4
                     (extend E w (before ++ WriteText (raw_path_of self image_path) rawdoc
                                         :: mid)))
                = extend E w (before ++ WriteText (raw_path_of self image_path) rawdoc
                                     :: mid ++ WriteText (summary_path_of self image_path) sumdoc
                                     :: [Log INFO (SummarySaved (summary_path_of self image_path));
                                         Log INFO (BoardFinished (stem image_path))])).
  { unfold summary_saved. fold sumdoc. rewrite extend_extend, <- app_assoc. reflexivity. }
  rewrite Hw'.
  assert (Wb : writes before = [])
    by (subst before; now rewrite !writes_app, H1, H2).
  assert (Wm : writes mid = []) by (subst mid; now rewrite !writes_app, H3, H4).
  assert (Wall : writes (before ++ WriteText (raw_path_of self image_path) rawdoc
                                :: mid ++ WriteText (summary_path_of self image_path) sumdoc
                                :: [Log INFO (SummarySaved (summary_path_of self image_path));
                                    Log INFO (BoardFinished (stem image_path))])
                 = [(raw_path_of self image_path, rawdoc);
                    (summary_path_of self image_path, sumdoc)]).
  { rewrite writes_app, Wb.
    change (writes (WriteText ?p ?x :: ?l)) with ((p, x) :: writes l).
    cbn [app]. rewrite writes_app, Wm. reflexivity. }
  destruct (artifact_not_log_file self image_path) as [Lr Ls].
  split; [exact Hf|]. split; [reflexivity|]. split; [reflexivity|].
  split; [exact Wb|]. split; [exact Wm|]. split; [reflexivity|].
  split; [subst before; apply stage_output_later; now apply stage_output_mono|].
  split; [subst before; apply stage_output_later; now apply stage_output_later|].
  split; [subst mid; apply stage_output_later; now apply stage_output_mono|].
  split; [subst mid; apply stage_output_later; now apply stage_output_later|].
  split.
  - rewrite files_extend by exact Lr. rewrite Wall. cbn [apply_writes foldl fst snd].
    rewrite lookup_insert_ne by (apply not_eq_sym, raw_path_not_summary_path).
    apply lookup_insert_eq.
  - rewrite files_extend by exact Ls. rewrite Wall. cbn [apply_writes foldl fst snd].
    apply lookup_insert_eq.
Qed.

Lemma process_board_documents_witness :
  let E := scripted_env ["Layout: drei Spalten"; "## Spalte A"; "## Spalte A (4 Stimmen)";
                         "### Executive Summary"] in
  let w := world_with sample_png "PNG" in
  let run := process_board E 1 sample_digitizer sample_png w in
  run = (Return (raw_path_of sample_digitizer sample_png,
                 summary_path_of sample_digitizer sample_png), run.2)
  /\ (exists raw, files run.2 !! raw_path_of sample_digitizer sample_png = Some (File raw))
  /\ files run.2 !! "output/board1_Summary.md"
     = Some (File ("# Executive Summary: board1" +:+ Str.nl +:+ Str.nl
                   +:+ "**Erstellt:** 2026-02-26 10:00" +:+ Str.nl
                   +:+ "**Modell:** google/gemini-2.0-flash" +:+ Str.nl
                   +:+ "**Template:** custom" +:+ Str.nl +:+ Str.nl
                   +:+ "---" +:+ Str.nl +:+ Str.nl +:+ "### Executive Summary")).
Proof.
  intros E w run.
  assert (H : run = (Return (raw_path_of sample_digitizer sample_png,
                             summary_path_of sample_digitizer sample_png), run.2))
    by (vm_compute; reflexivity).
  refine (conj H _).
  destruct (process_board_documents E 1 sample_digitizer sample_png w _ run.2 H)
    as (data & s1 & s2 & s3 & s4 & before & mid & after & _ & _ & _ & _ & _ & _ & _ & _
        & _ & _ & Hraw & _).
  split; [eexists; exact Hraw|]. vm_compute. reflexivity.
Defined.

(** X11.  In every run [process_board] writes nothing, or the raw document
    only, or the raw document and then the summary document, each at its
    own path and nothing else, and it prints nothing; away from the log
    file, which its records go to, the file system at the end is the
    initial one with these writes; and the summary document is written
    exactly in the runs that return. *)
Theorem process_board_writes E depth self image_path w :
  let run := process_board E depth self image_path w in
  exists evs,
    run.2 = extend E w evs
    /\ Forall silent evs
    /\ (forall path, path <> LOG_FILE ->
                     files run.2 !! path = apply_writes (files w) (writes evs) !! path)
    /\ ((writes evs = [] /\ exists exn, run.1 = Raise exn)
        \/ (exists raw, writes evs = [(raw_path_of self image_path, raw)]
                        /\ exists exn, run.1 = Raise exn)
        \/ (exists raw summary,
              writes evs = [(raw_path_of self image_path, raw);
                            (summary_path_of self image_path, summary)]
              /\ run.1 = Return (raw_path_of self image_path,
                                 summary_path_of self image_path))).
Proof.
  cbv zeta.
  destruct (process_board E depth self image_path w) as [r w'] eqn:Hrun.
  apply process_board_effects in Hrun as (evs & -> & Hsilent & Hcases).
  exists evs. cbn [fst snd]. split; [reflexivity|]. split; [exact Hsilent|].
  split; [|exact Hcases]. intros path Hpath. now apply files_extend.
Qed.

(** X13.  [process_board] touches no file but its two artifacts and the
    log file: every other path holds after the run what it held before,
    and so does the image itself, whatever its suffix. *)
Theorem process_board_frame E depth self image_path w :
  let run := process_board E depth self image_path w in
  (forall path,
     path <> raw_path_of self image_path -> path <> summary_path_of self image_path ->
     path <> LOG_FILE ->
     files run.2 !! path = files w !! path)
  /\ files run.2 !! path_str image_path = files w !! path_str image_path.
Proof.
  cbv zeta.
  destruct (process_board E depth self image_path w) as [r w'] eqn:Hrun.
  cbn [snd].
  assert (Hother : forall path,
             path <> raw_path_of self image_path -> path <> summary_path_of self image_path ->
             path <> LOG_FILE ->
             files w' !! path = files w !! path).
  { intros path Hraw Hsum Hlog.
    apply process_board_effects in Hrun as (evs & -> & _ & Hcases).
    rewrite files_extend by exact Hlog.
    destruct Hcases as [[-> _] | [(raw & -> & _) | (raw & summary & -> & _)]];
      cbn [apply_writes foldl fst snd]; rewrite ?lookup_insert_ne by congruence;
      reflexivity. }
  split; [exact Hother|].
  destruct (decide (Str.lower (suffix image_path) ∈ SUPPORTED_FORMATS)) as [Hs|Hs].
  - destruct (image_not_artifact self image_path image_path Hs) as [Hraw Hsum].
    apply Hother; auto using image_not_log_file.
  - destruct (process_board_rejects E depth self image_path w) as [Hnone Hsome].
    destruct (files w !! path_str image_path) as [entry|] eqn:Hfile.
    + rewrite Hsome in Hrun by eauto. now injection Hrun as _ <-.
    + rewrite Hnone in Hrun by reflexivity. now injection Hrun as _ <-.
Qed.

(** X12.  The artifacts never collide: the raw and the summary path of one
    image differ, the four artifact paths of two images with different
    stems are pairwise different, no artifact has the path of an image
    with a supported suffix, and none is the log file. *)
Theorem artifact_paths_do_not_collide self p q :
  raw_path_of self p <> summary_path_of self p
  /\ (stem p <> stem q ->
      raw_path_of self p <> raw_path_of self q
      /\ raw_path_of self p <> summary_path_of self q
      /\ summary_path_of self p <> raw_path_of self q
      /\ summary_path_of self p <> summary_path_of self q)
  /\ (Str.lower (suffix p) ∈ SUPPORTED_FORMATS ->
      path_str p <> raw_path_of self q /\ path_str p <> summary_path_of self q)
  /\ raw_path_of self p <> LOG_FILE
  /\ summary_path_of self p <> LOG_FILE.
Proof.
  split; [apply raw_path_not_summary_path|].
  split; [apply artifacts_apart|]. split; [apply image_not_artifact|].
  apply artifact_not_log_file.
Qed.

Lemma attempts_extend_quiet E w evs :
  posts evs = [] -> attempts (trace (extend E w evs)) = attempts (trace w).
Proof.
  intros Hq. rewrite trace_extend, attempts_app. unfold attempts at 2. rewrite Hq.
  cbn. lia.
Qed.

Lemma analyze_structure_bounded E depth self image_b64 mime_type w r w' :
  fallback_model self <> "" ->
  analyze_structure E (S (S depth)) self image_b64 mime_type w = (r, w') ->
  (attempts (trace w') <= attempts (trace w) + 2 * MAX_RETRIES)%nat
  /\ r <> Raise RecursionError.
Proof. apply stage_bounded. Qed.

Lemma transcribe_raw_bounded E depth self image_b64 mime_type s1 w r w' :
  fallback_model self <> "" ->
  transcribe_raw E (S (S depth)) self image_b64 mime_type s1 w = (r, w') ->
  (attempts (trace w') <= attempts (trace w) + 2 * MAX_RETRIES)%nat
  /\ r <> Raise RecursionError.
Proof. apply stage_bounded. Qed.

Lemma clean_and_enrich_bounded E depth self s2 s1 w r w' :
  fallback_model self <> "" ->
  clean_and_enrich E (S (S depth)) self s2 s1 w = (r, w') ->
  (attempts (trace w') <= attempts (trace w) + 2 * MAX_RETRIES)%nat
  /\ r <> Raise RecursionError.
Proof. apply stage_bounded. Qed.

Lemma synthesize_summary_bounded E depth self s3 s1 w r w' :
  fallback_model self <> "" ->
  synthesize_summary E (S (S depth)) self s3 s1 w = (r, w') ->
  (attempts (trace w') <= attempts (trace w) + 2 * MAX_RETRIES)%nat
  /\ r <> Raise RecursionError.
Proof. apply stage_bounded. Qed.

(** X21.  With a fallback model that is named, a run of [process_board]
    over its four stages attempts at most 4 times 6 requests and never
    ends in [RecursionError]. *)
Theorem process_board_attempts_bounded E depth self image_path w :
  fallback_model self <> "" ->
  let run := process_board E (S (S depth)) self image_path w in
  (attempts (trace run.2) <= attempts (trace w) + 4 * (2 * MAX_RETRIES))%nat
  /\ run.1 <> Raise RecursionError.
Proof.
  intros Hfb. cbv zeta.
  destruct (process_board E (S (S depth)) self image_path w) as [r w'] eqn:Hrun.
  cbn [fst snd]. apply process_board_run in Hrun.
  board_run_cases Hrun;
    try (apply (analyze_structure_bounded _ _ _ _ _ _ _ _ Hfb) in Ha as (A1 & A3));
    try (apply (transcribe_raw_bounded _ _ _ _ _ _ _ _ _ Hfb) in Hb as (B1 & B3));
    try (apply (clean_and_enrich_bounded _ _ _ _ _ _ _ _ Hfb) in Hc as (C1 & C3));
    try (apply (synthesize_summary_bounded _ _ _ _ _ _ _ _ Hfb) in Hd as (D1 & D3));
    rewrite ?attempts_extend_quiet in * by reflexivity;
    (split; [unfold MAX_RETRIES in *; lia
            | first [discriminate | assumption | intros [= ->]; congruence]]).
Qed.

Lemma process_board_attempts_bounded_witness :
  let E := constant_env (PostRaises Timeout) in
  let w := world_with sample_png "PNG" in
  fallback_model sample_digitizer <> ""
  /\ (attempts (trace (process_board E 2 sample_digitizer sample_png w).2)
      <= attempts (trace w) + 4 * (2 * MAX_RETRIES))%nat
  /\ attempts (trace (process_board E 2 sample_digitizer sample_png w).2) = 6%nat.
Proof.
  intros E w.
  assert (H : fallback_model sample_digitizer <> "") by discriminate.
  refine (conj H (conj _ _)).
  - exact (proj1 (process_board_attempts_bounded E 0 sample_digitizer sample_png w H)).
  - vm_compute. reflexivity.
Defined.

(** X23.  A 2xx answer whose content is not a text (JSON [null], a list)
    is returned by the executor like any other.  When stage 2 delivers
    one, [process_board] raises [TypeError] where it appends the content to
    the heading of the raw document, before the write: the run ends with
    no artifact written. *)
Theorem process_board_content_not_text E depth self image_path w data s1 w1 shown w2 :
  files w !! path_str image_path = Some (File data) ->
  Str.lower (suffix image_path) ∈ SUPPORTED_FORMATS ->
  analyze_structure E depth self (image_b64_of data) (mime_type_of image_path)
    (extend E w (board_opening self image_path)) = (Return s1, w1) ->
  transcribe_raw E depth self (image_b64_of data) (mime_type_of image_path) s1 w1
    = (Return (PyOther shown), w2) ->
  process_board E depth self image_path w = (Raise TypeError, w2)
  /\ (exists evs, w2 = extend E w evs /\ writes evs = [])
  /\ (forall path, path <> LOG_FILE -> files w2 !! path = files w !! path).
Proof.
  intros Hfile Hsup H1 H2.
  assert (Hquiet : exists evs, w2 = extend E w evs /\ writes evs = []).
  { pose proof H1 as H1'. pose proof H2 as H2'.
    apply analyze_structure_spec in H1' as (evs1 & -> & E1 & _).
    apply transcribe_raw_spec in H2' as (evs2 & -> & E2 & _).
    apply stage_events_no_writes in E1, E2.
    exists (board_opening self image_path ++ evs1 ++ evs2).
    split; [now rewrite !extend_extend, <- ?app_assoc|].
    now rewrite !writes_app, E1, E2. }
  split; [|split; [exact Hquiet|]].
  - destruct (process_board E depth self image_path w) as [r w'] eqn:Hrun.
    apply process_board_run in Hrun.
    board_run_cases Hrun; try congruence;
      (assert (d = data) by congruence; subst d);
      (rewrite H1 in Ha; injection Ha as <- <-);
      try (rewrite H2 in Hb; discriminate Hb);
      (rewrite H2 in Hb; injection Hb as <- <-); reflexivity.
  - destruct Hquiet as (evs & -> & Hw). intros path Hpath.
    now apply files_extend_no_writes.
Qed.

Lemma process_board_content_not_text_witness :
  let E := constant_env (PostReturns null_answer) in
  let d := sample_digitizer in
  let w := world_with sample_png "PNG" in
  let run1 := analyze_structure E 1 d (image_b64_of "PNG") (mime_type_of sample_png)
                (extend E w (board_opening d sample_png)) in
  let run2 := transcribe_raw E 1 d (image_b64_of "PNG") (mime_type_of sample_png)
                (PyOther "None") run1.2 in
  try_body (PostReturns null_answer) = inr (PyOther "None")
  /\ files w !! path_str sample_png = Some (File "PNG")
  /\ Str.lower (suffix sample_png) ∈ SUPPORTED_FORMATS
  /\ run1 = (Return (PyOther "None"), run1.2)
  /\ run2 = (Return (PyOther "None"), run2.2)
  /\ process_board E 1 d sample_png w = (Raise TypeError, run2.2)
  /\ files run2.2 !! raw_path_of d sample_png = None.
Proof.
  intros E d w run1 run2.
  assert (H0 : files w !! path_str sample_png = Some (File "PNG")) by (vm_compute; reflexivity).
  assert (Hs : Str.lower (suffix sample_png) ∈ SUPPORTED_FORMATS)
    by (apply supported_intro; vm_compute; auto).
  assert (H1 : run1 = (Return (PyOther "None"), run1.2)) by (vm_compute; reflexivity).
  assert (H2 : run2 = (Return (PyOther "None"), run2.2)) by (vm_compute; reflexivity).
  split; [reflexivity|].
  refine (conj H0 (conj Hs (conj H1 (conj H2 _)))).
  destruct (process_board_content_not_text E 1 d sample_png w "PNG" (PyOther "None") run1.2
              "None" run2.2 H0 Hs H1 H2) as (Hrun & _ & Hfiles).
  split; [exact Hrun|].
  rewrite Hfiles by (apply artifact_not_log_file). vm_compute. reflexivity.
Defined.

(** X24.  A directory that has the name of an image with a supported
    suffix passes both checks of [process_board] ([exists()] holds for a
    directory); the run logs its four opening records and ends where the
    image is opened for reading, with [IsADirectoryError] and without any
    request. *)
Theorem process_board_image_is_directory E depth self image_path w :
  files w !! path_str image_path = Some Directory ->
  Str.lower (suffix image_path) ∈ SUPPORTED_FORMATS ->
  process_board E depth self image_path w
  = (Raise (IsADirectoryError (path_str image_path)),
     extend E w [ Log INFO Rule;
                  Log INFO (BoardStarted (name image_path));
                  Log INFO (BoardSettings (template self) (model self));
                  Log INFO Rule ]).
Proof.
  intros Himage Hsup.
  destruct (process_board E depth self image_path w) as [r w'] eqn:Hrun.
  apply process_board_run in Hrun.
  board_run_cases Hrun; try congruence; try contradiction. reflexivity.
Qed.

Lemma process_board_image_is_directory_witness :
  files directory_world !! path_str sample_png = Some Directory
  /\ Str.lower (suffix sample_png) ∈ SUPPORTED_FORMATS
  /\ (process_board (scripted_env ["Layout"]) 2 sample_digitizer sample_png directory_world).1
     = Raise (IsADirectoryError "fotos/board1.PNG")
  /\ attempts (trace (process_board (scripted_env ["Layout"]) 2 sample_digitizer sample_png
                        directory_world).2) = 0%nat.
Proof.
  assert (H0 : files directory_world !! path_str sample_png = Some Directory)
    by (vm_compute; reflexivity).
  assert (Hs : Str.lower (suffix sample_png) ∈ SUPPORTED_FORMATS)
    by (apply supported_intro; vm_compute; auto).
  refine (conj H0 (conj Hs _)).
  rewrite (process_board_image_is_directory (scripted_env ["Layout"]) 2 sample_digitizer
             sample_png directory_world H0 Hs).
  split; reflexivity.
Defined.

(** * Further properties of the Batch Coordinator *)

Lemma silent_not_reported evs :
  Forall silent evs ->
  reported evs = [] /\ reported_successes evs = 0%nat /\ reported_failures evs = 0%nat.
Proof.
  unfold reported_successes, reported_failures.
  induction 1 as [|ev evs Hev _ (IH1 & IH2 & IH3)]; [now repeat split|].
  destruct ev as [| | |what|]; cbn in *; try contradiction; auto.
Qed.

Lemma reported_app evs evs' :
  reported (evs ++ evs') = reported evs ++ reported evs'
  /\ reported_successes (evs ++ evs')
     = (reported_successes evs + reported_successes evs')%nat
  /\ reported_failures (evs ++ evs')
     = (reported_failures evs + reported_failures evs')%nat.
Proof.
  unfold reported, reported_successes, reported_failures.
  now rewrite !omap_app, !length_app.
Qed.

(** X14.  The loop reports on every image once and in the order of the
    list, success or failure, and the counts it returns are the counts it
    started with plus the successes and the failures reported. *)
Theorem process_images_reports E depth self images :
  forall success_count error_count w,
    let run := process_images E depth self images success_count error_count w in
    exists evs,
      run.2 = extend E w evs
      /\ reported evs = name <$> images
      /\ run.1 = Return ((success_count + reported_successes evs)%nat,
                         (error_count + reported_failures evs)%nat).
Proof.
  induction images as [|image_path rest IH]; intros success_count error_count w; cbv zeta.
  - exists []. cbn. rewrite !Nat.add_0_r. auto.
  - rewrite process_images_cons.
    destruct (process_board E depth self image_path w) as [[paths|exn] w1] eqn:Hrun;
      apply process_board_effects in Hrun as (evs1 & -> & Hsilent & _);
      destruct (silent_not_reported evs1 Hsilent) as (R1 & R2 & R3).
    + set (P := [Print (Succeeded (name image_path) paths.1 paths.2)]).
      destruct (IH (S success_count) error_count (extend E (extend E w evs1) P))
        as (evs & Hw' & Hrep & Hres).
      exists (evs1 ++ P ++ evs).
      split; [rewrite Hw', !extend_extend, <- ?app_assoc; reflexivity|].
      destruct (reported_app evs1 (P ++ evs)) as (-> & -> & ->).
      destruct (reported_app P evs) as (-> & -> & ->).
      rewrite R1, R2, R3, Hrep, Hres.
      change (reported P) with [name image_path].
      change (reported_successes P) with 1%nat.
      change (reported_failures P) with 0%nat.
      split; [reflexivity|]. f_equal. f_equal; lia.
    + set (F := [Log ERROR (BoardFailed (name image_path) exn);
                 Print (Failed (name image_path) exn)]).
      destruct (IH success_count (S error_count) (extend E (extend E w evs1) F))
        as (evs & Hw' & Hrep & Hres).
      exists (evs1 ++ F ++ evs).
      split; [rewrite Hw', !extend_extend, <- ?app_assoc; reflexivity|].
      destruct (reported_app evs1 (F ++ evs)) as (-> & -> & ->).
      destruct (reported_app F evs) as (-> & -> & ->).
      rewrite R1, R2, R3, Hrep, Hres.
      change (reported F) with [name image_path].
      change (reported_successes F) with 0%nat.
      change (reported_failures F) with 1%nat.
      split; [reflexivity|]. f_equal. f_equal; lia.
Qed.

(** X15.  [main] returns the counts of the loop; it prints the tally, with
    these counts and the resolved output directory, as the last event when
    there is more than one image, and prints no tally for one image or
    none. *)
Theorem main_processing_tally E depth self images w :
  let run := main_processing E depth self images w in
  let loop := process_images E depth self images 0 0 w in
  exists s e,
    loop.1 = Return (s, e)
    /\ run.1 = Return (s, e)
    /\ ((length images <= 1)%nat -> run.2 = loop.2)
    /\ ((1 < length images)%nat ->
        run.2 = extend E loop.2 [Print (Tally s e (resolve E (output_dir self)))]).
Proof.
  cbv zeta. unfold main_processing, bind, print, emit, ret.
  destruct (process_images_total E depth self images 0%nat 0%nat w)
    as (s & e & w' & -> & _).
  exists s, e. cbn [fst snd].
  destruct (1 <? length images)%nat eqn:Hlen; cbn [fst snd].
  - apply Nat.ltb_lt in Hlen. split; [reflexivity|]. split; [reflexivity|].
    split; [intros; lia | intros _; reflexivity].
  - apply Nat.ltb_ge in Hlen. split; [reflexivity|]. split; [reflexivity|].
    split; [intros _; reflexivity | intros; lia].
Qed.

(** An image that is turned down stays turned down while nothing is
    written: the log file has no supported suffix. *)
Lemma rejected_stays E w evs p :
  writes evs = [] ->
  files w !! path_str p = None \/ Str.lower (suffix p) ∉ SUPPORTED_FORMATS ->
  files (extend E w evs) !! path_str p = None \/ Str.lower (suffix p) ∉ SUPPORTED_FORMATS.
Proof.
  intros Hw [Hnone|Hsup]; [|now right].
  destruct (decide (Str.lower (suffix p) ∈ SUPPORTED_FORMATS)) as [Hs|Hs]; [|now right].
  left. rewrite files_extend_no_writes; auto using image_not_log_file.
Qed.

(** X16.  A batch of images that are all missing or of an unsupported
    format costs nothing: no request is attempted, nothing is slept,
    nothing is written, no file but the log file is changed, and every
    image is logged, reported and counted as a failure, with
    [FileNotFoundError] or [ValueError]. *)
Theorem batch_of_rejected_images E depth self images :
  forall success_count error_count w,
    Forall (fun p => files w !! path_str p = None
                     \/ Str.lower (suffix p) ∉ SUPPORTED_FORMATS) images ->
    exists evs,
      process_images E depth self images success_count error_count w
      = (Return (success_count, (error_count + length images)%nat), extend E w evs)
      /\ posts evs = [] /\ sleeps evs = [] /\ writes evs = []
      /\ reported_failures evs = length images
      /\ Forall (fun r => exists image_name exn,
                            r = (ERROR, BoardFailed image_name exn)
                            /\ ((exists path, exn = FileNotFoundError path)
                                \/ exists sfx, exn = ValueError sfx)) (logged evs)
      /\ (forall path, path <> LOG_FILE -> files (extend E w evs) !! path = files w !! path).
Proof.
  induction images as [|p rest IH]; intros success_count error_count w Hall.
  - exists []. cbn. rewrite Nat.add_0_r. repeat split; auto.
  - apply Forall_cons in Hall as [Hp Hrest].
    rewrite process_images_cons.
    assert (Hrej : exists exn,
               process_board E depth self p w = (Raise exn, w)
               /\ ((exists path, exn = FileNotFoundError path)
                   \/ exists sfx, exn = ValueError sfx)).
    { destruct (process_board_rejects E depth self p w) as [Hnone Hsome].
      destruct (files w !! path_str p) as [entry|] eqn:Hfile.
      - destruct Hp as [[=]|Hsup]. eexists. split; [apply Hsome; eauto|]. right. eauto.
      - eexists. split; [now apply Hnone|]. left. eauto. }
    destruct Hrej as (exn & -> & Hexn).
    set (F := [Log ERROR (BoardFailed (name p) exn); Print (Failed (name p) exn)]).
    assert (Hrest' : Forall (fun q => files (extend E w F) !! path_str q = None
                                      \/ Str.lower (suffix q) ∉ SUPPORTED_FORMATS) rest).
    { eapply Forall_impl; [exact Hrest|]. intros q Hq. now apply rejected_stays. }
    destruct (IH success_count (S error_count) (extend E w F) Hrest')
      as (evs & -> & Hposts & Hsleeps & Hwrites & Hfail & Hlog & Hfiles).
    exists (F ++ evs). rewrite extend_extend. cbn [length].
    replace (error_count + S (length rest))%nat with (S error_count + length rest)%nat by lia.
    split; [reflexivity|].
    split; [now rewrite posts_app, Hposts|].
    split; [now rewrite sleeps_app, Hsleeps|].
    split; [now rewrite writes_app, Hwrites|].
    split; [destruct (reported_app F evs) as (_ & _ & ->); now rewrite Hfail|].
    split.
    + unfold logged. rewrite omap_app. apply Forall_app_2; [|exact Hlog].
      constructor; [|constructor]. now exists (name p), exn.
    + intros path Hpath. rewrite <- extend_extend, Hfiles by exact Hpath.
      now apply files_extend_no_writes.
Qed.

Lemma batch_of_rejected_images_witness :
  let E := constant_env (PostRaises Timeout) in
  let run := process_images E 2 sample_digitizer two_rejected 0 0 rejected_world in
  Forall (fun p => files rejected_world !! path_str p = None
                   \/ Str.lower (suffix p) ∉ SUPPORTED_FORMATS) two_rejected
  /\ (exists evs,
        run = (Return (0%nat, 2%nat), extend E rejected_world evs)
        /\ posts evs = [] /\ writes evs = [])
  /\ logged (trace run.2)
     = [ (ERROR, BoardFailed "a.gif" (ValueError ".gif"));
         (ERROR, BoardFailed "b.png" (FileNotFoundError "fotos/b.png")) ].
Proof.
  intros E run.
  assert (H : Forall (fun p => files rejected_world !! path_str p = None
                               \/ Str.lower (suffix p) ∉ SUPPORTED_FORMATS) two_rejected).
  { constructor; [right | constructor; [left; vm_compute; reflexivity | constructor]].
    intros Hin. apply supported_cases in Hin. vm_compute in Hin.
    destruct Hin as [Hin|[Hin|[Hin|Hin]]]; discriminate Hin. }
  refine (conj H (conj _ _)).
  - destruct (batch_of_rejected_images E 2 sample_digitizer two_rejected 0%nat 0%nat
                rejected_world H) as (evs & Hrun & Hposts & _ & Hwrites & _).
    exists evs. auto.
  - vm_compute. reflexivity.
Defined.

(** * Further properties of the Prompt Composer *)

Lemma truthy_false_iff s : Str.truthy s = false <-> s = "".
Proof. destruct s; cbn; split; congruence. Qed.

Lemma nonempty_block body :
  "Board-Kontext:" +:+ Str.nl +:+ body +:+ Str.nl <> "".
Proof. intros H. apply truthy_false_iff in H. discriminate H. Qed.

(** X17.  There is no context block exactly when there is nothing to put
    in it: [_build_context_section] returns the empty string if and only
    if the context is empty and the template is [custom] or not in the
    dictionary. *)
Theorem build_context_section_empty_iff self :
  _build_context_section self = ""
  <-> context self = ""
      /\ (template self = "custom" \/ BOARD_TEMPLATES !! template self = None).
Proof.
  unfold _build_context_section, BOARD_TEMPLATES_get.
  destruct (Str.truthy (context self)) eqn:Hc.
  - (* some context: the block is never empty *)
    assert (Hne : context self <> "") by now apply truthy_true_iff.
    split; [|intros [? _]; congruence].
    destruct (bool_decide (template self = "custom")); cbn [andb].
    + rewrite truthy_append_r by exact Hc. intros H. now apply nonempty_block in H.
    + rewrite truthy_append_r
        by (now apply truthy_append_r, truthy_append_r, truthy_append_r).
      intros H. now apply nonempty_block in H.
  - apply truthy_false_iff in Hc. rewrite andb_false_r.
    destruct (BOARD_TEMPLATES !! template self) as [text|] eqn:Hk; cbn [from_option id].
    + destruct (Str.truthy text) eqn:Ht.
      * split; [intros H; now apply nonempty_block in H|].
        intros [_ [Hcustom | [=]]].
        rewrite Hcustom in Hk. vm_compute in Hk. injection Hk as <-. discriminate Ht.
      * split; [|reflexivity]. intros _. split; [exact Hc|]. left.
        destruct (decide (template self = "custom")) as [|Hn]; [assumption|].
        rewrite (named_template_text _ _ Hk Hn) in Ht. discriminate Ht.
    + split; [|reflexivity]. intros _. split; [exact Hc | now right].
Qed.

(** X18.  With a template key that is not in the dictionary and a context,
    the block has the context but no template text: under the heading the
    body starts with the empty line that would separate the two. *)
Theorem build_context_section_unknown_template self :
  BOARD_TEMPLATES !! template self = None ->
  context self <> "" ->
  _build_context_section self
  = "Board-Kontext:" +:+ Str.nl
    +:+ (Str.nl +:+ Str.nl +:+ "Zusätzlicher Kontext: " +:+ context self) +:+ Str.nl.
Proof.
  intros Hk Hc. apply truthy_true_iff in Hc.
  unfold _build_context_section, BOARD_TEMPLATES_get. rewrite Hk, Hc.
  assert (Hn : template self <> "custom").
  { intros Heq. rewrite Heq in Hk. vm_compute in Hk. discriminate Hk. }
  rewrite bool_decide_eq_false_2 by exact Hn. cbn [andb from_option].
  change ("" +:+ Str.nl +:+ Str.nl +:+ "Zusätzlicher Kontext: " +:+ context self)
    with (Str.nl +:+ Str.nl +:+ "Zusätzlicher Kontext: " +:+ context self).
  rewrite truthy_append_r; [reflexivity|].
  now apply truthy_append_r, truthy_append_r.
Qed.

Lemma build_context_section_unknown_template_witness :
  BOARD_TEMPLATES !! template (with_context "kanban" "Team A") = None
  /\ context (with_context "kanban" "Team A") <> ""
  /\ _build_context_section (with_context "kanban" "Team A")
     = "Board-Kontext:" +:+ Str.nl
       +:+ (Str.nl +:+ Str.nl +:+ "Zusätzlicher Kontext: " +:+ "Team A") +:+ Str.nl.
Proof.
  assert (H1 : BOARD_TEMPLATES !! template (with_context "kanban" "Team A") = None)
    by (vm_compute; reflexivity).
  assert (H2 : context (with_context "kanban" "Team A") <> "") by discriminate.
  refine (conj H1 (conj H2 _)).
  exact (build_context_section_unknown_template (with_context "kanban" "Team A") H1 H2).
Defined.

(** * Further properties of the image encoding and of the connection test *)

Lemma mime_of_outside s : s ∉ SUPPORTED_FORMATS -> mime_of s = "image/jpeg".
Proof.
  intros Hs. unfold mime_of, mime_map. cbn [list_to_map foldr curry uncurry fst snd].
  repeat (rewrite lookup_insert_ne
            by (intros <-; apply Hs, supported_intro; auto)).
  now rewrite lookup_empty.
Qed.

(** X19.  [_encode_image] turns no suffix down: for a file that exists and
    whose lowered suffix is not in the table it returns the base64 text
    with the media type [image/jpeg], the default of the lookup. *)
Theorem encode_image_unknown_suffix self image_path w data :
  files w !! path_str image_path = Some (File data) ->
  Str.lower (suffix image_path) ∉ SUPPORTED_FORMATS ->
  _encode_image self image_path w = (Return (Base64.b64encode data, "image/jpeg"), w).
Proof.
  intros Hfile Hs. unfold _encode_image, bind, read_bytes. rewrite Hfile.
  now rewrite (mime_of_outside _ Hs).
Qed.

Lemma encode_image_unknown_suffix_witness :
  files (world_with sample_gif "GIF89a") !! path_str sample_gif = Some (File "GIF89a")
  /\ (Str.lower (suffix sample_gif) ∉ SUPPORTED_FORMATS)
  /\ _encode_image sample_digitizer sample_gif (world_with sample_gif "GIF89a")
     = (Return ("R0lGODlh", "image/jpeg"), world_with sample_gif "GIF89a").
Proof.
  assert (H1 : files (world_with sample_gif "GIF89a") !! path_str sample_gif
               = Some (File "GIF89a"))
    by (vm_compute; reflexivity).
  assert (H2 : Str.lower (suffix sample_gif) ∉ SUPPORTED_FORMATS).
  { intros H. apply supported_cases in H. vm_compute in H.
    destruct H as [H|[H|[H|H]]]; discriminate H. }
  refine (conj H1 (conj H2 _)).
  exact (encode_image_unknown_suffix sample_digitizer sample_gif _ "GIF89a" H1 H2).
Defined.

(** X20.  The connection test never shows the HTTP status of a failure:
    for every response with a status from 400 to 599 it logs that it
    starts, makes its one request and prints the API error line with the
    status ["?"] and the text of the exception, not the status and the
    body of the response, because the response of the [HTTPError] is
    falsy; and it ends normally. *)
Theorem connection_test_hides_status E api_key model w r :
  let started := Log INFO (ConnectionTestStarted model) in
  endpoint E (trace w ++ [started]) (connection_test_request api_key model) = PostReturns r ->
  400 <= status_code r < 600 ->
  run_connection_test E api_key model w
  = (Return tt,
     extend E w [ started;
                  Post (connection_test_request api_key model) (PostReturns r);
                  Print (ApiFailure Unknown (inr (HTTPError (Some r)))) ]).
Proof.
  intros started Hres Hr. destruct (rejected_response_unknown r Hr) as (_ & Hs & _).
  unfold run_connection_test. unfold bind at 1. rewrite (log_run E).
  unfold bind at 1. rewrite post_run.
  change (trace (extend E w [Log INFO (ConnectionTestStarted model)]))
    with (trace w ++ [started]).
  rewrite Hres, (rejected_response_try_body r Hr), Hs.
  unfold status_of in Hs. destruct (response_truthy (Some r)); [discriminate Hs|].
  rewrite (print_run E), !extend_extend. reflexivity.
Qed.

Lemma connection_test_hides_status_witness :
  let r := error_response 401 "Unauthorized" in
  let E := constant_env (PostReturns r) in
  let started := Log INFO (ConnectionTestStarted "m") in
  endpoint E (trace empty_world ++ [started]) (connection_test_request "sk-or-test" "m")
  = PostReturns r
  /\ 400 <= status_code r < 600
  /\ trace (run_connection_test E "sk-or-test" "m" empty_world).2
     = [ started;
         Post (connection_test_request "sk-or-test" "m") (PostReturns r);
         Print (ApiFailure Unknown (inr (HTTPError (Some r)))) ].
Proof.
  intros r E started.
  assert (H1 : endpoint E (trace empty_world ++ [started])
                 (connection_test_request "sk-or-test" "m")
               = PostReturns r) by reflexivity.
  assert (H2 : 400 <= status_code r < 600) by (cbn; lia).
  refine (conj H1 (conj H2 _)).
  now rewrite (connection_test_hides_status E "sk-or-test" "m" empty_world r H1 H2).
Defined.
